(** * Mini5 five-band QRP SSB transceiver (DK7IH, 2020): control core

    A shallow embedding of the control logic of [Mini5.c] (ATmega328,
    AD9850 DDS, Si5351 LO) and the properties checked against it.

    The source names its compiler, "GCC (GNU AVR C-Compiler)".  Target
    conventions of avr-gcc that the embedding writes out:
    - [int] is 16 bits, [long] is 32 bits, both two's complement with
      wrap-around; [unsigned char] is 8 bits;
    - [double] is the IEEE-754 binary32 format (24-bit significand), as on
      every 8-bit AVR tool chain of the time;
    - [>>] on a signed value is an arithmetic shift.

    Display output (the ST7735 routines, [show_msg], [show_meter], ...) only
    writes to the LCD and to display bookkeeping variables; it is left out.
    Calls that program a device are recorded in a trace. *)

From Stdlib Require Import ZArith List Bool Lia.
From Stdlib Require Import Floats.SpecFloat.
From stdpp Require Import base option list gmap.

Local Open Scope Z_scope.

#[global] Arguments Z.testbit : simpl never.

(* ================================================================== *)
(** * Machine integers *)

Module MachInt.

(** Two's complement wrap-around to [w] bits (signed result). *)
Definition wrap (w : Z) (x : Z) : Z :=
  (x + 2 ^ (w - 1)) mod 2 ^ w - 2 ^ (w - 1).

Definition int16 (x : Z) : Z := wrap 16 x.   (* int  *)
Definition int32 (x : Z) : Z := wrap 32 x.   (* long *)
Definition uint8 (x : Z) : Z := x mod 256.   (* unsigned char, uint8_t *)
Definition uint16 (x : Z) : Z := x mod 65536. (* unsigned int *)

(** A C condition: non-zero is true. *)
Definition truthy (x : Z) : bool := negb (x =? 0).

(** C arrays indexed by an [int]; a read outside the array yields 0 and a
    write outside is dropped (the firmware never does either). *)
Definition aget (l : list Z) (i : Z) : Z := default 0 (l !! Z.to_nat i).
Definition aset (l : list Z) (i : Z) (v : Z) : list Z := <[Z.to_nat i := v]> l.

End MachInt.
Export MachInt.

(* ================================================================== *)
(** * The AVR [double]: IEEE-754 binary32 *)

Module F32.

Definition prec : Z := 24.
Definition emax : Z := 128.

(** Conversion of a [long] to [double] (round to nearest, ties to even). *)
Definition of_long (n : Z) : spec_float := binary_normalize prec emax n 0 false.

Definition div : spec_float -> spec_float -> spec_float := SFdiv prec emax.
Definition mul : spec_float -> spec_float -> spec_float := SFmul prec emax.

(** Magnitude of a finite float, truncated towards zero. *)
Definition trunc_mag (m : positive) (e : Z) : Z :=
  match e with
  | Zneg p => Z.shiftr (Zpos m) (Zpos p)
  | _ => Z.shiftl (Zpos m) e
  end.

(** The cast [(long) x]: truncation towards zero.  C leaves the result
    undefined when the value does not fit; here it is wrapped to 32 bits,
    and infinities and NaN give 0.  Neither case arises below 62.5 MHz. *)
Definition to_long (x : spec_float) : Z :=
  match x with
  | S754_finite s m e => int32 (if s then - trunc_mag m e else trunc_mag m e)
  | _ => 0
  end.

End F32.

(* ================================================================== *)
(** * Global constants and variables *)

Definition OFF_LAST_BAND_USED : Z := 0.
Definition OFF_LAST_VFO_USED : Z := 5.
Definition OFF_LAST_SIDEBAND_USED : Z := 6.
Definition OFF_VFO_DATA : Z := 7.
Definition OFF_FREQ_DATA : Z := 64.

Definition MAXBANDS : Z := 5.

Definition DDS_FQ_UD : Z := 2.
Definition DDS_SDATA : Z := 3.
Definition DDS_W_CLK : Z := 4.

Definition SYNTH_MS_0 : Z := 42.
Definition SYNTH_MS_1 : Z := 50.
Definition SYNTH_MS_2 : Z := 58.

(** Immutable band table. *)
Definition std_sideband : list Z := [0; 0; 1; 1; 1].
Definition c_freq : list Z := [3650000; 7120000; 14180000; 18100000; 21290000].
Definition band_f0 : list Z := [3490000; 6990000; 13990000; 18060000; 20990000].
Definition band_f1 : list Z := [3810000; 7210000; 14360000; 18170000; 21460000].

(** Calls that program a device: the Si5351 and the MCP4725 over TWI, the
    AD9850 over its serial port (whose pin writes are in [dds_pins]). *)
Inductive event : Type :=
| Si5351_set_freq (synth freq : Z)
| AD9850_set (fx : Z)
| MCP4725_set (v : Z).

(** Interrupt requests. *)
Inductive irq : Type :=
| PCINT0 (pinb : Z)     (* pin change on the encoder, with the value of PINB *)
| TIMER1_COMPA.         (* 10 Hz tick *)

(** The DDS port register (PORTB) and every value written to it, newest
    first. *)
Record dds_pins : Type := mkPins {
  DDS_PORT : Z;
  dds_writes : list Z
}.

(** A write to the DDS port register: the new value is also logged. *)
Definition write_DDS_PORT (v : Z) (d : dds_pins) : dds_pins :=
  mkPins v (v :: dds_writes d).

(** The global variables of the firmware, the EEPROM, the two output ports
    the control core writes, and what has left the controller so far.
    [f_vfo] is the C array [long f_vfo[MAXBANDS][2]] in row-major order:
    [f_vfo[b][v]] is element [2 * b + v].  The trace is newest first. *)
Record state : Type := mkState {
  cur_vfo : Z;
  f_vfo : list Z;
  laststate : Z;
  tuningknob : Z;
  runseconds10 : Z;
  tuningcount : Z;
  f_lo : list Z;
  sideband : Z;
  cur_band : Z;
  tx_preset : list Z;
  thresh : Z;
  eeprom : gmap Z Z;
  dds : dds_pins;
  PORTD : Z;
  trace : list event;
  adc_count : nat
}.

Definition set_cur_vfo (v : Z) (s : state) : state :=
  mkState v (f_vfo s) (laststate s) (tuningknob s) (runseconds10 s) (tuningcount s)
    (f_lo s) (sideband s) (cur_band s) (tx_preset s) (thresh s) (eeprom s)
    (dds s) (PORTD s) (trace s) (adc_count s).
Definition set_f_vfo (v : list Z) (s : state) : state :=
  mkState (cur_vfo s) v (laststate s) (tuningknob s) (runseconds10 s) (tuningcount s)
    (f_lo s) (sideband s) (cur_band s) (tx_preset s) (thresh s) (eeprom s)
    (dds s) (PORTD s) (trace s) (adc_count s).
Definition set_laststate (v : Z) (s : state) : state :=
  mkState (cur_vfo s) (f_vfo s) v (tuningknob s) (runseconds10 s) (tuningcount s)
    (f_lo s) (sideband s) (cur_band s) (tx_preset s) (thresh s) (eeprom s)
    (dds s) (PORTD s) (trace s) (adc_count s).
Definition set_tuningknob (v : Z) (s : state) : state :=
  mkState (cur_vfo s) (f_vfo s) (laststate s) v (runseconds10 s) (tuningcount s)
    (f_lo s) (sideband s) (cur_band s) (tx_preset s) (thresh s) (eeprom s)
    (dds s) (PORTD s) (trace s) (adc_count s).
Definition set_runseconds10 (v : Z) (s : state) : state :=
  mkState (cur_vfo s) (f_vfo s) (laststate s) (tuningknob s) v (tuningcount s)
    (f_lo s) (sideband s) (cur_band s) (tx_preset s) (thresh s) (eeprom s)
    (dds s) (PORTD s) (trace s) (adc_count s).
Definition set_tuningcount (v : Z) (s : state) : state :=
  mkState (cur_vfo s) (f_vfo s) (laststate s) (tuningknob s) (runseconds10 s) v
    (f_lo s) (sideband s) (cur_band s) (tx_preset s) (thresh s) (eeprom s)
    (dds s) (PORTD s) (trace s) (adc_count s).
Definition set_f_lo (v : list Z) (s : state) : state :=
  mkState (cur_vfo s) (f_vfo s) (laststate s) (tuningknob s) (runseconds10 s) (tuningcount s)
    v (sideband s) (cur_band s) (tx_preset s) (thresh s) (eeprom s)
    (dds s) (PORTD s) (trace s) (adc_count s).
Definition set_sideband (v : Z) (s : state) : state :=
  mkState (cur_vfo s) (f_vfo s) (laststate s) (tuningknob s) (runseconds10 s) (tuningcount s)
    (f_lo s) v (cur_band s) (tx_preset s) (thresh s) (eeprom s)
    (dds s) (PORTD s) (trace s) (adc_count s).
Definition set_cur_band (v : Z) (s : state) : state :=
  mkState (cur_vfo s) (f_vfo s) (laststate s) (tuningknob s) (runseconds10 s) (tuningcount s)
    (f_lo s) (sideband s) v (tx_preset s) (thresh s) (eeprom s)
    (dds s) (PORTD s) (trace s) (adc_count s).
Definition set_tx_preset (v : list Z) (s : state) : state :=
  mkState (cur_vfo s) (f_vfo s) (laststate s) (tuningknob s) (runseconds10 s) (tuningcount s)
    (f_lo s) (sideband s) (cur_band s) v (thresh s) (eeprom s)
    (dds s) (PORTD s) (trace s) (adc_count s).
Definition set_thresh (v : Z) (s : state) : state :=
  mkState (cur_vfo s) (f_vfo s) (laststate s) (tuningknob s) (runseconds10 s) (tuningcount s)
    (f_lo s) (sideband s) (cur_band s) (tx_preset s) v (eeprom s)
    (dds s) (PORTD s) (trace s) (adc_count s).
Definition set_eeprom (v : gmap Z Z) (s : state) : state :=
  mkState (cur_vfo s) (f_vfo s) (laststate s) (tuningknob s) (runseconds10 s) (tuningcount s)
    (f_lo s) (sideband s) (cur_band s) (tx_preset s) (thresh s) v
    (dds s) (PORTD s) (trace s) (adc_count s).
Definition set_dds (v : dds_pins) (s : state) : state :=
  mkState (cur_vfo s) (f_vfo s) (laststate s) (tuningknob s) (runseconds10 s) (tuningcount s)
    (f_lo s) (sideband s) (cur_band s) (tx_preset s) (thresh s) (eeprom s)
    v (PORTD s) (trace s) (adc_count s).
Definition set_PORTD (v : Z) (s : state) : state :=
  mkState (cur_vfo s) (f_vfo s) (laststate s) (tuningknob s) (runseconds10 s) (tuningcount s)
    (f_lo s) (sideband s) (cur_band s) (tx_preset s) (thresh s) (eeprom s)
    (dds s) v (trace s) (adc_count s).
Definition set_adc_count (v : nat) (s : state) : state :=
  mkState (cur_vfo s) (f_vfo s) (laststate s) (tuningknob s) (runseconds10 s) (tuningcount s)
    (f_lo s) (sideband s) (cur_band s) (tx_preset s) (thresh s) (eeprom s)
    (dds s) (PORTD s) (trace s) v.

Definition emit (e : event) (s : state) : state :=
  mkState (cur_vfo s) (f_vfo s) (laststate s) (tuningknob s) (runseconds10 s) (tuningcount s)
    (f_lo s) (sideband s) (cur_band s) (tx_preset s) (thresh s) (eeprom s)
    (dds s) (PORTD s) (e :: trace s) (adc_count s).

(** [f_vfo[b][v]] *)
Definition f_vfo_at (s : state) (b v : Z) : Z := aget (f_vfo s) (2 * b + v).
Definition set_f_vfo_at (b v : Z) (f : Z) (s : state) : state :=
  set_f_vfo (aset (f_vfo s) (2 * b + v) f) s.

(** The state after reset: the C initialisers, a given EEPROM content, the
    ports as [main] leaves them after pin configuration. *)
Definition power_on (e : gmap Z Z) : state :=
  {| cur_vfo := 0;
     f_vfo := [3650000; 3650000; 7120000; 7120000; 14200000; 14280000;
               18080000; 18150000; 21290000; 21390000];
     laststate := 0;
     tuningknob := 0;
     runseconds10 := 0;
     tuningcount := 0;
     f_lo := [8998660; 9001800; 9000000];
     sideband := 1;
     cur_band := 0;
     tx_preset := [0; 0; 0; 0; 0; 0];
     thresh := 5;
     eeprom := e;
     dds := {| DDS_PORT := 3; dds_writes := [] |};
     PORTD := 0;
     trace := [];
     adc_count := 0 |}.

(* ================================================================== *)
(** * EEPROM functions *)

(** A blank cell reads 0xFF. *)
Definition eeprom_read_byte (s : state) (adr : Z) : Z :=
  match eeprom s !! adr with
  | Some v => uint8 v
  | None => 255
  end.

Definition eeprom_write_byte (adr : Z) (v : Z) (s : state) : state :=
  set_eeprom (<[adr := uint8 v]> (eeprom s)) s.

Definition load_tx_preset (band : Z) (s : state) : Z :=
  let adr := int16 (128 + band * 2) in
  let v := int16 (Z.shiftl (eeprom_read_byte s adr) 8) in
  let v := int16 (v + eeprom_read_byte s (adr + 1)) in
  if (0 <=? v) && (v <=? 4095) then v else 2048.

Definition store_tx_preset (value band : Z) (s : state) : state :=
  let adr := int16 (128 + band * 2) in
  let s := eeprom_write_byte adr (Z.land (Z.shiftr value 8) 15) s in
  eeprom_write_byte (adr + 1) (Z.land value 255) s.

Definition load_frequency (vfo band : Z) (s : state) : Z :=
  let start_adr := int16 (vfo * 4 + band * 8 + OFF_FREQ_DATA) in
  let hmsb := eeprom_read_byte s start_adr in
  let hlsb := eeprom_read_byte s (start_adr + 1) in
  let lmsb := eeprom_read_byte s (start_adr + 2) in
  let llsb := eeprom_read_byte s (start_adr + 3) in
  int32 (int32 (int32 (int32 (16777216 * hmsb) + int32 (65536 * hlsb))
                + uint16 (256 * lmsb))
         + llsb).

Definition store_frequency (vfo band f : Z) (s : state) : state :=
  let start_adr := int16 (vfo * 4 + band * 8 + OFF_FREQ_DATA) in
  let hiword := Z.shiftr f 16 in
  let loword := int32 (f - int32 (Z.shiftl hiword 16)) in
  let hmsb := uint8 (Z.shiftr hiword 8) in
  let hlsb := uint8 (int32 (hiword - int16 (Z.shiftl hmsb 8))) in
  let lmsb := uint8 (Z.shiftr loword 8) in
  let llsb := uint8 (int32 (loword - int16 (Z.shiftl lmsb 8))) in
  let s := eeprom_write_byte start_adr hmsb s in
  let s := eeprom_write_byte (start_adr + 1) hlsb s in
  let s := eeprom_write_byte (start_adr + 2) lmsb s in
  eeprom_write_byte (start_adr + 3) llsb s.

Definition load_vfo (xband : Z) (s : state) : Z :=
  let start_adr := int16 (xband + OFF_VFO_DATA) in
  let r := eeprom_read_byte s start_adr in
  if (r =? 0) || (r =? 1) then r else -1.

Definition store_vfo (xband xvfo : Z) (s : state) : state :=
  eeprom_write_byte (int16 (xband + OFF_VFO_DATA)) xvfo s.

Definition load_band (s : state) : Z :=
  let r := eeprom_read_byte s OFF_LAST_BAND_USED in
  if (0 <=? r) && (r <=? 4) then r else -1.

Definition store_current_operation (cband cvfo sband frequency : Z) (s : state) : state :=
  let s := eeprom_write_byte OFF_LAST_BAND_USED cband s in
  let s := store_vfo cband cvfo s in
  let s := eeprom_write_byte OFF_LAST_SIDEBAND_USED sband s in
  store_frequency cvfo cband frequency s.

(* ================================================================== *)
(** * SPI DDS AD9850 *)

Definition spi_send_bit (sbit : Z) (d : dds_pins) : dds_pins :=
  let d :=
    if truthy sbit
    then write_DDS_PORT (uint8 (Z.lor (DDS_PORT d) (Z.shiftl 1 DDS_SDATA))) d
    else write_DDS_PORT (uint8 (Z.land (DDS_PORT d) (Z.lnot (Z.shiftl 1 DDS_SDATA)))) d in
  let d := write_DDS_PORT (uint8 (Z.lor (DDS_PORT d) (Z.shiftl 1 DDS_W_CLK))) d in
  write_DDS_PORT (uint8 (Z.land (DDS_PORT d) (Z.lnot (Z.shiftl 1 DDS_W_CLK)))) d.

(** [fword1]: the tuning word.  The multiplication by 2^32 is split in two
    multiplications by 65536, all in [double]. *)
Definition fword1 (fx : Z) : Z :=
  let clk := 125000000 in
  let fword0 := F32.mul (F32.div (F32.of_long fx) (F32.of_long clk)) (F32.of_long 65536) in
  F32.to_long (F32.mul fword0 (F32.of_long 65536)).

Definition hiword (w : Z) : Z := Z.shiftr w 16.
Definition loword (w : Z) : Z := int32 (w - int32 (Z.shiftl (hiword w) 16)).

(** [for(t1 = 0; t1 < n; t1++) { spi_send_bit(w & x); x <<= 1; }]
    The argument [w & x] is a [long] passed to an [int] parameter. *)
Fixpoint send_bits (n : nat) (w x : Z) (d : dds_pins) : dds_pins :=
  match n with
  | O => d
  | S n' => send_bits n' w (int32 (Z.shiftl x 1)) (spi_send_bit (int16 (Z.land w x)) d)
  end.

(** [for(t1 = 0; t1 < n; t1++) spi_send_bit(0);] *)
Fixpoint send_zeros (n : nat) (d : dds_pins) : dds_pins :=
  match n with
  | O => d
  | S n' => send_zeros n' (spi_send_bit 0 d)
  end.

(** The 40-bit programming sequence for a given tuning word. *)
Definition send_fword (w : Z) (d : dds_pins) : dds_pins :=
  let d := write_DDS_PORT (uint8 (Z.land (DDS_PORT d) (Z.lnot (Z.shiftl 1 DDS_FQ_UD)))) d in
  let d := send_bits 16 (loword w) 1 d in
  let d := send_bits 16 (hiword w) 1 d in
  let d := send_zeros 8 d in
  write_DDS_PORT (uint8 (Z.lor (DDS_PORT d) (Z.shiftl 1 DDS_FQ_UD))) d.

Definition set_frequency_ad9850 (fx : Z) (s : state) : state :=
  set_dds (send_fword (fword1 fx) (dds s)) (emit (AD9850_set fx) s).

(** What the AD9850 sees of a sequence of port values (oldest first),
    starting from port value [p]: the level of SDATA at every rising edge
    of W_CLK. *)
Fixpoint clocked_bits (p : Z) (ws : list Z) : list bool :=
  match ws with
  | [] => []
  | w :: ws' =>
      if negb (Z.testbit p DDS_W_CLK) && Z.testbit w DDS_W_CLK
      then Z.testbit w DDS_SDATA :: clocked_bits w ws'
      else clocked_bits w ws'
  end.

(** The same for the frequency-update line: the levels FQ_UD takes. *)
Definition fq_ud_levels (ws : list Z) : list bool := map (fun w => Z.testbit w DDS_FQ_UD) ws.

(** Bits [0 .. n-1] of [w], least significant first. *)
Definition bits_lsb_first (n : nat) (w : Z) : list bool :=
  map (fun i => Z.testbit w (Z.of_nat i)) (seq 0 n).

(** Set LO freq to correct sideband.  [si5351_set_freq] sends the divider
    registers over TWI; the call is recorded. *)
Definition set_lo (sb : Z) (s : state) : state :=
  emit (Si5351_set_freq SYNTH_MS_0 (aget (f_lo s) sb)) s.

Definition mcp4725_set_value (v : Z) (s : state) : state := emit (MCP4725_set v) s.

(* ================================================================== *)
(** * Interrupt handlers and tuning *)

(** Rotary encoder. *)
Definition ISR_PCINT0_vect (pinb : Z) (s : state) : state :=
  let gray := Z.land pinb 3 in
  let st := Z.lxor (Z.shiftr gray 1) gray in
  if negb (st =? laststate s)
  then
    let s := set_tuningknob (int16 (tuningknob s + (Z.land (laststate s - st) 3 - 2))) s in
    let s := set_laststate st s in
    set_tuningcount (int32 (tuningcount s + 1)) s
  else s.

(** Timer 1 seconds counter. *)
Definition ISR_TIMER1_COMPA_vect (s : state) : state :=
  set_tuningcount 0 (set_runseconds10 (int32 (runseconds10 s + 1)) s).

Definition serve (i : irq) (s : state) : state :=
  match i with
  | PCINT0 pinb => ISR_PCINT0_vect pinb s
  | TIMER1_COMPA => ISR_TIMER1_COMPA_vect s
  end.

Definition serve_all (l : list irq) (s : state) : state := fold_left (fun s i => serve i s) l s.

(** The product is a [long]; the function returns [int]. *)
Definition calc_tuningfactor (s : state) : Z :=
  int16 (int32 (tuningcount s * Z.shiftr (tuningcount s) 1)).

(** Calc new frequency from rotary encoder. *)
Definition tune_frequency (fx : Z) (s : state) : Z * state :=
  if tuningknob s >? 2
  then (int32 (fx + calc_tuningfactor s), set_tuningknob 0 s)
  else if tuningknob s <? -2
  then (int32 (fx - calc_tuningfactor s), set_tuningknob 0 s)
  else (0, s).

(* ================================================================== *)
(** * Radio control *)

(** [PORTD |= (1 << t1)] or [PORTD &= ~(1 << t1)] for relay bit [t1]. *)
Definition set_relay_bit (bcode t1 : Z) (s : state) : state :=
  if truthy (Z.land bcode (Z.shiftl 1 t1))
  then set_PORTD (uint8 (Z.lor (PORTD s) (Z.shiftl 1 t1))) s
  else set_PORTD (uint8 (Z.land (PORTD s) (Z.lnot (Z.shiftl 1 t1)))) s.

Definition set_band (bcode : Z) (s : state) : state :=
  let s := set_PORTD (uint8 (Z.land (PORTD s) (Z.lnot (Z.shiftl 1 0)))) s in
  let s := set_PORTD (uint8 (Z.land (PORTD s) (Z.lnot (Z.shiftl 1 1)))) s in
  let s := set_PORTD (uint8 (Z.land (PORTD s) (Z.lnot (Z.shiftl 1 2)))) s in
  if bcode <? 0 then s
  else
    let s := set_relay_bit bcode 0 s in
    let s := set_relay_bit bcode 1 s in
    let s := set_relay_bit bcode 2 s in
    (* Set LO to preferred sideband of new ham band *)
    set_lo (aget std_sideband bcode) s.

Definition is_mem_freq_ok (f cband : Z) : bool :=
  (aget band_f0 cband <=? f) && (f <=? aget band_f1 cband).

(** The DDS is always programmed with the VFO frequency plus the LO
    frequency of the current sideband; the sum is a [long]. *)
Definition set_dds_vfo (s : state) : state :=
  set_frequency_ad9850
    (int32 (f_vfo_at s (cur_band s) (cur_vfo s) + aget (f_lo s) (sideband s))) s.

(* ------------------------------------------------------------------ *)
(** ** [main]: load start values *)

Definition load_start_band (s : state) : state :=
  let s := set_cur_band (load_band s) s in
  if cur_band s =? -1 then set_cur_band 2 s else s.

Definition load_start_vfo (s : state) : state :=
  let s := set_cur_vfo (load_vfo (cur_band s) s) s in
  if cur_vfo s =? -1 then set_cur_vfo 0 s else s.

Definition load_start_qrg (s : state) : state :=
  let s := set_f_vfo_at (cur_band s) (cur_vfo s) (load_frequency (cur_vfo s) (cur_band s) s) s in
  let s :=
    if negb (is_mem_freq_ok (f_vfo_at s (cur_band s) (cur_vfo s)) (cur_band s))
    then set_f_vfo_at (cur_band s) (cur_vfo s) (aget c_freq (cur_band s)) s
    else s in
  let s := set_sideband (aget std_sideband (cur_band s)) s in
  set_band (cur_band s) s.

Definition load_start_thresh (s : state) : state :=
  let s := set_thresh (eeprom_read_byte s 138) s in
  if (thresh s <? 0) || (thresh s >? 12) then set_thresh 8 s else s.

(** [for(t1 = 0; t1 < 5; t1++)], counted by the number [n] of remaining passes. *)
Fixpoint load_start_tx_presets (n : nat) (t1 : Z) (s : state) : state :=
  match n with
  | O => s
  | S n' =>
      let s := set_tx_preset (aset (tx_preset s) t1 (load_tx_preset t1 s)) s in
      let s :=
        if (aget (tx_preset s) t1 <? 0) || (aget (tx_preset s) t1 >? 4096)
        then set_tx_preset (aset (tx_preset s) t1 2048) s
        else s in
      load_start_tx_presets n' (int16 (t1 + 1)) s
  end.

(** The part of [main] from "Load start values" to the TX presets. *)
Definition load_start_values (s : state) : state :=
  let s := load_start_band s in
  let s := load_start_vfo s in
  let s := load_start_qrg s in
  let s := load_start_thresh s in
  (* AD9850 radio oscillator ON *)
  let s := set_dds_vfo s in
  let s := set_dds_vfo s in
  (* Si5351 LO on *)
  let s := set_lo (sideband s) s in
  let s := emit (Si5351_set_freq SYNTH_MS_1 0) s in
  let s := emit (Si5351_set_freq SYNTH_MS_2 0) s in
  let s := load_start_tx_presets 5 0 s in
  mcp4725_set_value (aget (tx_preset s) (cur_band s)) s.

(* ------------------------------------------------------------------ *)
(** ** [main]: operator commands *)

(** Menu results 0 .. 4: band changed. *)
Definition menu_band (m : Z) (s : state) : state :=
  let s := set_cur_band m s in
  let s := set_band (cur_band s) s in
  let s :=
    if is_mem_freq_ok (load_frequency (cur_vfo s) (cur_band s) s) (cur_band s)
    then set_f_vfo_at (cur_band s) (cur_vfo s) (load_frequency (cur_vfo s) (cur_band s) s) s
    else set_f_vfo_at (cur_band s) (cur_vfo s) (aget c_freq (cur_band s)) s in
  let s := set_dds_vfo s in
  let s := eeprom_write_byte OFF_LAST_BAND_USED (cur_band s) s in
  mcp4725_set_value (aget (tx_preset s) (cur_band s)) s.

(** Menu results 10, 11: VFO changed. *)
Definition menu_vfo (m : Z) (s : state) : state :=
  let s := set_cur_vfo (int16 (m - 10)) s in
  let s := set_f_vfo_at (cur_band s) (cur_vfo s) (load_frequency (cur_vfo s) (cur_band s) s) s in
  let s :=
    if negb (is_mem_freq_ok (f_vfo_at s (cur_band s) (cur_vfo s)) (cur_band s))
    then set_f_vfo_at (cur_band s) (cur_vfo s) (aget c_freq (cur_band s)) s
    else s in
  let s := set_dds_vfo s in
  eeprom_write_byte OFF_LAST_VFO_USED (cur_vfo s) s.


(** Key 4: fast QSY to next band. *)
Definition fast_qsy (s : state) : state :=
  let s := if cur_band s <? MAXBANDS - 1
           then set_cur_band (int16 (cur_band s + 1)) s
           else set_cur_band 0 s in
  let s := set_band (cur_band s) s in
  let s := set_f_vfo_at (cur_band s) (cur_vfo s) (load_frequency (cur_vfo s) (cur_band s) s) s in
  let s :=
    if negb (is_mem_freq_ok (f_vfo_at s (cur_band s) (cur_vfo s)) (cur_band s))
    then set_f_vfo_at (cur_band s) (cur_vfo s) (aget c_freq (cur_band s)) s
    else s in
  let s := set_dds_vfo s in
  let s := eeprom_write_byte OFF_LAST_BAND_USED (cur_band s) s in
  mcp4725_set_value (aget (tx_preset s) (cur_band s)) s.

(** Menu result 31: what [main] does with the value returned by
    [scan_vfoa_vfob]. *)
Definition menu_scan_vfo_result (ftmp : Z) (s : state) : state :=
  if truthy (Z.land ftmp 268435455)
  then
    let s := set_cur_vfo (int16 (Z.shiftr ftmp 28)) s in
    let s := set_f_vfo_at (cur_band s) (cur_vfo s) (Z.land ftmp 268435455) s in
    set_dds_vfo s
  else s.

(** Menu result 30: what [main] does with the value returned by [scan_f0_f1]. *)
Definition menu_scan_result (ftmp : Z) (s : state) : state :=
  if is_mem_freq_ok ftmp (cur_band s)
  then set_dds_vfo (set_f_vfo_at (cur_band s) (cur_vfo s) ftmp s)
  else s.

(* ================================================================== *)
(** * The environment: A/D conversions and interrupts *)

(** The [n]-th A/D conversion takes two milliseconds; [irqs] are the
    interrupts served while it runs and [adc ch] is what the converter
    returns for channel [ch]. *)
Record sample : Type := mkSample {
  irqs : list irq;
  adc : Z -> Z
}.

Definition environment : Type := nat -> sample.

(** The result of a scanning function: either the function returned, or
    the pass of the sweep loop ended and the loop goes on. *)
Inductive pass (A : Type) : Type :=
| Return (v : Z)
| Next (a : A).
Arguments Return {A} v.
Arguments Next {A} a.

Section Scanning.

Variable env : environment.

(** Read ADC value: 10 bits. *)
Definition get_adc (adc_channel : Z) (s : state) : Z * state :=
  let e := env (adc_count s) in
  (adc e adc_channel mod 1024,
   set_adc_count (S (adc_count s)) (serve_all (irqs e) s)).

Definition get_s_value (s : state) : Z * state :=
  let '(adcv, s) := get_adc 1 s in
  let adcv := int16 (adcv - 360) in
  let adcv := if adcv <? 10 then 10 else adcv in
  (Z.shiftr adcv 2, s).

Definition key_value : list Z := [39; 76; 103; 135].

(** [for(t1 = 0; t1 < 4; t1++)] of [get_keys], over the remaining
    entries of [key_value]. *)
Fixpoint find_key (adcval : Z) (t1 : Z) (kv : list Z) : Z :=
  match kv with
  | [] => 0
  | k :: kv' =>
      if (adcval >? k - 10) && (adcval <? k + 10) then t1 + 1
      else find_key adcval (t1 + 1) kv'
  end.

(** Read keys via ADC0. *)
Definition get_keys (s : state) : Z * state :=
  let '(adcval, s) := get_adc 0 s in
  (find_key adcval 0 key_value, s).

(** The block marked "Manual tuning" in the scanning functions, on the
    probe frequency [fx]. *)
Definition manual_tuning (fx : Z) (s : state) : Z * state :=
  let '(ftmp, s) := tune_frequency fx s in
  if truthy ftmp
  then (ftmp, set_frequency_ad9850 (int32 (ftmp + aget (f_lo s) (sideband s))) s)
  else (fx, s).

(** [while(get_keys());] *)
Fixpoint release_keys (fuel : nat) (s : state) : option state :=
  match fuel with
  | O => None
  | S fuel' =>
      let '(k, s) := get_keys s in
      if truthy k then release_keys fuel' s else Some s
  end.

(* ---------------------------------------------------------------- *)
(** ** [scan_f0_f1]: scan from VFOA to VFOB or vice versa *)

(** [while(sval > thresh && !key)] *)
Fixpoint f0f1_stopped (fuel : nat) (fx key sval wait : Z) (s : state)
  : option (Z * Z * Z * Z * state) :=
  if (sval >? thresh s) && negb (truthy key)
  then
    match fuel with
    | O => None
    | S fuel' =>
        let '(sval, s) := get_s_value s in
        let '(key, s) := get_keys s in
        let wait := 1 in
        let '(fx, s) := manual_tuning fx s in
        f0f1_stopped fuel' fx key sval wait s
    end
  else Some (fx, key, sval, wait, s).

(** [while(runsecs10thresh + 30 > runseconds10)] *)
Fixpoint f0f1_waiting (fuel : nat) (fx key runsecs10thresh : Z) (s : state)
  : option (Z * Z * state) :=
  if int32 (runsecs10thresh + 30) >? runseconds10 s
  then
    match fuel with
    | O => None
    | S fuel' =>
        let '(key, s) := get_keys s in
        let runsecs10thresh := if truthy key then 0 else runsecs10thresh in
        let '(fx, s) := manual_tuning fx s in
        f0f1_waiting fuel' fx key runsecs10thresh s
    end
  else Some (fx, key, s).

(** The rest of a pass, from "Wait if strong sig detected" on. *)
Definition f0f1_resume (fuel : nat) (fx key wait : Z) (s : state)
  : option (pass (Z * Z) * state) :=
  let runsecs10thresh := runseconds10 s in
  match (if truthy wait
         then f0f1_waiting fuel fx key runsecs10thresh s
         else Some (fx, key, s)) with
  | None => None
  | Some (fx, key, s) =>
      let wait := if truthy wait then 0 else wait in
      let '(fx, s) := manual_tuning fx s in
      if key =? 2 then Some (Return fx, s)
      else if key =? 3 then Some (Return 0, s)
      else Some (Next (fx, wait), s)
  end.

(** One pass of [for(fx = f[0]; fx < f[1]; fx += 100)]. *)
Definition f0f1_pass (fuel : nat) (fx wait : Z) (s : state)
  : option (pass (Z * Z) * state) :=
  let '(key, s) := get_keys s in
  let s := set_frequency_ad9850 (int32 (fx + aget (f_lo s) (sideband s))) s in
  let '(sval, s) := get_s_value s in
  match f0f1_stopped fuel fx key sval wait s with
  | None => None
  | Some (fx, key, sval, wait, s) => f0f1_resume fuel fx key wait s
  end.

(** [for(fx = ...; fx < f[1]; fx += 100)]: returns [inl v] when the
    function returned [v] inside, [inr (key, wait)] when the loop ended. *)
Fixpoint f0f1_sweep (fuel : nat) (f1 fx key wait : Z) (s : state)
  : option ((Z + Z * Z) * state) :=
  if fx <? f1
  then
    match fuel with
    | O => None
    | S fuel' =>
        match f0f1_pass fuel' fx wait s with
        | None => None
        | Some (Return v, s) => Some (inl v, s)
        | Some (Next (fx, wait), s) => f0f1_sweep fuel' f1 (int32 (fx + 100)) 0 wait s
        end
    end
  else Some (inr (key, wait), s).

(** [while(key != 2) { for ... }  return 0;] *)
Fixpoint f0f1_scan (fuel : nat) (f0 f1 key wait : Z) (s : state) : option (Z * state) :=
  if negb (key =? 2)
  then
    match fuel with
    | O => None
    | S fuel' =>
        match f0f1_sweep fuel' f1 f0 key wait s with
        | None => None
        | Some (inl v, s) => Some (v, s)
        | Some (inr (key, wait), s) => f0f1_scan fuel' f0 f1 key wait s
        end
    end
  else Some (0, s).

(** [wait] is read before it is ever assigned: [wait0] is the
    indeterminate value the local starts with.  [None]: the function has
    not returned within [fuel] loop passes. *)
Definition scan_f0_f1 (fuel : nat) (wait0 : Z) (s : state) : option (Z * state) :=
  let f0 := f_vfo_at s (cur_band s) 0 in
  let f1 := f_vfo_at s (cur_band s) 1 in
  let '(f0, f1) := if f0 >? f1 then (f1, f0) else (f0, f1) in
  match release_keys fuel s with
  | None => None
  | Some s => f0f1_scan fuel f0 f1 0 wait0 s
  end.

(* ---------------------------------------------------------------- *)
(** ** [scan_vfoa_vfob] *)

(** "Manual tuning" on [f_vfo[cur_band][t1]]; the second component tells
    whether the frequency was changed. *)
Definition manual_tuning_vfo (t1 : Z) (s : state) : bool * state :=
  let '(ftmp, s) := tune_frequency (f_vfo_at s (cur_band s) t1) s in
  if truthy ftmp
  then
    let s := set_f_vfo_at (cur_band s) t1 ftmp s in
    (true, set_frequency_ad9850
             (int32 (f_vfo_at s (cur_band s) t1 + aget (f_lo s) (sideband s))) s)
  else (false, s).

(** [while(sval > thresh && !key)] *)
Fixpoint vfo_stopped (fuel : nat) (t1 key sval : Z) (s : state) : option (Z * Z * state) :=
  if (sval >? thresh s) && negb (truthy key)
  then
    match fuel with
    | O => None
    | S fuel' =>
        let '(sval, s) := get_s_value s in
        let '(key, s) := get_keys s in
        let '(_, s) := manual_tuning_vfo t1 s in
        vfo_stopped fuel' t1 key sval s
    end
  else Some (key, sval, s).

(** [while(runsecs10thresh + 30 > runseconds10)] *)
Fixpoint vfo_waiting (fuel : nat) (t1 key runsecs10thresh : Z) (s : state)
  : option (Z * state) :=
  if int32 (runsecs10thresh + 30) >? runseconds10 s
  then
    match fuel with
    | O => None
    | S fuel' =>
        let '(key, s) := get_keys s in
        let runsecs10thresh := if truthy key then 0 else runsecs10thresh in
        let '(tuned, s) := manual_tuning_vfo t1 s in
        let runsecs10thresh := if tuned then runseconds10 s else runsecs10thresh in
        vfo_waiting fuel' t1 key runsecs10thresh s
    end
  else Some (key, s).

(** The rest of a pass, from "Wait 3 seconds" on. *)
Definition vfo_resume (fuel : nat) (t1 key : Z) (s : state) : option (pass unit * state) :=
  match vfo_waiting fuel t1 key (runseconds10 s) s with
  | None => None
  | Some (key, s) =>
      let '(_, s) := manual_tuning_vfo t1 s in
      if key =? 2
      then Some (Return (int32 (int32 (Z.shiftl t1 28) + f_vfo_at s (cur_band s) t1)), s)
      else if key =? 3 then Some (Return 0, s)
      else Some (Next tt, s)
  end.

(** One pass of [for(t1 = 0; t1 < 2; t1++)]. *)
Definition vfo_pass (fuel : nat) (t1 : Z) (s : state) : option (pass unit * state) :=
  let '(key, s) := get_keys s in
  let s := set_frequency_ad9850
             (int32 (f_vfo_at s (cur_band s) t1 + aget (f_lo s) (sideband s))) s in
  let '(sval, s) := get_s_value s in
  match vfo_stopped fuel t1 key sval s with
  | None => None
  | Some (key, sval, s) => vfo_resume fuel t1 key s
  end.

(** [for(t1 = ...; t1 < 2; t1++)] *)
Fixpoint vfo_sweep (fuel : nat) (t1 key : Z) (s : state) : option ((Z + Z) * state) :=
  if t1 <? 2
  then
    match fuel with
    | O => None
    | S fuel' =>
        match vfo_pass fuel' t1 s with
        | None => None
        | Some (Return v, s) => Some (inl v, s)
        | Some (Next _, s) => vfo_sweep fuel' (int16 (t1 + 1)) 0 s
        end
    end
  else Some (inr key, s).

(** [while(key != 2) { for ... }  return 0;] *)
Fixpoint vfo_scan (fuel : nat) (key : Z) (s : state) : option (Z * state) :=
  if negb (key =? 2)
  then
    match fuel with
    | O => None
    | S fuel' =>
        match vfo_sweep fuel' 0 key s with
        | None => None
        | Some (inl v, s) => Some (v, s)
        | Some (inr key, s) => vfo_scan fuel' key s
        end
    end
  else Some (0, s).

Definition scan_vfoa_vfob (fuel : nat) (s : state) : option (Z * state) :=
  match release_keys fuel s with
  | None => None
  | Some s => vfo_scan fuel 0 s
  end.

(** Timer interrupts served during conversions [a .. a + n - 1]. *)
Fixpoint ticks_of (l : list irq) : Z :=
  match l with
  | [] => 0
  | TIMER1_COMPA :: l' => 1 + ticks_of l'
  | PCINT0 _ :: l' => ticks_of l'
  end.

Fixpoint ticks_from (a : nat) (n : nat) : Z :=
  match n with
  | O => 0
  | S n' => ticks_of (irqs (env a)) + ticks_from (S a) n'
  end.

(** No key is down at any conversion from the [a]-th on. *)
Definition keys_idle (a : nat) : Prop :=
  forall n, (a <= n)%nat -> find_key (adc (env n) 0 mod 1024) 0 key_value = 0.

End Scanning.

(* ================================================================== *)
(** * Dialogs: threshold, TX preset, LO frequencies and the menu *)

Section Dialogs.

Variable env : environment.

(** [while(!key)] of [set_scan_threshold]. *)
Fixpoint thresh_loop (fuel : nat) (key : Z) (s : state) : option (Z * state) :=
  if negb (truthy key)
  then
    match fuel with
    | O => None
    | S fuel' =>
        let s :=
          if tuningknob s >? 2           (* Turn CW *)
          then
            let s := if thresh s <? 12 then set_thresh (int16 (thresh s + 1)) s else s in
            set_tuningknob 0 s
          else s in
        let s :=
          if tuningknob s <? -2          (* Turn CCW *)
          then
            let s := if thresh s >? 0 then set_thresh (int16 (thresh s - 1)) s else s in
            set_tuningknob 0 s
          else s in
        let '(key, s) := get_keys env s in
        thresh_loop fuel' key s
    end
  else Some (key, s).

(** The result also tells the key that ended the dialog. *)
Definition set_scan_threshold (fuel : nat) (s : state) : option (Z * state) :=
  match thresh_loop fuel 0 s with
  | None => None
  | Some (key, s) =>
      Some (key, if key =? 2 then eeprom_write_byte 138 (thresh s) s else s)
  end.

(** [while(!key)] of [tx_preset_adjust]. *)
Fixpoint preset_loop (fuel : nat) (key v1 : Z) (s : state) : option (Z * Z * state) :=
  if negb (truthy key)
  then
    match fuel with
    | O => None
    | S fuel' =>
        let '(v1, s) :=
          if tuningknob s >=? 1          (* Turn CW *)
          then
            let v1 := if v1 <? 4095 then int16 (v1 + calc_tuningfactor s) else 4095 in
            let s := set_tuningknob 0 s in
            (v1, mcp4725_set_value v1 s)
          else (v1, s) in
        let '(v1, s) :=
          if tuningknob s <=? -1         (* Turn CCW *)
          then
            let v1 := if v1 >? 0 then int16 (v1 - calc_tuningfactor s) else 0 in
            let s := set_tuningknob 0 s in
            (v1, mcp4725_set_value v1 s)
          else (v1, s) in
        let '(key, s) := get_keys env s in
        preset_loop fuel' key v1 s
    end
  else Some (key, v1, s).

(** The result also tells the key that ended the dialog and the value
    reached. *)
Definition tx_preset_adjust (fuel : nat) (s : state) : option (Z * Z * state) :=
  let v1 := aget (tx_preset s) (cur_band s) in
  let s := mcp4725_set_value v1 s in
  match release_keys env fuel s with
  | None => None
  | Some s =>
      let '(key, s) := get_keys env s in
      match preset_loop fuel key v1 s with
      | None => None
      | Some (key, v1, s) =>
          Some (key, v1,
                if key =? 2
                then store_tx_preset v1 (cur_band s)
                       (set_tx_preset (aset (tx_preset s) (cur_band s) v1) s)
                else s)
      end
  end.

(** [while(!key)] of [set_lo_frequencies]. *)
Fixpoint lo_loop (fuel : nat) (key sb : Z) (s : state) : option (Z * state) :=
  if negb (truthy key)
  then
    match fuel with
    | O => None
    | S fuel' =>
        let s :=
          if tuningknob s >? 2
          then
            let s := set_f_lo (aset (f_lo s) sb (int32 (aget (f_lo s) sb + 10))) s in
            let s := set_tuningknob 0 s in
            emit (Si5351_set_freq SYNTH_MS_0 (aget (f_lo s) sb)) s
          else s in
        let s :=
          if tuningknob s <? -2
          then
            let s := set_f_lo (aset (f_lo s) sb (int32 (aget (f_lo s) sb - 10))) s in
            let s := set_tuningknob 0 s in
            emit (Si5351_set_freq SYNTH_MS_0 (aget (f_lo s) sb)) s
          else s in
        let '(key, s) := get_keys env s in
        lo_loop fuel' key sb s
    end
  else Some (key, s).

Definition set_lo_frequencies (fuel : nat) (sb : Z) (s : state) : option (Z * state) :=
  match release_keys env fuel s with
  | None => None
  | Some s =>
      let s := set_frequency_ad9850
                 (int32 (f_vfo_at s (cur_band s) (cur_vfo s) + aget (f_lo s) sb)) s in
      let s := emit (Si5351_set_freq SYNTH_MS_0 (aget (f_lo s) sb)) s in
      match lo_loop fuel 0 sb s with
      | None => None
      | Some (key, s) =>
          match release_keys env fuel s with
          | None => None
          | Some s => Some (if negb (key =? 2) then 0 else aget (f_lo s) sb, s)
          end
      end
  end.

(** Menu results 50, 51: what [main] does with the value returned by
    [set_lo_frequencies]. *)
Definition menu_lo_result (m ftmp : Z) (s : state) : state :=
  if ftmp >? 0
  then set_lo (sideband s) (set_f_lo (aset (f_lo s) (int16 (m - 50)) ftmp) s)
  else s.

(** [while(key == 0)] of [navigate_thru_item_list]. *)
Fixpoint nav_loop (fuel : nat) (m maxitems key mpos : Z) (s : state)
  : option (Z * Z * state) :=
  if key =? 0
  then
    match fuel with
    | O => None
    | S fuel' =>
        let '(mpos, s) :=
          if tuningknob s >? 2           (* Turn CW *)
          then ((if mpos <? maxitems then int16 (mpos + 1) else 0), set_tuningknob 0 s)
          else (mpos, s) in
        let '(mpos, s) :=
          if tuningknob s <? -2          (* Turn CCW *)
          then ((if mpos >? 0 then int16 (mpos - 1) else maxitems), set_tuningknob 0 s)
          else (mpos, s) in
        (* Preview settings *)
        let s :=
          if m =? 1
          then set_frequency_ad9850
                 (int32 (f_vfo_at s (cur_band s) mpos + aget (f_lo s) (sideband s))) s
          else s in
        let s := if m =? 2 then set_lo mpos s else s in
        let '(key, s) := get_keys env s in
        nav_loop fuel' m maxitems key mpos s
    end
  else Some (key, mpos, s).

(** Returns menu_pos if OK or -1 if aborted. *)
Definition navigate_thru_item_list (fuel : nat) (m maxitems menu_pos : Z) (s : state)
  : option (Z * state) :=
  let '(key, s) := get_keys env s in
  match nav_loop fuel m maxitems key menu_pos s with
  | None => None
  | Some (key, mpos, s) =>
      let s := set_lo (sideband s) s in
      match release_keys env fuel s with
      | None => None
      | Some s =>
          Some ((if key =? 1 then -1          (* Next menu! *)
                 else if key =? 2 then mpos   (* OK *)
                 else if key =? 3 then -3     (* Quit menu! *)
                 else -1), s)
      end
  end.

Definition menu_items : list Z := [4; 1; 1; 2; 1; 2].

(** One menu of [menux]: [inl r] when [menux] returns [r] from it, [inr]
    when the next menu follows. *)
Definition menu_page (fuel : nat) (menu menu_pos : Z) (s : state)
  : option ((Z + unit) * state) :=
  match release_keys env fuel s with
  | None => None
  | Some s =>
      match navigate_thru_item_list fuel menu (aget menu_items menu) menu_pos s with
      | None => None
      | Some (result, s) =>
          if result >? -1 then Some (inl (int32 (int16 (menu * 10 + result))), s)
          else if result =? -3 then Some (inl (-3), s)
          else Some (inr tt, s)
      end
  end.

(** The menus in turn, each with the item it starts on. *)
Fixpoint menu_pages (fuel : nat) (pages : list (Z * (state -> Z))) (s : state)
  : option (Z * state) :=
  match pages with
  | [] => Some (-2, s)      (* Nothing to do in main() *)
  | (menu, menu_pos) :: rest =>
      match menu_page fuel menu (menu_pos s) s with
      | None => None
      | Some (inl r, s) => Some (r, s)
      | Some (inr _, s) => menu_pages fuel rest s
      end
  end.

(** [split] is the global of that name. *)
Definition menux (fuel : nat) (split : Z) (s : state) : option (Z * state) :=
  menu_pages fuel
    [(0, cur_band); (1, cur_vfo); (2, sideband); (3, fun _ => 0); (4, fun _ => split);
     (5, fun _ => 0)] s.

End Dialogs.

(* ================================================================== *)
(** * String functions *)

(** The memory seen through a [char *buf]: cell [i] is [*(buf + i)].  The
    cells before and behind the caller's buffer are cells too, so that a
    write outside the buffer shows. *)
Definition chars : Type := Z -> Z.

Definition poke (buf : chars) (i v : Z) : chars := fun j => if j =? i then v else buf j.

(** [for(i = ...; i < 12; i++) *(buf + i) = 0;] with [n] passes to go. *)
Fixpoint clear_buf (n : nat) (i : Z) (buf : chars) : chars :=
  match n with
  | O => buf
  | S n' => clear_buf n' (int16 (i + 1)) (poke buf i 0)
  end.

(** [while(dd) { ... }]: the digits, most significant first, and the
    decimal point behind the digit with [c == dec]. *)
Fixpoint digits_loop (fuel : nat) (dec dd n c xp : Z) (buf : chars) : option chars :=
  if truthy dd
  then
    match fuel with
    | O => None
    | S fuel' =>
        let i := int16 (Z.quot n dd) in
        let n := int32 (n - int32 (i * dd)) in
        let buf := poke buf (9 - c + xp) (uint8 (i + 48)) in
        let dd := Z.quot dd 10 in
        let '(xp, buf) :=
          if (c =? dec) && truthy dec
          then (int16 (xp + 1), poke buf (9 - c + int16 (xp + 1)) 46)
          else (xp, buf) in
        digits_loop fuel' dec dd n (int16 (c - 1)) xp buf
    end
  else Some buf.

(** [while (buf[i] == 48) buf[i++] = 32;] *)
Fixpoint blank_zeros (fuel : nat) (i : Z) (buf : chars) : option (Z * chars) :=
  if buf i =? 48
  then
    match fuel with
    | O => None
    | S fuel' => blank_zeros fuel' (int16 (i + 1)) (poke buf i 32)
    end
  else Some (i, buf).

(** [while (buf[i]) buf[c++] = buf[i++];] *)
Fixpoint move_left (fuel : nat) (i c : Z) (buf : chars) : option (Z * chars) :=
  if truthy (buf i)
  then
    match fuel with
    | O => None
    | S fuel' => move_left fuel' (int16 (i + 1)) (int16 (c + 1)) (poke buf c (buf i))
    end
  else Some (c, buf).

(** INT 2 ASC.  [buflen] is not used by the function.  [None]: a loop has
    not ended within [fuel] passes. *)
Definition int2asc (fuel : nat) (num dec : Z) (buf : chars) : option (Z * chars) :=
  if negb (truthy num)
  then Some (1, poke (poke buf 0 48) 1 0)
  else
    let neg := num <? 0 in
    let n := if neg then int32 (num * -1) else num in
    let buf := clear_buf 12 0 buf in
    match digits_loop fuel dec 1000000000 n 9 0 buf with
    | None => None
    | Some buf =>
        match blank_zeros fuel 0 buf with
        | None => None
        | Some (i, buf) =>
            let '(i, buf) :=
              if neg then (int16 (i - 1), poke buf (int16 (i - 1)) 45) else (i, buf) in
            match move_left fuel i 0 buf with
            | None => None
            | Some (c, buf) => Some (c, poke buf c 0)
            end
        end
    end.

(* ================================================================== *)
(** * Supply voltage *)

(** [v1 = (double) get_adc(6) * 5 / 1024 * 6 * 10; adc_v = (int) v1;] of
    [main], on the value the converter returned. *)
Definition adc_v (adc6 : Z) : Z :=
  let v1 := F32.mul (F32.mul (F32.div (F32.mul (F32.of_long adc6) (F32.of_long 5))
                                      (F32.of_long 1024))
                             (F32.of_long 6))
                    (F32.of_long 10) in
  int16 (F32.to_long v1).

Definition RED : Z := 45479.        (* 0xB1A7 *)
Definition LIGHTRED : Z := 59522.   (* 0xE882 *)
Definition GREEN : Z := 25861.      (* 0x6505 *)
Definition LIGHTGREEN : Z := 10208. (* 0x27E0 *)

(** The colour [show_voltage] chooses for [v1]; [fcolor] is the value the
    local starts with. *)
Definition show_voltage_fcolor (fcolor : Z) (v1 : Z) : Z :=
  let fcolor := if v1 <? 10 then int16 RED else fcolor in
  let fcolor := if (v1 >=? 10) && (v1 <? 11) then int16 LIGHTRED else fcolor in
  let fcolor := if (v1 >=? 11) && (v1 <? 13) then int16 GREEN else fcolor in
  let fcolor := if v1 >=? 13 then int16 LIGHTGREEN else fcolor in
  fcolor.

(* ================================================================== *)
(** * The main loop: TX/RX switching *)

Section MainLoop.

Variable env : environment.

(** [set_frequency_ad9850(f_vfo[cur_band][vfo] + f_lo[sideband])] *)
Definition set_dds_for_vfo (vfo : Z) (s : state) : state :=
  set_frequency_ad9850 (int32 (f_vfo_at s (cur_band s) vfo + aget (f_lo s) (sideband s))) s.

(** "TX/RX switching check": [split] and [txrx] are locals of [main]; the
    new [txrx] is returned. *)
Definition txrx_check (split txrx : Z) (s : state) : Z * state :=
  let '(a, s) := get_adc env 7 s in
  let '(txrx, s) :=
    if a >? 1000
    then
      if negb (truthy txrx)
      then (1, if truthy split
               then if cur_vfo s =? 0 then set_dds_for_vfo 1 s else set_dds_for_vfo 0 s
               else s)
      else (txrx, s)
    else (txrx, s) in
  let '(a, s) := get_adc env 7 s in
  if negb (a >? 1000)
  then
    if truthy txrx
    then (0, if truthy split
             then if cur_vfo s =? 0 then set_dds_for_vfo 0 s else set_dds_for_vfo 1 s
             else s)
    else (txrx, s)
  else (txrx, s).

End MainLoop.

(* ================================================================== *)
(** * Si5351A commands *)

Definition CFACTOR : Z := 1048575.
Definition PLLRATIO : Z := 36.

Definition uint32 (x : Z) : Z := x mod 4294967296. (* unsigned long *)

(** Subtraction in [double], and the cast [(unsigned long) x]: truncation
    towards zero.  C leaves the result undefined when the value does not
    fit; here it is wrapped to 32 bits, and negative numbers, infinities
    and NaN give 0.  None of these arises for a frequency above 0. *)
Definition f32_sub : spec_float -> spec_float -> spec_float := SFsub F32.prec F32.emax.

Definition f32_to_ulong (x : spec_float) : Z :=
  match x with
  | S754_finite false m e => uint32 (F32.trunc_mag m e)
  | _ => 0
  end.

(** One register write over TWI: [twi_write] sends the low byte of each
    [int]. *)
Definition si5351_write (reg_addr reg_value : Z) : Z * Z := (uint8 reg_addr, uint8 reg_value).

(** The division factor [a + b / c] of [si5351_set_freq], as [(a, b)]. *)
Definition si5351_divider (freq : Z) : Z * Z :=
  let c := CFACTOR in
  let f_xtal := 25000000 in
  let fdiv := F32.div (F32.of_long (uint32 (f_xtal * PLLRATIO))) (F32.of_long freq) in
  let a := f32_to_ulong fdiv in
  let rm := f32_sub fdiv (F32.of_long a) in
  let b := f32_to_ulong (F32.mul rm (F32.of_long c)) in
  (a, b).

(** The register writes of [si5351_set_freq], in program order. *)
Definition si5351_set_freq_writes (synth freq : Z) : list (Z * Z) :=
  let c := CFACTOR in
  let '(a, b) := si5351_divider freq in
  let p1 := uint32 (uint32 (uint32 (128 * a) + uint32 (128 * b) / c) - 512) in
  let p2 := uint32 (uint32 (128 * b) - uint32 (c * (uint32 (128 * b) / c))) in
  [ si5351_write (int16 synth) 255;
    si5351_write (int16 (synth + 1)) 255;
    si5351_write (int16 (synth + 2)) (int16 (Z.shiftr (Z.land p1 196608) 16));
    si5351_write (int16 (synth + 3)) (int16 (Z.shiftr (Z.land p1 65280) 8));
    si5351_write (int16 (synth + 4)) (int16 (Z.land p1 255));
    si5351_write (int16 (synth + 5)) (int16 (Z.lor 240 (Z.shiftr (Z.land p2 983040) 16)));
    si5351_write (int16 (synth + 6)) (int16 (Z.shiftr (Z.land p2 65280) 8));
    si5351_write (int16 (synth + 7)) (int16 (Z.land p2 255)) ].

(* ================================================================== *)
(** * PA temperature *)

(** The literal [8.81] in the target's [double]: the nearest number with a
    24-bit significand, 9237955 / 2^20. *)
Definition lit_8_81 : spec_float := S754_finite false 9237955 (-20).

(** [get_pa_temp] on the value the converter returned for channel 3. *)
Definition pa_temp_of (adc : Z) : Z :=
  let ux := F32.div (F32.of_long (int16 (5 * adc))) (F32.of_long 1023) in
  let rx := F32.div (F32.of_long 1000)
                    (f32_sub (F32.div (F32.of_long 5) ux) (F32.of_long 1)) in
  let temp := F32.div (f32_sub rx (F32.of_long 815)) lit_8_81 in
  int16 (F32.to_long temp).

Section Temperature.

Variable env : environment.

Definition get_pa_temp (s : state) : Z * state :=
  let '(adc, s) := get_adc env 3 s in
  (pa_temp_of adc, s).

End Temperature.

(* ================================================================== *)
(** * Notions the properties are stated with *)

(** ** Properties of the state *)

(** Everything in the state but the DDS port and the trace. *)
Definition radio_vars (s : state) :=
  (cur_vfo s, f_vfo s, laststate s, tuningknob s, runseconds10 s, tuningcount s,
   f_lo s, sideband s, cur_band s, tx_preset s, thresh s, eeprom s, PORTD s, adc_count s).

(** The variables that make up the operating state. *)
Definition operating_vars (s : state) :=
  (cur_band s, cur_vfo s, f_vfo s, sideband s, tx_preset s, thresh s, eeprom s).

(** What the interrupt handlers never write. *)
Definition static_vars (s : state) :=
  (cur_vfo s, f_vfo s, f_lo s, sideband s, cur_band s, tx_preset s, thresh s, eeprom s,
   dds s, PORTD s, trace s, adc_count s).

(** ** The rotary encoder *)

(** The phase the handler computes from the port: Gray code to binary. *)
Definition phase (pinb : Z) : Z := Z.lxor (Z.shiftr (Z.land pinb 3) 1) (Z.land pinb 3).

(** Successive pin readings that each move the phase one step forward
    (backward), starting from phase [prev]. *)
Fixpoint forward_steps (prev : Z) (pins : list Z) : Prop :=
  match pins with
  | [] => True
  | p :: l => (phase p - prev) mod 4 = 1 /\ forward_steps (phase p) l
  end.

Fixpoint backward_steps (prev : Z) (pins : list Z) : Prop :=
  match pins with
  | [] => True
  | p :: l => (prev - phase p) mod 4 = 1 /\ backward_steps (phase p) l
  end.

(** The change of the accumulator for a transition between two phases. *)
Definition direction (prev cur : Z) : Z := Z.land (prev - cur) 3 - 2.

(** ** The DDS port *)

(** What a stretch of DDS programming does to the port, starting with
    W_CLK low: [ws] are the values written (oldest first), [bits] the bits
    clocked into the DDS; W_CLK is low again at the end and FQ_UD has not
    moved. *)
Definition shifts_out (d d' : dds_pins) (ws : list Z) (bits : list bool) : Prop :=
  dds_writes d' = rev ws ++ dds_writes d /\
  DDS_PORT d' = List.last ws (DDS_PORT d) /\
  clocked_bits (DDS_PORT d) ws = bits /\
  Forall (fun w => Z.testbit w DDS_FQ_UD = Z.testbit (DDS_PORT d) DDS_FQ_UD) ws /\
  Z.testbit (DDS_PORT d') DDS_W_CLK = false /\
  Z.testbit (DDS_PORT d') DDS_FQ_UD = Z.testbit (DDS_PORT d) DDS_FQ_UD /\
  length ws = (3 * length bits)%nat.

(** ** The tuning word *)

(** Round to nearest, ties to even, of the quotient [n / d]. *)
Definition rne_div (n d : Z) : Z :=
  let q := n / d in
  let r := n mod d in
  if 2 * r <? d then q
  else if 2 * r >? d then q + 1
  else if Z.even q then q else q + 1.

(** The word the data sheet asks for: [f / 125 MHz * 2^32], rounded to the
    nearest integer. *)
Definition ideal_word (f : Z) : Z := (2 * f * 2 ^ 32 + 125000000) / (2 * 125000000).

(** Largest distance, per band, between the computed and the ideal word,
    and a bound, per band and in steps of 125 MHz / 2^32, on the distance
    between the frequency the word stands for and the frequency asked for. *)
Definition word_error : list Z := [4; 8; 16; 66; 66].
Definition decode_error : list Z := [4; 8; 16; 67; 67].

(** For comparison only: the computation of [fword1] as it would run on a
    target whose [double] is the 64-bit format. *)
Definition fword1_binary64 (fx : Z) : Z :=
  let clk := 125000000 in
  let of_long n := binary_normalize 53 1024 n 0 false in
  let fword0 := SFmul 53 1024 (SFdiv 53 1024 (of_long fx) (of_long clk)) (of_long 65536) in
  F32.to_long (SFmul 53 1024 fword0 (of_long 65536)).

(** ** Start-up and band change *)

(** The raw 16-bit value of a TX preset in the EEPROM. *)
Definition tx_preset_raw (band : Z) (s : state) : Z :=
  256 * eeprom_read_byte s (128 + band * 2) + eeprom_read_byte s (128 + band * 2 + 1).

(** The frequency a band or VFO change makes live: the stored one when it
    is inside the band, the centre frequency of the band otherwise. *)
Definition checked_frequency (vfo band : Z) (s : state) : Z :=
  if is_mem_freq_ok (load_frequency vfo band s) band
  then load_frequency vfo band s
  else aget c_freq band.


(** ** Time and keys during a scan *)

(** The tick counter is a [long] in range and stays at least 30 ticks
    below its overflow for all the input to come. *)
Definition clock_inv (env : environment) (s : state) : Prop :=
  -2147483648 <= runseconds10 s /\
  forall n, runseconds10 s + ticks_from env (adc_count s) n <= 2147483617.

(** From [s] to [s'] the threshold is kept, conversions are only consumed,
    and the clock does not run backwards. *)
Definition runs_on (env : environment) (s s' : state) : Prop :=
  thresh s' = thresh s /\
  (adc_count s <= adc_count s')%nat /\
  (clock_inv env s -> clock_inv env s' /\ runseconds10 s <= runseconds10 s').


(** The operator lets go of the keys, then holds "accept" (key 2). *)
Definition accept_held : environment :=
  fun n => mkSample [] (fun _ => if (n <? 1)%nat then 0 else 76).

(** ** Dialogs *)

(** Everything but what the interrupt handlers and the A/D converter
    change. *)
Definition config_vars (s : state) :=
  (cur_vfo s, f_vfo s, f_lo s, sideband s, cur_band s, tx_preset s, thresh s, eeprom s,
   dds s, PORTD s, trace s).

(** The values [menux] can return: what [main] acts on, -2 and -3. *)
Definition menu_results : list Z :=
  [-3; -2; 0; 1; 2; 3; 4; 10; 11; 20; 21; 30; 31; 32; 40; 41; 50; 51; 52].

(** The DAC values handed to [mcp4725_set_value], newest first, on top of
    a state. *)
Definition dac_writes (vs : list Z) (s : state) : state :=
  fold_right mcp4725_set_value s vs.

(** The encoder is turned three steps during the first key poll, then
    "accept" is pressed. *)
Definition turn_then_accept : environment :=
  fun n => mkSample (if (n <? 1)%nat then [PCINT0 1; PCINT0 3; PCINT0 2] else [])
                    (fun _ => if (n <? 1)%nat then 0 else 76).

(** What the operator has set: the variables of the radio and the EEPROM,
    without the interrupt-driven variables and without the outputs. *)
Definition settings (s : state) :=
  (cur_vfo s, f_vfo s, f_lo s, sideband s, cur_band s, tx_preset s, thresh s, eeprom s,
   PORTD s).

(** An operator who acts during the first conversions as listed and then
    keeps off the keys and the encoder. *)
Definition idle : sample := mkSample [] (fun _ => 0).
Definition script (l : list sample) : environment := fun n => nth n l idle.

(** Three encoder steps clockwise with no key down; a key held down. *)
Definition turn_cw : sample := mkSample [PCINT0 1; PCINT0 3; PCINT0 2] (fun _ => 0).
Definition press (key : Z) : sample := mkSample [] (fun _ => aget key_value (key - 1)).


(** ** What a scan may change *)

(** The settings without the VFO frequencies. *)
Definition fixed_settings (s : state) :=
  (cur_vfo s, f_lo s, sideband s, cur_band s, tx_preset s, thresh s, eeprom s, PORTD s).

(** From [s] to [s'] no setting has changed but, possibly, the two VFO
    frequencies of the current band. *)
Definition band_tuned (s s' : state) : Prop :=
  fixed_settings s' = fixed_settings s /\
  length (f_vfo s') = length (f_vfo s) /\
  forall b v, 0 <= b -> b <> cur_band s -> 0 <= v <= 1 -> f_vfo_at s' b v = f_vfo_at s b v.

(** A strong signal on the S-meter input, no key down. *)
Definition strong : sample := mkSample [] (fun ch => if ch =? 1 then 1023 else 0).

(** Three seconds pass, the scan stops at a strong signal, the operator
    turns the knob three steps and then holds "accept". *)
Definition tune_then_accept : environment :=
  script [mkSample (repeat TIMER1_COMPA 30) (fun _ => 0); idle; strong;
          mkSample [PCINT0 1; PCINT0 3; PCINT0 2] (fun ch => if ch =? 1 then 1023 else 0);
          press 2; press 2].

(** ** The pins of the DDS port *)

(** [w] has the level of [p] on every pin of the 8-bit port that is not one
    of the three DDS lines. *)
Definition other_pins_kept (p w : Z) : Prop :=
  forall i, 0 <= i < 8 -> i <> DDS_FQ_UD -> i <> DDS_SDATA -> i <> DDS_W_CLK ->
            Z.testbit w i = Z.testbit p i.

(** Since [d0] every value written to the port, and the port itself, has
    kept the other pins at the levels of [p]. *)
Definition pins_kept (p : Z) (d0 d : dds_pins) : Prop :=
  other_pins_kept p (DDS_PORT d) /\
  exists ws, dds_writes d = ws ++ dds_writes d0 /\ Forall (other_pins_kept p) ws.

(** ** Decimal text *)

(** The characters of cells [0 .. len - 1]. *)
Definition text (buf : chars) (len : Z) : list Z :=
  map (fun j => buf (Z.of_nat j)) (seq 0 (Z.to_nat len)).

(** The number a string of decimal digits stands for. *)
Definition number (l : list Z) : Z := fold_left (fun a ch => 10 * a + (ch - 48)) l 0.

Definition is_digit (ch : Z) : Prop := 48 <= ch <= 57.

(** A string of digits that does not begin with '0'. *)
Definition no_leading_zero (l : list Z) : Prop := Forall is_digit l /\ hd 49 l <> 48.

(** [n] written with exactly [m] digits. *)
Fixpoint digits (m : nat) (n : Z) : list Z :=
  match m with
  | O => []
  | S m' => 48 + n / 10 ^ Z.of_nat m' :: digits m' (n mod 10 ^ Z.of_nat m')
  end.

(** The same with the point behind the digit of weight [10 ^ dec], when
    [dec] is not 0. *)
Fixpoint digits_point (m : nat) (dec n : Z) : list Z :=
  match m with
  | O => []
  | S m' =>
      48 + n / 10 ^ Z.of_nat m'
      :: (if (Z.of_nat m' =? dec) && truthy dec then [46] else [])
      ++ digits_point m' dec (n mod 10 ^ Z.of_nat m')
  end.

(** Writing a string into successive cells. *)
Fixpoint put (buf : chars) (i : Z) (l : list Z) : chars :=
  match l with
  | [] => buf
  | x :: l' => put (poke buf i x) (i + 1) l'
  end.

Fixpoint strip_zeros (l : list Z) : list Z :=
  match l with
  | [] => []
  | x :: l' => if x =? 48 then strip_zeros l' else l
  end.

(** The divisor [dd] of the pass that writes the digit of weight
    [10 ^ (m - 1)]; 0 when no digit is left. *)
Definition divisor (m : nat) : Z :=
  match m with O => 0 | S m' => 10 ^ Z.of_nat m' end.

(** The number of digits behind the point: [dec] when the point is
    written, which is for [dec] in 1 .. 9. *)
Definition places (dec : Z) : nat :=
  if (1 <=? dec) && (dec <=? 9) then Z.to_nat dec else 0%nat.

(** The text [int2asc] is to write: sign, digits without leading zeros,
    point. *)
Definition render (num dec : Z) : list Z :=
  (if num <? 0 then [45] else []) ++ strip_zeros (digits_point 10 dec (Z.abs num)).

(** ** Split operation *)

(** The frequency the DDS was programmed with last. *)
Fixpoint dds_frequency (tr : list event) : option Z :=
  match tr with
  | [] => None
  | AD9850_set fx :: _ => Some fx
  | _ :: tr' => dds_frequency tr'
  end.

(** The VFO in use: the other one while transmitting in split mode. *)
Definition vfo_in_use (split txrx : Z) (s : state) : Z :=
  if truthy split && truthy txrx then 1 - cur_vfo s else cur_vfo s.

(** The DDS is programmed for the VFO in use. *)
Definition tuned_for (split txrx : Z) (s : state) : Prop :=
  dds_frequency (trace s)
  = Some (int32 (f_vfo_at s (cur_band s) (vfo_in_use split txrx s)
                 + aget (f_lo s) (sideband s))).

(** The transmit line (ADC7) is high at the first conversion and at all
    later ones. *)
Definition ptt_down : environment := fun _ => mkSample [] (fun ch => if ch =? 7 then 1023 else 0).

(** ** Fast QSY *)

(** Key 4 pressed [n] times in a row. *)
Fixpoint presses (n : nat) (s : state) : state :=
  match n with
  | O => s
  | S n' => fast_qsy (presses n' s)
  end.

(** ** The LO divider *)

(** [p] holds for the [n] integers from [lo] on. *)
Fixpoint holds_from (p : Z -> bool) (lo : Z) (n : nat) : bool :=
  match n with
  | O => true
  | S n' => p lo && holds_from p (lo + 1) n'
  end.

(** The divider is in range for the registers and gives, from the 900 MHz
    of the VCO, the frequency asked for to within half a hertz. *)
Definition divider_ok (freq : Z) : bool :=
  let '(a, b) := si5351_divider freq in
  let c := CFACTOR in
  (4 <=? a) && (a <=? 2047) && (0 <=? b) && (b <? c)
  && (2 * Z.abs (900000000 * c - freq * (a * c + b)) <=? a * c + b).

(** ** The radio in tune *)

(** The frequency the LO output (multisynth 0) was programmed with last. *)
Fixpoint lo_frequency (tr : list event) : option Z :=
  match tr with
  | [] => None
  | Si5351_set_freq synth f :: tr' => if synth =? SYNTH_MS_0 then Some f else lo_frequency tr'
  | _ :: tr' => lo_frequency tr'
  end.

(** The two oscillators agree with the variables: the LO runs on the LO
    frequency of the sideband variable, and the DDS on the frequency of the
    VFO in use plus that LO frequency. *)
Definition lo_in_tune (s : state) : Prop :=
  lo_frequency (trace s) = Some (aget (f_lo s) (sideband s)).

Definition dds_in_tune (s : state) : Prop :=
  dds_frequency (trace s)
  = Some (int32 (f_vfo_at s (cur_band s) (cur_vfo s) + aget (f_lo s) (sideband s))).


(** The DDS is programmed for the frequency [fx]: [fx] plus the LO
    frequency of the sideband variable. *)
Definition dds_at (fx : Z) (s : state) : Prop :=
  dds_frequency (trace s) = Some (int32 (fx + aget (f_lo s) (sideband s))).

(** The operator lets the scan pass its first frequency and aborts it
    (key 3) on the second. *)
Definition abort_on_second : environment := script [idle; idle; idle; press 3].

(** What a pass hands on: the frequency the DDS is on, which is the
    value returned unless that is 0, or the probe the sweep goes on from. *)
Definition pass_on (r : pass (Z * Z)) (s : state) : Prop :=
  exists fx, dds_at fx s /\
             match r with
             | Return v => v = fx \/ v = 0
             | Next (fx', _) => fx' = fx
             end.

(** ** The temperature formula *)

(** [(1000 * adc / (1023 - adc) - 815) / 8.81] in exact arithmetic,
    truncated towards zero: the resistance of the sensor in a divider with
    1000 ohms at 5 V, 815 ohms at 0 degrees, 8.81 ohms per degree. *)
Definition pa_temp_exact (adc : Z) : Z :=
  Z.quot ((1000 * adc - 815 * (1023 - adc)) * 100) (881 * (1023 - adc)).

(** The sensor input (ADC3) reads 500 at every conversion. *)
Definition sensor_at_500 : environment :=
  fun _ => mkSample [] (fun ch => if ch =? 3 then 500 else 0).

(* ================================================================== *)
(** * Facts about machine integers *)

Lemma int16_id (x : Z) : -32768 <= x <= 32767 -> int16 x = x.
Proof.
  intros H. unfold int16, wrap. change (2 ^ (16 - 1)) with 32768.
  change (2 ^ 16) with 65536. rewrite Z.mod_small; lia.
Qed.

Lemma int32_id (x : Z) : -2147483648 <= x <= 2147483647 -> int32 x = x.
Proof.
  intros H. unfold int32, wrap. change (2 ^ (32 - 1)) with 2147483648.
  change (2 ^ 32) with 4294967296. rewrite Z.mod_small; lia.
Qed.

Lemma int16_range (x : Z) : -32768 <= int16 x <= 32767.
Proof.
  unfold int16, wrap. change (2 ^ (16 - 1)) with 32768. change (2 ^ 16) with 65536.
  pose proof (Z.mod_pos_bound (x + 32768) 65536). lia.
Qed.

Lemma int32_range (x : Z) : -2147483648 <= int32 x <= 2147483647.
Proof.
  unfold int32, wrap. change (2 ^ (32 - 1)) with 2147483648.
  change (2 ^ 32) with 4294967296.
  pose proof (Z.mod_pos_bound (x + 2147483648) 4294967296). lia.
Qed.

Lemma uint8_range (x : Z) : 0 <= uint8 x <= 255.
Proof. unfold uint8. pose proof (Z.mod_pos_bound x 256). lia. Qed.

Lemma uint8_id (x : Z) : 0 <= x <= 255 -> uint8 x = x.
Proof. intros H. unfold uint8. apply Z.mod_small. lia. Qed.

Lemma truthy_true (x : Z) : truthy x = true <-> x <> 0.
Proof. unfold truthy. destruct (Z.eqb_spec x 0); simpl; split; intros; congruence. Qed.

Lemma truthy_false (x : Z) : truthy x = false <-> x = 0.
Proof. unfold truthy. destruct (Z.eqb_spec x 0); simpl; split; intros; congruence. Qed.

(* ================================================================== *)
(** * EEPROM: frequencies survive a store and a load *)

Lemma eeprom_read_write_eq (a v : Z) (s : state) :
  eeprom_read_byte (eeprom_write_byte a v s) a = uint8 v.
Proof.
  unfold eeprom_read_byte, eeprom_write_byte. simpl.
  rewrite lookup_insert_eq. unfold uint8. apply Z.mod_mod. lia.
Qed.

Lemma eeprom_read_write_ne (a b v : Z) (s : state) :
  a <> b -> eeprom_read_byte (eeprom_write_byte a v s) b = eeprom_read_byte s b.
Proof.
  intros H. unfold eeprom_read_byte, eeprom_write_byte. simpl.
  by rewrite lookup_insert_ne.
Qed.

(** The four bytes [store_frequency] writes, most significant first. *)
Lemma frequency_bytes (f : Z) :
  0 <= f < 2147483648 ->
  let hi := Z.shiftr f 16 in
  let lo := int32 (f - int32 (Z.shiftl hi 16)) in
  let hmsb := uint8 (Z.shiftr hi 8) in
  let hlsb := uint8 (int32 (hi - int16 (Z.shiftl hmsb 8))) in
  let lmsb := uint8 (Z.shiftr lo 8) in
  let llsb := uint8 (int32 (lo - int16 (Z.shiftl lmsb 8))) in
  hmsb = f / 16777216 /\ hlsb = f / 65536 mod 256 /\
  lmsb = f / 256 mod 256 /\ llsb = f mod 256.
Proof.
  intros Hf hi lo hmsb hlsb lmsb llsb.
  assert (Hhi : hi = f / 65536) by (unfold hi; rewrite Z.shiftr_div_pow2 by lia; reflexivity).
  assert (Hlo : lo = f mod 65536).
  { unfold lo. rewrite Z.shiftl_mul_pow2 by lia. change (2 ^ 16) with 65536.
    rewrite Hhi. rewrite (int32_id (f / 65536 * 65536)) by (split; Z.div_mod_to_equations; lia).
    rewrite int32_id by (split; Z.div_mod_to_equations; lia).
    Z.div_mod_to_equations; lia. }
  assert (Hhmsb : hmsb = f / 16777216).
  { unfold hmsb. rewrite Z.shiftr_div_pow2 by lia. change (2 ^ 8) with 256.
    rewrite Hhi. rewrite Z.div_div by lia. change (65536 * 256) with 16777216.
    apply uint8_id. split; Z.div_mod_to_equations; lia. }
  assert (Hlmsb : lmsb = f / 256 mod 256).
  { unfold lmsb. rewrite Z.shiftr_div_pow2 by lia. change (2 ^ 8) with 256.
    rewrite Hlo. rewrite uint8_id by (split; Z.div_mod_to_equations; lia).
    Z.div_mod_to_equations; lia. }
  repeat split; [exact Hhmsb | | exact Hlmsb | ].
  - unfold hlsb. rewrite Hhmsb, Hhi. rewrite Z.shiftl_mul_pow2 by lia. change (2 ^ 8) with 256.
    rewrite (int16_id (f / 16777216 * 256)) by (split; Z.div_mod_to_equations; lia).
    rewrite int32_id by (split; Z.div_mod_to_equations; lia).
    unfold uint8. Z.div_mod_to_equations; lia.
  - unfold llsb. rewrite Hlmsb, Hlo. rewrite Z.shiftl_mul_pow2 by lia. change (2 ^ 8) with 256.
    pose proof (int16_range (f / 256 mod 256 * 256)) as Hr.
    assert (Hc : int16 (f / 256 mod 256 * 256) mod 256 = 0).
    { unfold int16, wrap. change (2 ^ (16 - 1)) with 32768. change (2 ^ 16) with 65536.
      Z.div_mod_to_equations; lia. }
    rewrite int32_id by (split; Z.div_mod_to_equations; lia).
    unfold uint8. Z.div_mod_to_equations; lia.
Qed.

(** C10.  For every VFO in {0, 1}, band in 0 .. 4 and frequency f with
    0 <= f < 2^31, [store_frequency] followed by [load_frequency] for the
    same VFO and band returns exactly f: splitting into four big-endian
    bytes and reassembling them are mutually inverse. *)
Theorem store_load_frequency (vfo band f : Z) (s : state) :
  vfo = 0 \/ vfo = 1 ->
  0 <= band <= 4 ->
  0 <= f < 2147483648 ->
  load_frequency vfo band (store_frequency vfo band f s) = f.
Proof.
  intros Hv Hb Hf.
  destruct (frequency_bytes f Hf) as (H1 & H2 & H3 & H4).
  unfold load_frequency, store_frequency. cbv zeta.
  set (a := int16 (vfo * 4 + band * 8 + OFF_FREQ_DATA)).
  cbv zeta in H1, H2, H3, H4. rewrite H4, H2, H3, H1.
  rewrite !eeprom_read_write_eq.
  rewrite (eeprom_read_write_ne (a + 3) (a + 2)) by lia.
  rewrite (eeprom_read_write_ne (a + 3) (a + 1)) by lia.
  rewrite (eeprom_read_write_ne (a + 3) a) by lia.
  rewrite (eeprom_read_write_ne (a + 2) (a + 1)) by lia.
  rewrite (eeprom_read_write_ne (a + 2) a) by lia.
  rewrite (eeprom_read_write_ne (a + 1) a) by lia.
  rewrite !eeprom_read_write_eq.
  unfold uint8, uint16.
  assert (Hd : f = 16777216 * (f / 16777216) + 65536 * (f / 65536 mod 256)
                   + 256 * (f / 256 mod 256) + f mod 256)
    by (Z.div_mod_to_equations; lia).
  assert (H3r : 0 <= f / 16777216 <= 127) by (Z.div_mod_to_equations; lia).
  pose proof (Z.mod_pos_bound (f / 65536) 256) as H2r.
  pose proof (Z.mod_pos_bound (f / 256) 256) as H1r.
  pose proof (Z.mod_pos_bound f 256) as H0r.
  revert Hd H3r H2r H1r H0r.
  generalize (f / 16777216) (f / 65536 mod 256) (f / 256 mod 256) (f mod 256).
  intros b3 b2 b1 b0 Hd H3r H2r H1r H0r.
  rewrite (Z.mod_small b3), (Z.mod_small b2), (Z.mod_small b1), (Z.mod_small b0) by lia.
  rewrite (Z.mod_small (256 * b1)) by lia.
  rewrite (int32_id (16777216 * b3)), (int32_id (65536 * b2)) by lia.
  rewrite (int32_id (16777216 * b3 + 65536 * b2)) by lia.
  rewrite (int32_id (16777216 * b3 + 65536 * b2 + 256 * b1)) by lia.
  rewrite int32_id; lia.
Qed.

Lemma store_load_frequency_witness :
  load_frequency 1 3 (store_frequency 1 3 18100000 (power_on ∅)) = 18100000.
Proof. apply store_load_frequency; lia. Defined.

(* ================================================================== *)
(** * Programming the DDS touches only the DDS port *)

Lemma radio_vars_set_frequency_ad9850 (fx : Z) (s : state) :
  radio_vars (set_frequency_ad9850 fx s) = radio_vars s.
Proof. reflexivity. Qed.

Lemma trace_set_frequency_ad9850 (fx : Z) (s : state) :
  trace (set_frequency_ad9850 fx s) = AD9850_set fx :: trace s.
Proof. reflexivity. Qed.

Lemma radio_vars_emit (ev : event) (s : state) : radio_vars (emit ev s) = radio_vars s.
Proof. reflexivity. Qed.

(** The individual variables, for rewriting. *)
Section DDSFrame.
Variables (fx : Z) (s : state).

Lemma dds_cur_vfo : cur_vfo (set_frequency_ad9850 fx s) = cur_vfo s.
Proof. reflexivity. Qed.
Lemma dds_f_vfo : f_vfo (set_frequency_ad9850 fx s) = f_vfo s.
Proof. reflexivity. Qed.
Lemma dds_laststate : laststate (set_frequency_ad9850 fx s) = laststate s.
Proof. reflexivity. Qed.
Lemma dds_tuningknob : tuningknob (set_frequency_ad9850 fx s) = tuningknob s.
Proof. reflexivity. Qed.
Lemma dds_runseconds10 : runseconds10 (set_frequency_ad9850 fx s) = runseconds10 s.
Proof. reflexivity. Qed.
Lemma dds_tuningcount : tuningcount (set_frequency_ad9850 fx s) = tuningcount s.
Proof. reflexivity. Qed.
Lemma dds_f_lo : f_lo (set_frequency_ad9850 fx s) = f_lo s.
Proof. reflexivity. Qed.
Lemma dds_sideband : sideband (set_frequency_ad9850 fx s) = sideband s.
Proof. reflexivity. Qed.
Lemma dds_cur_band : cur_band (set_frequency_ad9850 fx s) = cur_band s.
Proof. reflexivity. Qed.
Lemma dds_tx_preset : tx_preset (set_frequency_ad9850 fx s) = tx_preset s.
Proof. reflexivity. Qed.
Lemma dds_thresh : thresh (set_frequency_ad9850 fx s) = thresh s.
Proof. reflexivity. Qed.
Lemma dds_eeprom : eeprom (set_frequency_ad9850 fx s) = eeprom s.
Proof. reflexivity. Qed.
Lemma dds_PORTD : PORTD (set_frequency_ad9850 fx s) = PORTD s.
Proof. reflexivity. Qed.
Lemma dds_adc_count : adc_count (set_frequency_ad9850 fx s) = adc_count s.
Proof. reflexivity. Qed.
End DDSFrame.

Create Rewrite HintDb dds_frame.
Hint Rewrite dds_cur_vfo dds_f_vfo dds_laststate dds_tuningknob dds_runseconds10
  dds_tuningcount dds_f_lo dds_sideband dds_cur_band dds_tx_preset dds_thresh
  dds_eeprom dds_PORTD dds_adc_count trace_set_frequency_ad9850 : dds_frame.

Lemma f_vfo_at_set_frequency_ad9850 (fx : Z) (s : state) (b v : Z) :
  f_vfo_at (set_frequency_ad9850 fx s) b v = f_vfo_at s b v.
Proof. unfold f_vfo_at. by rewrite dds_f_vfo. Qed.

Lemma eeprom_read_set_frequency_ad9850 (fx : Z) (s : state) (a : Z) :
  eeprom_read_byte (set_frequency_ad9850 fx s) a = eeprom_read_byte s a.
Proof. unfold eeprom_read_byte. by rewrite dds_eeprom. Qed.

(* ================================================================== *)
(** * The value returned by the VFO A/B scan *)

Lemma vfo_value_exact (v f : Z) :
  v = 0 \/ v = 1 -> 0 <= f < 268435456 ->
  int32 (int32 (Z.shiftl v 28) + f) = v * 268435456 + f.
Proof.
  intros Hv Hf. rewrite Z.shiftl_mul_pow2 by lia. change (2 ^ 28) with 268435456.
  rewrite (int32_id (v * 268435456)) by lia. apply int32_id. lia.
Qed.

Lemma f_vfo_at_set_eq (s : state) (b v f : Z) :
  0 <= b <= 4 -> v = 0 \/ v = 1 -> length (f_vfo s) = 10%nat ->
  f_vfo_at (set_f_vfo_at b v f s) b v = f.
Proof.
  intros Hb Hv Hl. unfold f_vfo_at, set_f_vfo_at, aget, aset. simpl.
  rewrite list_lookup_insert_eq; [done|]. lia.
Qed.

(** C8.  Accepted on VFO index v in {0, 1} at frequency f, the VFO A/B scan
    returns (v << 28) + f; for every f below 2^28 the decoding of [main]
    (value >> 28 and value & 0xFFFFFFF) gives back v and f, and [main]
    selects that VFO with that frequency and programs the DDS with it. *)
Theorem scan_vfo_value_roundtrip (env : environment) (v f : Z) :
  v = 0 \/ v = 1 ->
  0 <= f < 268435456 ->
  let r := int32 (int32 (Z.shiftl v 28) + f) in
  (* what the scan returns on "accept" *)
  (forall fuel key s s1,
      vfo_waiting env fuel v key (runseconds10 s) s = Some (2, s1) ->
      f_vfo_at (snd (manual_tuning_vfo v s1)) (cur_band (snd (manual_tuning_vfo v s1))) v = f ->
      vfo_resume env fuel v key s = Some (Return r, snd (manual_tuning_vfo v s1))) /\
  (* the decoding *)
  Z.shiftr r 28 = v /\
  Z.land r 268435455 = f /\
  (* what main does with it *)
  (forall s, f <> 0 -> 0 <= cur_band s <= 4 -> length (f_vfo s) = 10%nat ->
     let s' := menu_scan_vfo_result r s in
     cur_vfo s' = v /\ f_vfo_at s' (cur_band s') v = f /\ cur_band s' = cur_band s /\
     trace s' = AD9850_set (int32 (f + aget (f_lo s) (sideband s))) :: trace s).
Proof.
  intros Hv Hf r.
  assert (Hr : r = v * 268435456 + f) by (apply vfo_value_exact; assumption).
  assert (Hs : Z.shiftr r 28 = v).
  { rewrite Hr, Z.shiftr_div_pow2 by lia. change (2 ^ 28) with 268435456.
    Z.div_mod_to_equations; lia. }
  assert (Hl : Z.land r 268435455 = f).
  { change 268435455 with (Z.ones 28). rewrite Z.land_ones by lia.
    rewrite Hr. change (2 ^ 28) with 268435456. Z.div_mod_to_equations; lia. }
  split; [|split; [exact Hs|split; [exact Hl|]]].
  - intros fuel key s s1 Hw Hfv. unfold vfo_resume. rewrite Hw.
    destruct (manual_tuning_vfo v s1) as [tuned s2] eqn:Hm. simpl in Hfv |- *.
    rewrite Hfv. reflexivity.
  - intros s Hne Hb Hlen s'. unfold s', menu_scan_vfo_result.
    rewrite Hl, Hs. replace (truthy f) with true by (symmetry; by apply truthy_true).
    rewrite (int16_id v) by lia. unfold set_dds_vfo.
    autorewrite with dds_frame. rewrite f_vfo_at_set_frequency_ad9850. simpl.
    rewrite f_vfo_at_set_eq by (simpl; assumption).
    repeat split; reflexivity.
Qed.

Lemma scan_vfo_value_roundtrip_witness :
  Z.shiftr (int32 (int32 (Z.shiftl 1 28) + 14280000)) 28 = 1 /\
  Z.land (int32 (int32 (Z.shiftl 1 28) + 14280000)) 268435455 = 14280000.
Proof.
  pose proof (scan_vfo_value_roundtrip (fun _ => mkSample [] (fun _ => 0)) 1 14280000
                (or_intror eq_refl) ltac:(lia)) as H.
  cbv zeta in H. destruct H as (_ & H1 & H2 & _). split; assumption.
Defined.

(* ================================================================== *)
(** * Tuning: the rate calculator *)

(** C4, as stated, fails: [calc_tuningfactor] returns an [int], so from a
    rotation count of 256 on the step is not count * (count >> 1).  With
    the knob beyond the dead band and a count of 256 the frequency moves
    down by 32768 Hz instead of up by 32768 Hz. *)
Lemma tune_frequency_count_256 :
  ~ (forall (s : state) (f : Z),
        tuningknob s > 2 ->
        fst (tune_frequency f s) = f + tuningcount s * Z.shiftr (tuningcount s) 1).
Proof.
  intros H.
  specialize (H (set_tuningcount 256 (set_tuningknob 3 (power_on ∅))) 14200000).
  vm_compute in H. specialize (H eq_refl). discriminate H.
Qed.

(** C4, amended.  For every frequency f, accumulator value k and rotation
    count c with 0 <= c <= 255 (the counts whose step c * (c >> 1) fits the
    [int] that [calc_tuningfactor] returns) and f -+ step inside the range
    of a [long]: [tune_frequency] returns 0 and changes nothing when
    -2 <= k <= 2; it returns f + c * (c >> 1) and clears the accumulator
    when k > 2; it returns f - c * (c >> 1) and clears the accumulator when
    k < -2. *)
Theorem tune_frequency_step (s : state) (f : Z) :
  let k := tuningknob s in
  let c := tuningcount s in
  let step := c * Z.shiftr c 1 in
  0 <= c <= 255 ->
  -2147483648 <= f - step ->
  f + step <= 2147483647 ->
  (-2 <= k <= 2 -> tune_frequency f s = (0, s)) /\
  (k > 2 -> tune_frequency f s = (f + step, set_tuningknob 0 s)) /\
  (k < -2 -> tune_frequency f s = (f - step, set_tuningknob 0 s)).
Proof.
  intros k c step Hc Hlo Hhi.
  assert (Hs : 0 <= step <= 32767).
  { unfold step. rewrite Z.shiftr_div_pow2 by lia. change (2 ^ 1) with 2.
    assert (0 <= c / 2 <= 127) by (Z.div_mod_to_equations; lia). nia. }
  assert (Hf : calc_tuningfactor s = step).
  { unfold calc_tuningfactor. fold c. fold step.
    rewrite (int32_id step) by lia. apply int16_id. lia. }
  unfold tune_frequency. fold k. rewrite Hf.
  repeat split; intros Hk.
  - destruct (Z.gtb_spec k 2); [lia|]. destruct (Z.ltb_spec k (-2)); [lia|]. reflexivity.
  - destruct (Z.gtb_spec k 2); [|lia]. rewrite int32_id by lia. reflexivity.
  - destruct (Z.gtb_spec k 2); [lia|]. destruct (Z.ltb_spec k (-2)); [|lia].
    rewrite int32_id by lia. reflexivity.
Qed.

Lemma tune_frequency_step_witness :
  tune_frequency 14200000 (set_tuningcount 10 (set_tuningknob 3 (power_on ∅)))
  = (14200050, set_tuningknob 0 (set_tuningcount 10 (set_tuningknob 3 (power_on ∅)))).
Proof.
  pose proof (tune_frequency_step (set_tuningcount 10 (set_tuningknob 3 (power_on ∅))) 14200000) as H.
  cbv zeta in H.
  destruct H as (_ & H & _);
    [vm_compute; split; discriminate | vm_compute; discriminate | vm_compute; discriminate |].
  apply H. reflexivity.
Defined.

(* ================================================================== *)
(** * Tuning: the encoder interrupt *)

Lemma land3_cases (x : Z) :
  Z.land x 3 = 0 \/ Z.land x 3 = 1 \/ Z.land x 3 = 2 \/ Z.land x 3 = 3.
Proof.
  change (Z.land x 3) with (Z.land x (Z.ones 2)).
  rewrite Z.land_ones by lia. change (2 ^ 2) with 4.
  pose proof (Z.mod_pos_bound x 4). lia.
Qed.

Lemma phase_range (pinb : Z) : 0 <= phase pinb <= 3.
Proof.
  unfold phase. destruct (land3_cases pinb) as [-> | [-> | [-> | ->]]]; vm_compute; split; discriminate.
Qed.

Lemma direction_cases (prev cur : Z) :
  0 <= prev <= 3 -> 0 <= cur <= 3 ->
  ((cur - prev) mod 4 = 1 -> direction prev cur = 1) /\
  ((prev - cur) mod 4 = 1 -> direction prev cur = -1) /\
  ((cur - prev) mod 4 = 2 -> direction prev cur = 0) /\
  (cur <> prev -> direction prev cur = -1 \/ direction prev cur = 0 \/ direction prev cur = 1).
Proof.
  intros Hp Hc.
  assert (prev = 0 \/ prev = 1 \/ prev = 2 \/ prev = 3) as [-> | [-> | [-> | ->]]] by lia;
  assert (cur = 0 \/ cur = 1 \/ cur = 2 \/ cur = 3) as [-> | [-> | [-> | ->]]] by lia;
  vm_compute; repeat split; intros; try discriminate; try congruence; auto.
Qed.

Lemma ISR_PCINT0_vect_changed (pinb : Z) (s : state) :
  phase pinb <> laststate s ->
  ISR_PCINT0_vect pinb s =
  set_tuningcount (int32 (tuningcount s + 1))
    (set_laststate (phase pinb)
       (set_tuningknob (int16 (tuningknob s + direction (laststate s) (phase pinb))) s)).
Proof.
  intros H. unfold ISR_PCINT0_vect. fold (phase pinb).
  destruct (Z.eqb_spec (phase pinb) (laststate s)); [contradiction|]. reflexivity.
Qed.

Lemma ISR_PCINT0_vect_same (pinb : Z) (s : state) :
  phase pinb = laststate s -> ISR_PCINT0_vect pinb s = s.
Proof.
  intros H. unfold ISR_PCINT0_vect. fold (phase pinb).
  destruct (Z.eqb_spec (phase pinb) (laststate s)); [reflexivity|contradiction].
Qed.

Lemma forward_accumulates (pins : list Z) (s : state) :
  0 <= laststate s <= 3 ->
  forward_steps (laststate s) pins ->
  -32768 <= tuningknob s ->
  tuningknob s + Z.of_nat (length pins) <= 32767 ->
  tuningknob (serve_all (map PCINT0 pins) s) = tuningknob s + Z.of_nat (length pins).
Proof.
  revert s. induction pins as [|p l IH]; intros s Hl Hf Hlo Hhi.
  - simpl. lia.
  - destruct Hf as [H1 Hf]. pose proof (phase_range p) as Hp.
    assert (Hne : phase p <> laststate s) by (intros E; rewrite E, Z.sub_diag in H1; discriminate).
    destruct (direction_cases (laststate s) (phase p) Hl Hp) as (Hd & _).
    specialize (Hd H1).
    change (serve_all (map PCINT0 (p :: l)) s)
      with (serve_all (map PCINT0 l) (ISR_PCINT0_vect p s)).
    rewrite ISR_PCINT0_vect_changed by exact Hne. rewrite Hd.
    simpl length in Hhi. rewrite Nat2Z.inj_succ in Hhi.
    rewrite IH; simpl; rewrite ?int16_id; try lia; assumption.
Qed.

Lemma backward_accumulates (pins : list Z) (s : state) :
  0 <= laststate s <= 3 ->
  backward_steps (laststate s) pins ->
  -32768 <= tuningknob s - Z.of_nat (length pins) ->
  tuningknob s <= 32767 ->
  tuningknob (serve_all (map PCINT0 pins) s) = tuningknob s - Z.of_nat (length pins).
Proof.
  revert s. induction pins as [|p l IH]; intros s Hl Hf Hlo Hhi.
  - simpl. lia.
  - destruct Hf as [H1 Hf]. pose proof (phase_range p) as Hp.
    assert (Hne : phase p <> laststate s) by (intros E; rewrite E, Z.sub_diag in H1; discriminate).
    destruct (direction_cases (laststate s) (phase p) Hl Hp) as (_ & Hd & _).
    specialize (Hd H1).
    change (serve_all (map PCINT0 (p :: l)) s)
      with (serve_all (map PCINT0 l) (ISR_PCINT0_vect p s)).
    rewrite ISR_PCINT0_vect_changed by exact Hne. rewrite Hd.
    simpl length in Hlo. rewrite Nat2Z.inj_succ in Hlo.
    rewrite IH; simpl; rewrite ?int16_id; try lia; assumption.
Qed.

(** C3.  With the accumulator away from the ends of its 16-bit range, for
    every pair of previous phase (0 .. 3) and port reading: the handler adds
    ((previous - current) & 3) - 2 to the accumulator when the phases
    differ, which is +1 or -1 when they are one step apart (exactly one
    encoder pin changed) and 0 when they are two steps apart (both pins
    changed); equal phases leave the whole state unchanged; and a run of
    single steps in one direction moves the accumulator by its length. *)
Theorem encoder_decode (s : state) :
  0 <= laststate s <= 3 ->
  -32767 <= tuningknob s <= 32766 ->
  (forall pinb,
      let prev := laststate s in
      let cur := phase pinb in
      let s' := ISR_PCINT0_vect pinb s in
      (cur = prev -> s' = s) /\
      (cur <> prev ->
         tuningknob s' = tuningknob s + (Z.land (prev - cur) 3 - 2) /\
         laststate s' = cur /\
         (tuningknob s' = tuningknob s - 1 \/ tuningknob s' = tuningknob s \/
          tuningknob s' = tuningknob s + 1)) /\
      ((cur - prev) mod 4 = 1 -> tuningknob s' = tuningknob s + 1) /\
      ((prev - cur) mod 4 = 1 -> tuningknob s' = tuningknob s - 1) /\
      ((cur - prev) mod 4 = 2 -> tuningknob s' = tuningknob s) /\
      (forall q, prev = phase q ->
         (Z.lxor (Z.land q 3) (Z.land pinb 3) = 1 \/ Z.lxor (Z.land q 3) (Z.land pinb 3) = 2 ->
          tuningknob s' = tuningknob s + 1 \/ tuningknob s' = tuningknob s - 1) /\
         (Z.lxor (Z.land q 3) (Z.land pinb 3) = 3 -> tuningknob s' = tuningknob s))) /\
  (forall pins,
      forward_steps (laststate s) pins ->
      tuningknob s + Z.of_nat (length pins) <= 32767 ->
      tuningknob (serve_all (map PCINT0 pins) s) = tuningknob s + Z.of_nat (length pins)) /\
  (forall pins,
      backward_steps (laststate s) pins ->
      -32768 <= tuningknob s - Z.of_nat (length pins) ->
      tuningknob (serve_all (map PCINT0 pins) s) = tuningknob s - Z.of_nat (length pins)).
Proof.
  intros Hl Hk. split; [|split].
  - intros pinb prev cur s'.
    pose proof (phase_range pinb) as Hc. fold cur in Hc.
    destruct (direction_cases prev cur Hl Hc) as (D1 & D2 & D3 & D4).
    assert (Hch : cur <> prev ->
                  tuningknob s' = tuningknob s + direction prev cur /\ laststate s' = cur).
    { intros Hne. unfold s'. rewrite ISR_PCINT0_vect_changed by exact Hne. simpl.
      fold cur prev. split; [|reflexivity]. apply int16_id.
      destruct (D4 Hne) as [-> | [-> | ->]]; lia. }
    assert (Hne1 : forall d, d <> 0 -> (cur - prev) mod 4 = d \/ (prev - cur) mod 4 = d -> cur <> prev).
    { intros d Hd [E | E] Heq; rewrite Heq, Z.sub_diag in E; vm_compute in E; congruence. }
    split; [|split; [|split; [|split; [|split]]]].
    + intros E. apply ISR_PCINT0_vect_same. exact E.
    + intros Hne. destruct (Hch Hne) as [H1 H2]. split; [exact H1|split; [exact H2|]].
      rewrite H1. destruct (D4 Hne) as [-> | [-> | ->]]; lia.
    + intros E. destruct (Hch (Hne1 1 ltac:(lia) (or_introl E))) as [-> _]. rewrite (D1 E). lia.
    + intros E. destruct (Hch (Hne1 1 ltac:(lia) (or_intror E))) as [-> _]. rewrite (D2 E). lia.
    + intros E. destruct (Hch (Hne1 2 ltac:(lia) (or_introl E))) as [-> _]. rewrite (D3 E). lia.
    + intros q Hq.
      assert (Hx : forall d, Z.lxor (Z.land q 3) (Z.land pinb 3) = d ->
                   (d = 1 \/ d = 2 -> (phase pinb - phase q) mod 4 = 1 \/ (phase q - phase pinb) mod 4 = 1)
                   /\ (d = 3 -> (phase pinb - phase q) mod 4 = 2)).
      { intros d. unfold phase.
        destruct (land3_cases q) as [-> | [-> | [-> | ->]]];
        destruct (land3_cases pinb) as [-> | [-> | [-> | ->]]];
        vm_compute; intros <-; split; intros; try (left; reflexivity); try (right; reflexivity);
        try reflexivity; try (exfalso; lia). }
      destruct (Hx _ eq_refl) as [X1 X2]. fold cur in X1, X2. rewrite <- Hq in X1, X2. split.
      * intros Hd. destruct (X1 Hd) as [E | E].
        -- left. destruct (Hch (Hne1 1 ltac:(lia) (or_introl E))) as [-> _]. rewrite (D1 E). lia.
        -- right. destruct (Hch (Hne1 1 ltac:(lia) (or_intror E))) as [-> _]. rewrite (D2 E). lia.
      * intros Hd. specialize (X2 Hd).
        destruct (Hch (Hne1 2 ltac:(lia) (or_introl X2))) as [-> _]. rewrite (D3 X2). lia.
  - intros pins Hf Hb. apply forward_accumulates; try assumption; lia.
  - intros pins Hf Hb. apply backward_accumulates; try assumption; lia.
Qed.

Lemma encoder_decode_witness :
  tuningknob (ISR_PCINT0_vect 1 (power_on ∅)) = tuningknob (power_on ∅) + 1.
Proof.
  destruct (encoder_decode (power_on ∅)) as (H & _ & _); [simpl; lia | simpl; lia |].
  destruct (H 1) as (_ & _ & H1 & _). apply H1. reflexivity.
Defined.

(* ================================================================== *)
(** * The DDS programming sequence *)

Lemma testbit_uint8 (x i : Z) : 0 <= i < 8 -> Z.testbit (uint8 x) i = Z.testbit x i.
Proof. intros H. unfold uint8. change 256 with (2 ^ 8). apply Z.mod_pow2_bits_low. lia. Qed.

Lemma testbit_set_bit (p k i : Z) :
  0 <= k < 8 -> 0 <= i < 8 ->
  Z.testbit (uint8 (Z.lor p (Z.shiftl 1 k))) i = Z.testbit p i || (i =? k).
Proof.
  intros Hk Hi. rewrite testbit_uint8 by lia. rewrite Z.lor_spec.
  rewrite Z.shiftl_mul_pow2, Z.mul_1_l by lia. rewrite Z.pow2_bits_eqb by lia.
  by rewrite (Z.eqb_sym k i).
Qed.

Lemma testbit_clear_bit (p k i : Z) :
  0 <= k < 8 -> 0 <= i < 8 ->
  Z.testbit (uint8 (Z.land p (Z.lnot (Z.shiftl 1 k)))) i = Z.testbit p i && negb (i =? k).
Proof.
  intros Hk Hi. rewrite testbit_uint8 by lia. rewrite Z.land_spec, Z.lnot_spec by lia.
  rewrite Z.shiftl_mul_pow2, Z.mul_1_l by lia. rewrite Z.pow2_bits_eqb by lia.
  by rewrite (Z.eqb_sym k i).
Qed.

Lemma clocked_bits_cons (p w : Z) (ws : list Z) :
  clocked_bits p (w :: ws) =
  if negb (Z.testbit p DDS_W_CLK) && Z.testbit w DDS_W_CLK
  then Z.testbit w DDS_SDATA :: clocked_bits w ws
  else clocked_bits w ws.
Proof. reflexivity. Qed.

Lemma clocked_bits_app (p : Z) (l1 l2 : list Z) :
  clocked_bits p (l1 ++ l2) = clocked_bits p l1 ++ clocked_bits (List.last l1 p) l2.
Proof.
  revert p. induction l1 as [|w l1 IH]; intros p; [reflexivity|].
  change ((w :: l1) ++ l2) with (w :: (l1 ++ l2)).
  assert (Hlast : List.last (w :: l1) p = List.last l1 w).
  { clear. revert w p. induction l1 as [|a l IH]; intros w p; [reflexivity|].
    change (List.last (w :: a :: l) p) with (List.last (a :: l) p).
    rewrite (IH a p), (IH a w). reflexivity. }
  rewrite Hlast, !clocked_bits_cons.
  destruct (negb (Z.testbit p DDS_W_CLK) && Z.testbit w DDS_W_CLK); rewrite IH; reflexivity.
Qed.

Lemma shifts_out_nil (d : dds_pins) :
  Z.testbit (DDS_PORT d) DDS_W_CLK = false -> shifts_out d d [] [].
Proof. intros H. repeat split; try done. Qed.

Lemma shifts_out_app (d1 d2 d3 : dds_pins) (w1 w2 : list Z) (b1 b2 : list bool) :
  shifts_out d1 d2 w1 b1 -> shifts_out d2 d3 w2 b2 -> shifts_out d1 d3 (w1 ++ w2) (b1 ++ b2).
Proof.
  intros (A1 & A2 & A3 & A4 & A5 & A6 & A7) (B1 & B2 & B3 & B4 & B5 & B6 & B7).
  repeat split.
  - rewrite B1, A1, rev_app_distr, app_assoc. reflexivity.
  - rewrite B2, A2. clear. revert w1. induction w2 as [|a w2 IH] using rev_ind; intros w1.
    + by rewrite app_nil_r.
    + rewrite app_assoc, !last_last. reflexivity.
  - rewrite clocked_bits_app, A3, <- A2, B3. reflexivity.
  - apply Forall_app. split; [exact A4|].
    eapply Forall_impl; [exact B4|]. intros w Hw. simpl in Hw. rewrite Hw. exact A6.
  - exact B5.
  - rewrite B6. exact A6.
  - rewrite !length_app, A7, B7. lia.
Qed.

Lemma spi_send_bit_shifts_out (b : Z) (d : dds_pins) :
  Z.testbit (DDS_PORT d) DDS_W_CLK = false ->
  exists ws, shifts_out d (spi_send_bit b d) ws [truthy b].
Proof.
  intros Hclk. unfold spi_send_bit.
  set (p := DDS_PORT d) in *.
  set (p1 := if truthy b then uint8 (Z.lor p (Z.shiftl 1 DDS_SDATA))
             else uint8 (Z.land p (Z.lnot (Z.shiftl 1 DDS_SDATA)))).
  set (p2 := uint8 (Z.lor p1 (Z.shiftl 1 DDS_W_CLK))).
  set (p3 := uint8 (Z.land p2 (Z.lnot (Z.shiftl 1 DDS_W_CLK)))).
  assert (H1 : forall i, 0 <= i < 8 ->
               Z.testbit p1 i = if i =? DDS_SDATA then truthy b else Z.testbit p i).
  { intros i Hi. unfold p1. destruct (truthy b).
    - rewrite testbit_set_bit by (unfold DDS_SDATA; lia).
      destruct (i =? DDS_SDATA); [apply orb_true_r|apply orb_false_r].
    - rewrite testbit_clear_bit by (unfold DDS_SDATA; lia).
      destruct (i =? DDS_SDATA); [apply andb_false_r|apply andb_true_r]. }
  assert (H2 : forall i, 0 <= i < 8 -> Z.testbit p2 i = Z.testbit p1 i || (i =? DDS_W_CLK)).
  { intros i Hi. unfold p2. apply testbit_set_bit; unfold DDS_W_CLK; lia. }
  assert (H3 : forall i, 0 <= i < 8 -> Z.testbit p3 i = Z.testbit p2 i && negb (i =? DDS_W_CLK)).
  { intros i Hi. unfold p3. apply testbit_clear_bit; unfold DDS_W_CLK; lia. }
  exists [p1; p2; p3].
  assert (E : (if truthy b
               then write_DDS_PORT (uint8 (Z.lor p (Z.shiftl 1 DDS_SDATA))) d
               else write_DDS_PORT (uint8 (Z.land p (Z.lnot (Z.shiftl 1 DDS_SDATA)))) d)
              = write_DDS_PORT p1 d) by (unfold p1; destruct (truthy b); reflexivity).
  cbv zeta. rewrite E. clear E.
  change (DDS_PORT (write_DDS_PORT p1 d)) with p1. fold p2.
  change (DDS_PORT (write_DDS_PORT p2 (write_DDS_PORT p1 d))) with p2. fold p3.
  unfold shifts_out. fold p.
  pose proof (H1 DDS_W_CLK) as H1c. pose proof (H1 DDS_FQ_UD) as H1f.
  pose proof (H1 DDS_SDATA) as H1d.
  pose proof (H2 DDS_W_CLK) as H2c. pose proof (H2 DDS_FQ_UD) as H2f.
  pose proof (H2 DDS_SDATA) as H2d.
  pose proof (H3 DDS_W_CLK) as H3c. pose proof (H3 DDS_FQ_UD) as H3f.
  unfold DDS_W_CLK, DDS_FQ_UD, DDS_SDATA in *. simpl in H1c, H1f, H1d, H2c, H2f, H2d, H3c, H3f.
  specialize (H1c ltac:(lia)). specialize (H1f ltac:(lia)). specialize (H1d ltac:(lia)).
  specialize (H2c ltac:(lia)). specialize (H2f ltac:(lia)). specialize (H2d ltac:(lia)).
  specialize (H3c ltac:(lia)). specialize (H3f ltac:(lia)).
  rewrite Hclk in H1c. rewrite H1c in H2c. rewrite H2c in H3c.
  rewrite H1f in H2f. rewrite orb_false_r in H2f. rewrite H2f, andb_true_r in H3f.
  rewrite H1d, orb_false_r in H2d.
  repeat split.
  - rewrite !clocked_bits_cons. unfold DDS_W_CLK, DDS_SDATA.
    rewrite Hclk, H1c, H2c, H3c, H2d. reflexivity.
  - repeat constructor; assumption.
  - exact H3c.
  - exact H3f.
Qed.

Lemma pow2_int32 (t : Z) : 0 <= t < 16 -> int32 (Z.shiftl (2 ^ t) 1) = 2 ^ (t + 1).
Proof.
  intros H. rewrite Z.shiftl_mul_pow2 by lia. rewrite <- Z.pow_add_r by lia.
  apply int32_id.
  assert (0 < 2 ^ (t + 1) <= 2 ^ 16) by (split; [lia | apply Z.pow_le_mono_r; lia]).
  change (2 ^ 16) with 65536 in *. lia.
Qed.

(** The test [w & x] on an [int] parameter, for a mask [x] below 2^16. *)
Lemma truthy_mask (w t : Z) : 0 <= t < 16 -> truthy (int16 (Z.land w (2 ^ t))) = Z.testbit w t.
Proof.
  intros Ht.
  assert (E : Z.land w (2 ^ t) = if Z.testbit w t then 2 ^ t else 0).
  { apply Z.bits_inj'. intros i Hi. rewrite Z.land_spec, Z.pow2_bits_eqb by lia.
    destruct (Z.eqb_spec t i) as [<- | Hne].
    - rewrite andb_true_r. destruct (Z.testbit w t) eqn:E; [|by rewrite Z.bits_0].
      rewrite Z.pow2_bits_eqb by lia. by rewrite Z.eqb_refl.
    - rewrite andb_false_r. destruct (Z.testbit w t); [|by rewrite Z.bits_0].
      rewrite Z.pow2_bits_eqb by lia. symmetry. by apply Z.eqb_neq. }
  rewrite E. destruct (Z.testbit w t); [|reflexivity].
  apply truthy_true.
  assert (t = 0 \/ t = 1 \/ t = 2 \/ t = 3 \/ t = 4 \/ t = 5 \/ t = 6 \/ t = 7 \/
          t = 8 \/ t = 9 \/ t = 10 \/ t = 11 \/ t = 12 \/ t = 13 \/ t = 14 \/ t = 15)
    as Hc by lia.
  repeat (destruct Hc as [-> | Hc]; [vm_compute; discriminate|]).
  subst t. vm_compute. discriminate.
Qed.

Lemma send_bits_shifts_out (n : nat) (w t : Z) (d : dds_pins) :
  0 <= t -> t + Z.of_nat n <= 16 ->
  Z.testbit (DDS_PORT d) DDS_W_CLK = false ->
  exists ws, shifts_out d (send_bits n w (2 ^ t) d) ws
               (map (fun i => Z.testbit w (t + Z.of_nat i)) (seq 0 n)).
Proof.
  revert t d. induction n as [|n IH]; intros t d Ht Hn Hclk.
  - exists []. simpl. by apply shifts_out_nil.
  - simpl send_bits. rewrite pow2_int32 by lia.     destruct (spi_send_bit_shifts_out (int16 (Z.land w (2 ^ t))) d Hclk) as [w1 H1].
    rewrite truthy_mask in H1 by lia.
    assert (Hclk' : Z.testbit (DDS_PORT (spi_send_bit (int16 (Z.land w (2 ^ t))) d)) DDS_W_CLK = false)
      by (destruct H1 as (_ & _ & _ & _ & H & _); exact H).
    destruct (IH (t + 1) _ ltac:(lia) ltac:(lia) Hclk') as [w2 H2].
    exists (w1 ++ w2).
    change (seq 0 (S n)) with (0%nat :: seq 1 n). rewrite <- seq_shift.
    rewrite map_cons, List.map_map. change (Z.of_nat 0) with 0. rewrite Z.add_0_r.
    replace (map (fun x => Z.testbit w (t + Z.of_nat (S x))) (seq 0 n))
      with (map (fun i => Z.testbit w (t + 1 + Z.of_nat i)) (seq 0 n))
      by (apply map_ext; intros i; f_equal; lia).
    exact (shifts_out_app _ _ _ _ _ [_] _ H1 H2).
Qed.

Lemma send_zeros_shifts_out (n : nat) (d : dds_pins) :
  Z.testbit (DDS_PORT d) DDS_W_CLK = false ->
  exists ws, shifts_out d (send_zeros n d) ws (repeat false n).
Proof.
  revert d. induction n as [|n IH]; intros d Hclk.
  - exists []. by apply shifts_out_nil.
  - simpl send_zeros.
    destruct (spi_send_bit_shifts_out 0 d Hclk) as [w1 H1].
    assert (Hclk' : Z.testbit (DDS_PORT (spi_send_bit 0 d)) DDS_W_CLK = false)
      by (destruct H1 as (_ & _ & _ & _ & H & _); exact H).
    destruct (IH _ Hclk') as [w2 H2].
    exists (w1 ++ w2). exact (shifts_out_app _ _ _ _ _ [_] _ H1 H2).
Qed.

Lemma hiword_loword (w : Z) :
  -2147483648 <= w <= 2147483647 ->
  hiword w = w / 65536 /\ loword w = w mod 65536.
Proof.
  intros H. unfold loword, hiword.
  rewrite Z.shiftr_div_pow2, Z.shiftl_mul_pow2 by lia. change (2 ^ 16) with 65536.
  split; [reflexivity|].
  rewrite (int32_id (w / 65536 * 65536)) by (Z.div_mod_to_equations; lia).
  rewrite int32_id by (Z.div_mod_to_equations; lia).
  Z.div_mod_to_equations; lia.
Qed.

Lemma halves_are_word (w : Z) :
  -2147483648 <= w <= 2147483647 ->
  bits_lsb_first 16 (loword w) ++ bits_lsb_first 16 (hiword w) = bits_lsb_first 32 w.
Proof.
  intros H. destruct (hiword_loword w H) as [-> ->]. unfold bits_lsb_first.
  change (seq 0 32) with (seq 0 16 ++ seq 16 16). rewrite map_app. f_equal.
  - apply map_ext_in. intros i Hi. apply in_seq in Hi.
    change 65536 with (2 ^ 16). apply Z.mod_pow2_bits_low. lia.
  - change (seq 16 16) with (map (fun i => (16 + i)%nat) (seq 0 16)).
    rewrite List.map_map. apply map_ext. intros i.
    change 65536 with (2 ^ 16). rewrite Z.div_pow2_bits by lia. f_equal. lia.
Qed.

Lemma fword1_range (fx : Z) : -2147483648 <= fword1 fx <= 2147483647.
Proof.
  unfold fword1. cbv zeta. unfold F32.to_long.
  destruct (F32.mul _ _); try lia. apply int32_range.
Qed.

(** The programming sequence for a tuning word [w], from a port with W_CLK
    low: FQ_UD is lowered by the first write, stays low, and is raised by
    the last; in between the 32 bits of [w] and 8 zeros are clocked in. *)
Lemma send_fword_sequence (w : Z) (d : dds_pins) :
  Z.testbit (DDS_PORT d) DDS_W_CLK = false ->
  exists first mid last,
    dds_writes (send_fword w d) = last :: rev mid ++ first :: dds_writes d /\
    DDS_PORT (send_fword w d) = last /\
    Z.testbit first DDS_FQ_UD = false /\
    Forall (fun p => Z.testbit p DDS_FQ_UD = false) mid /\
    Z.testbit last DDS_FQ_UD = true /\
    Z.testbit last DDS_W_CLK = false /\
    clocked_bits (DDS_PORT d) (first :: mid ++ [last]) =
      bits_lsb_first 16 (loword w) ++ bits_lsb_first 16 (hiword w) ++ repeat false 8.
Proof.
  intros Hclk. unfold send_fword. cbv zeta.
  set (first := uint8 (Z.land (DDS_PORT d) (Z.lnot (Z.shiftl 1 DDS_FQ_UD)))).
  set (d0 := write_DDS_PORT first d).
  assert (Hf : forall i, 0 <= i < 8 -> Z.testbit first i = Z.testbit (DDS_PORT d) i && negb (i =? DDS_FQ_UD))
    by (intros i Hi; apply testbit_clear_bit; unfold DDS_FQ_UD; lia).
  assert (Hfc : Z.testbit first DDS_W_CLK = false)
    by (rewrite Hf by (unfold DDS_W_CLK; lia); rewrite Hclk; reflexivity).
  assert (Hff : Z.testbit first DDS_FQ_UD = false)
    by (rewrite Hf by (unfold DDS_FQ_UD; lia); rewrite Z.eqb_refl; apply andb_false_r).
  destruct (send_bits_shifts_out 16 (loword w) 0 d0 ltac:(lia) ltac:(lia) Hfc) as [w1 H1].
  change (2 ^ 0) with 1 in H1.
  set (d1 := send_bits 16 (loword w) 1 d0) in *.
  assert (Hc1 : Z.testbit (DDS_PORT d1) DDS_W_CLK = false)
    by (destruct H1 as (_ & _ & _ & _ & H & _); exact H).
  destruct (send_bits_shifts_out 16 (hiword w) 0 d1 ltac:(lia) ltac:(lia) Hc1) as [w2 H2].
  change (2 ^ 0) with 1 in H2.
  set (d2 := send_bits 16 (hiword w) 1 d1) in *.
  assert (Hc2 : Z.testbit (DDS_PORT d2) DDS_W_CLK = false)
    by (destruct H2 as (_ & _ & _ & _ & H & _); exact H).
  destruct (send_zeros_shifts_out 8 d2 Hc2) as [w3 H3].
  set (d3 := send_zeros 8 d2) in *.
  pose proof (shifts_out_app _ _ _ _ _ _ _ (shifts_out_app _ _ _ _ _ _ _ H1 H2) H3) as H.
  destruct H as (A1 & A2 & A3 & A4 & A5 & A6 & A7).
  set (mid := (w1 ++ w2) ++ w3) in *.
  set (last := uint8 (Z.lor (DDS_PORT d3) (Z.shiftl 1 DDS_FQ_UD))).
  assert (Hl : forall i, 0 <= i < 8 -> Z.testbit last i = Z.testbit (DDS_PORT d3) i || (i =? DDS_FQ_UD))
    by (intros i Hi; apply testbit_set_bit; unfold DDS_FQ_UD; lia).
  exists first, mid, last.
  change (DDS_PORT d0) with first in *.
  repeat split.
  - change (dds_writes (write_DDS_PORT last d3)) with (last :: dds_writes d3).
    rewrite A1. reflexivity.
  - exact Hff.
  - eapply Forall_impl; [exact A4|]. intros p Hp. simpl in Hp. rewrite Hp. exact Hff.
  - rewrite Hl by (unfold DDS_FQ_UD; lia). rewrite Z.eqb_refl. apply orb_true_r.
  - rewrite Hl by (unfold DDS_W_CLK; lia). rewrite A5. reflexivity.
  - rewrite clocked_bits_cons, Hfc, andb_false_r.
    rewrite clocked_bits_app, A3, <- A2.
    rewrite clocked_bits_cons, A5.
    rewrite (Hl DDS_W_CLK) by (unfold DDS_W_CLK; lia). rewrite A5. simpl.
    reflexivity.
Qed.

(** C9.  From a port with W_CLK low (where every call leaves it),
    [set_frequency_ad9850] lowers FQ_UD with its first write to the DDS
    port and raises it with its last; between the two exactly 40 bits are
    clocked into the DDS: the 16 bits of the low half of the tuning word,
    least significant first, the 16 bits of the high half, least
    significant first, and 8 control bits all zero. *)
Theorem dds_programming_sequence (fx : Z) (s : state) :
  Z.testbit (DDS_PORT (dds s)) DDS_W_CLK = false ->
  let w := fword1 fx in
  let s' := set_frequency_ad9850 fx s in
  exists first mid last,
    dds_writes (dds s') = last :: rev mid ++ first :: dds_writes (dds s) /\
    Z.testbit first DDS_FQ_UD = false /\
    Forall (fun p => Z.testbit p DDS_FQ_UD = false) mid /\
    Z.testbit last DDS_FQ_UD = true /\
    let bits := clocked_bits (DDS_PORT (dds s)) (first :: mid ++ [last]) in
    bits = bits_lsb_first 16 (loword w) ++ bits_lsb_first 16 (hiword w) ++ repeat false 8 /\
    bits = bits_lsb_first 32 w ++ repeat false 8 /\
    length bits = 40%nat /\
    Z.testbit (DDS_PORT (dds s')) DDS_W_CLK = false.
Proof.
  intros Hclk w s'.
  change (dds s') with (send_fword w (dds s)).
  destruct (send_fword_sequence w (dds s) Hclk)
    as (first & mid & last & H1 & H2 & H3 & H4 & H5 & H6 & H7).
  exists first, mid, last.
  repeat split; try assumption.
  - cbv zeta. rewrite H7, app_assoc, halves_are_word by apply fword1_range. reflexivity.
  - cbv zeta. rewrite H7. rewrite !length_app. unfold bits_lsb_first.
    rewrite !length_map, !length_seq, repeat_length. reflexivity.
  - rewrite H2. exact H6.
Qed.

Lemma dds_programming_sequence_witness :
  Z.testbit (DDS_PORT (dds (set_frequency_ad9850 23201800 (power_on ∅)))) DDS_W_CLK = false.
Proof.
  destruct (dds_programming_sequence 23201800 (power_on ∅) eq_refl)
    as (first & mid & last & _ & _ & _ & _ & H).
  cbv zeta in H. destruct H as (_ & _ & _ & H). exact H.
Defined.

(* ================================================================== *)
(** * The tuning word in closed form *)

Module FloatFacts.

Lemma digits2_pos_size (p : positive) : digits2_pos p = Pos.size p.
Proof. induction p as [p IH|p IH|]; cbn [digits2_pos Pos.size]; congruence. Qed.

Lemma digits2_pos_log2 (p : positive) : Zpos (digits2_pos p) = Z.log2 (Zpos p) + 1.
Proof.
  rewrite digits2_pos_size. destruct p as [p|p|]; cbn [Pos.size Z.log2]; lia.
Qed.

Lemma digits2_pos_unique (p : positive) (d : Z) :
  2 ^ (d - 1) <= Zpos p < 2 ^ d -> 1 <= d -> Zpos (digits2_pos p) = d.
Proof.
  intros H Hd. rewrite digits2_pos_log2.
  rewrite (Z.log2_unique (Zpos p) (d - 1)); [lia|lia|].
  replace (Z.succ (d - 1)) with d by lia. exact H.
Qed.

Lemma loc_of_shr_record_of_loc (m : Z) (l : location) :
  loc_of_shr_record (shr_record_of_loc m l) = l.
Proof. destruct l as [|[]]; reflexivity. Qed.

Lemma shr_m_of_loc (m : Z) (l : location) : shr_m (shr_record_of_loc m l) = m.
Proof. destruct l as [|[]]; reflexivity. Qed.

Lemma round_nearest_even_range (m : Z) (l : location) :
  m <= round_nearest_even m l <= m + 1.
Proof.
  unfold round_nearest_even. destruct l as [|[]]; try lia. destruct (Z.even m); lia.
Qed.

Lemma round_nearest_even_new_location (n d : Z) :
  0 < d -> Z.even d = true ->
  round_nearest_even (n / d) (new_location d (n mod d)) = rne_div n d.
Proof.
  intros Hd Ev. unfold new_location, new_location_even, rne_div. rewrite Ev. cbv zeta.
  pose proof (Z.mod_pos_bound n d Hd) as Hr.
  destruct (Z.eqb_spec (n mod d) 0) as [E|E].
  - rewrite E. cbn [round_nearest_even]. destruct (Z.ltb_spec (2 * 0) d); [reflexivity|lia].
  - cbn [round_nearest_even]. unfold Z.ltb, Z.gtb.
    destruct (2 * (n mod d) ?= d); reflexivity.
Qed.

Lemma rne_div_spec (n d : Z) :
  0 < d -> - d <= 2 * (rne_div n d * d - n) <= d.
Proof.
  intros Hd. unfold rne_div. cbv zeta.
  pose proof (Z.div_mod n d ltac:(lia)) as E.
  pose proof (Z.mod_pos_bound n d Hd) as Hr.
  set (q := n / d) in *. set (r := n mod d) in *.
  destruct (Z.ltb_spec (2 * r) d); [lia|].
  destruct (Z.gtb_spec (2 * r) d); [lia|].
  destruct (Z.even q); lia.
Qed.

Lemma rne_div_floor (n d : Z) : n / d <= rne_div n d <= n / d + 1.
Proof.
  unfold rne_div. cbv zeta.
  destruct (2 * (n mod d) <? d); [lia|]. destruct (2 * (n mod d) >? d); [lia|].
  destruct (Z.even (n / d)); lia.
Qed.

Lemma shiftl_by_match (m s : Z) :
  0 < s ->
  match s with
  | Z0 => m
  | Zpos _ => Z.shiftl m s
  | Zneg _ => 0
  end = m * 2 ^ s.
Proof. intros H. destruct s; try lia. apply Z.shiftl_mul_pow2. lia. Qed.

Lemma iter_xO_pow2 (p n : positive) : Zpos (Pos.iter xO p n) = Zpos p * 2 ^ Zpos n.
Proof.
  induction n as [|n IH] using Pos.peano_ind.
  - cbn [Pos.iter]. lia.
  - rewrite Pos.iter_succ, Pos2Z.inj_succ, Z.pow_succ_r by lia.
    rewrite Pos2Z.inj_xO, IH. lia.
Qed.

Section Format.

Variables prec emax : Z.
Hypothesis Hprec : 0 < prec.
Hypothesis Hemax : prec < emax.

(** A significand of [prec] bits is not shifted. *)
Lemma shr_fexp_full (p : positive) (e : Z) (l : location) :
  2 ^ (prec - 1) <= Zpos p < 2 ^ prec -> 3 - emax - prec <= e ->
  shr_fexp prec emax (Zpos p) e l = (shr_record_of_loc (Zpos p) l, e).
Proof.
  intros H He. unfold shr_fexp. cbn [Zdigits2].
  rewrite (digits2_pos_unique p prec) by lia.
  unfold fexp, emin.
  replace (Z.max (prec + e - prec) (3 - emax - prec) - e) with 0 by lia.
  reflexivity.
Qed.

(** Rounding a significand of [prec] bits that does not round up to
    [2 ^ prec]. *)
Lemma binary_round_aux_full (p : positive) (e : Z) (l : location) :
  2 ^ (prec - 1) <= Zpos p < 2 ^ prec - 1 -> 3 - emax - prec <= e <= emax - prec ->
  binary_round_aux prec emax false (Zpos p) e l =
  S754_finite false (Z.to_pos (round_nearest_even (Zpos p) l)) e.
Proof.
  intros H He. unfold binary_round_aux.
  rewrite shr_fexp_full by lia.
  rewrite shr_m_of_loc, loc_of_shr_record_of_loc.
  pose proof (round_nearest_even_range (Zpos p) l) as Hr.
  destruct (round_nearest_even (Zpos p) l) as [|q|q] eqn:E; try lia.
  rewrite shr_fexp_full by lia. cbn [shr_m shr_record_of_loc Z.to_pos].
  destruct (Z.leb_spec e (emax - prec)); [reflexivity|lia].
Qed.

(** An integer of at most [prec] bits is converted exactly. *)
Lemma binary_normalize_scaled (f k : Z) :
  0 <= k -> 2 ^ (prec - 1) <= f * 2 ^ k < 2 ^ prec - 1 -> k < prec ->
  binary_normalize prec emax f 0 false = S754_finite false (Z.to_pos (f * 2 ^ k)) (- k).
Proof.
  intros Hk H Hkp.
  assert (Hpow : 0 < 2 ^ k) by (apply Z.pow_pos_nonneg; lia).
  destruct f as [|p|p]; try lia.
  unfold binary_normalize, binary_round.
  assert (Hd : Zpos (digits2_pos p) = prec - k).
  { apply digits2_pos_unique; [|lia].
    assert (E1 : 2 ^ (prec - 1) = 2 ^ (prec - k - 1) * 2 ^ k)
      by (rewrite <- Z.pow_add_r by lia; f_equal; lia).
    assert (E2 : 2 ^ prec = 2 ^ (prec - k) * 2 ^ k)
      by (rewrite <- Z.pow_add_r by lia; f_equal; lia).
    split; [apply (Z.mul_le_mono_pos_r _ _ (2 ^ k) Hpow)|apply (Z.mul_lt_mono_pos_r (2 ^ k) _ _ Hpow)];
      lia. }
  rewrite Hd. unfold fexp at 1, emin.
  replace (Z.max (prec - k + 0 - prec) (3 - emax - prec)) with (- k) by lia.
  destruct k as [|kp|kp]; try lia.
  - change (shl_align p 0 (- 0)) with (p, 0). cbv beta iota.
    rewrite binary_round_aux_full by lia.
    cbn [round_nearest_even Z.to_pos]. f_equal. lia.
  - change (shl_align p 0 (- Zpos kp)) with (Pos.iter xO p kp, - Zpos kp). cbv beta iota.
    pose proof (iter_xO_pow2 p kp) as Hi.
    rewrite binary_round_aux_full by lia.
    cbn [round_nearest_even Z.to_pos]. f_equal. lia.
Qed.

(** Division of a smaller by a larger significand, both of [prec] bits:
    the quotient of the significands, scaled by [2 ^ prec], rounded to
    nearest even. *)
Lemma SFdiv_full (m1 m2 : positive) (e1 e2 : Z) :
  2 ^ (prec - 1) <= Zpos m1 -> Zpos m1 < Zpos m2 -> Zpos m2 < 2 ^ prec ->
  Z.even (Zpos m2) = true ->
  3 - emax - prec <= e1 - e2 - prec <= emax - prec ->
  SFdiv prec emax (S754_finite false m1 e1) (S754_finite false m2 e2) =
  S754_finite false (Z.to_pos (rne_div (Zpos m1 * 2 ^ prec) (Zpos m2))) (e1 - e2 - prec).
Proof.
  intros H1 H12 H2 Ev He. unfold SFdiv, SFdiv_core_binary. cbn [Zdigits2 xorb].
  rewrite (digits2_pos_unique m1 prec), (digits2_pos_unique m2 prec) by lia.
  unfold fexp, emin.
  replace (Z.min (Z.max (prec + e1 - (prec + e2) - prec) (3 - emax - prec)) (e1 - e2))
    with (e1 - e2 - prec) by lia.
  replace (e1 - e2 - (e1 - e2 - prec)) with prec by lia.
  rewrite shiftl_by_match by lia.
  set (n := Zpos m1 * 2 ^ prec).
  assert (Hq : n / Zpos m2 = fst (Z.div_eucl n (Zpos m2))) by reflexivity.
  assert (Hm : n mod Zpos m2 = snd (Z.div_eucl n (Zpos m2))) by reflexivity.
  destruct (Z.div_eucl n (Zpos m2)) as [q r]. cbn [fst snd] in Hq, Hm. subst q r.
  assert (E2 : 2 ^ prec = 2 * 2 ^ (prec - 1))
    by (rewrite <- Z.pow_succ_r by lia; f_equal; lia).
  assert (Hb : 2 ^ (prec - 1) <= n / Zpos m2 < 2 ^ prec - 1).
  { subst n. split.
    - apply Z.div_le_lower_bound; [lia|]. nia.
    - apply Z.div_lt_upper_bound; [lia|]. nia. }
  destruct (n / Zpos m2) as [|q|q] eqn:E; try lia.
  rewrite binary_round_aux_full by lia.
  rewrite <- E, round_nearest_even_new_location by (assumption || lia).
  reflexivity.
Qed.

End Format.

End FloatFacts.

Module F32Facts.
Import F32 FloatFacts.

(** A 24-bit significand is not shifted. *)
Lemma shr_fexp_24 (p : positive) (e : Z) (l : location) :
  2 ^ 23 <= Zpos p < 2 ^ 24 -> -149 <= e ->
  shr_fexp prec emax (Zpos p) e l = (shr_record_of_loc (Zpos p) l, e).
Proof. exact (shr_fexp_full 24 128 eq_refl p e l). Qed.

(** [long] to [double], for a value of at most 24 bits: exact. *)
Lemma of_long_scaled (f k : Z) :
  0 <= k <= 23 ->
  2 ^ 23 <= f * 2 ^ k < 2 ^ 24 - 1 ->
  of_long f = S754_finite false (Z.to_pos (f * 2 ^ k)) (- k).
Proof.
  intros Hk H. apply (binary_normalize_scaled 24 128 eq_refl eq_refl); [lia|exact H|lia].
Qed.

(** [long] to [double], for a value of 25 bits: the last bit is rounded
    away, ties to even. *)
Lemma of_long_25 (f : Z) :
  2 ^ 24 <= f < 2 ^ 25 - 2 ->
  of_long f = S754_finite false (Z.to_pos (rne_div f 2)) 1.
Proof.
  intros H. destruct f as [|p|p]; try lia.
  unfold of_long, binary_normalize, binary_round.
  rewrite (digits2_pos_unique p 25) by (simpl in *; lia).
  change (shl_align p 0 (fexp prec emax (25 + 0))) with (p, 0). cbv beta iota.
  unfold binary_round_aux, shr_fexp at 1. cbn [Zdigits2].
  rewrite (digits2_pos_unique p 25) by (simpl in *; lia).
  change (fexp prec emax (25 + 0) - 0) with 1.
  cbn [shr shr_record_of_loc].
  assert (Hq : Zpos p / 2 = Z.div2 (Zpos p)) by (symmetry; apply Z.div2_div).
  assert (Hr : Zpos p mod 2 = if Z.odd (Zpos p) then 1 else 0) by apply Zmod_odd.
  unfold rne_div. rewrite Hq, Hr. clear Hq Hr.
  destruct p as [p|p|]; try lia.
  - assert (Hp : 2 ^ 23 <= Zpos p < 2 ^ 24 - 1) by (simpl in *; lia).
    change (SpecFloat.iter_pos shr_1 1 {| shr_m := Z.pos p~1; shr_r := false; shr_s := false |})
      with {| shr_m := Z.pos p; shr_r := true; shr_s := false |}.
    change (Z.div2 (Z.pos p~1)) with (Z.pos p). change (Z.odd (Z.pos p~1)) with true.
    cbn [loc_of_shr_record shr_m round_nearest_even].
    change (2 * 1 <? 2) with false. change (2 * 1 >? 2) with false. cbv iota.
    destruct (Z.even (Zpos p)) eqn:Ev.
    + rewrite shr_fexp_24 by lia. cbn [shr_m shr_record_of_loc Z.to_pos].
      reflexivity.
    + assert (E1 : Zpos p + 1 = Zpos (p + 1)) by lia. rewrite E1.
      rewrite shr_fexp_24 by lia. cbn [shr_m shr_record_of_loc Z.to_pos].
      reflexivity.
  - assert (Hp : 2 ^ 23 <= Zpos p < 2 ^ 24 - 1) by (simpl in *; lia).
    change (SpecFloat.iter_pos shr_1 1 {| shr_m := Z.pos p~0; shr_r := false; shr_s := false |})
      with {| shr_m := Z.pos p; shr_r := false; shr_s := false |}.
    change (Z.div2 (Z.pos p~0)) with (Z.pos p). change (Z.odd (Z.pos p~0)) with false.
    cbn [loc_of_shr_record shr_m round_nearest_even].
    change (2 * 0 <? 2) with true. cbv iota.
    rewrite shr_fexp_24 by lia. cbn [shr_m shr_record_of_loc Z.to_pos]. reflexivity.
Qed.

Lemma of_long_clk : of_long 125000000 = S754_finite false 15625000 3.
Proof. vm_compute. reflexivity. Qed.

Lemma of_long_65536 : of_long 65536 = S754_finite false 8388608 (-7).
Proof. vm_compute. reflexivity. Qed.

(** Division by the reference clock. *)
Lemma div_clk (m : positive) (e : Z) :
  2 ^ 23 <= Zpos m < 15625000 -> -100 <= e <= 100 ->
  div (S754_finite false m e) (of_long 125000000) =
  S754_finite false (Z.to_pos (rne_div (Zpos m * 2 ^ 24) 15625000)) (e - 27).
Proof.
  intros H He. rewrite of_long_clk. unfold div. change (SFdiv prec emax) with (SFdiv 24 128).
  rewrite (SFdiv_full 24 128 eq_refl m 15625000 e 3) by (reflexivity || lia).
  f_equal. lia.
Qed.

(** Multiplication by 65536 adds 16 to the exponent. *)
Lemma mul_65536 (m : positive) (e : Z) :
  2 ^ 23 <= Zpos m < 2 ^ 24 -> -100 <= e <= 80 ->
  mul (S754_finite false m e) (of_long 65536) = S754_finite false m (e + 16).
Proof.
  intros H He. rewrite of_long_65536. unfold mul, SFmul. cbn [xorb].
  unfold binary_round_aux, shr_fexp at 1. cbn [Zdigits2].
  rewrite (digits2_pos_unique (m * 8388608) 47) by (simpl in *; lia).
  replace (fexp prec emax (47 + (e + -7)) - (e + -7)) with 23
    by (unfold fexp, emin, prec, emax; lia).
  rewrite Pos.mul_comm.
  cbv [Pos.mul shr shr_record_of_loc SpecFloat.iter_pos shr_1 orb loc_of_shr_record shr_m round_nearest_even].
  rewrite shr_fexp_24 by lia. cbn [shr_m shr_record_of_loc].
  unfold emax, prec. destruct (Z.leb_spec (e + -7 + 23) (128 - 24)); [|lia].
  f_equal. lia.
Qed.

(** The cast to [long] of a float that is an integer in range. *)
Lemma to_long_scaled (m : positive) (e : Z) :
  0 <= e -> Zpos m * 2 ^ e <= 2147483647 ->
  to_long (S754_finite false m e) = Zpos m * 2 ^ e.
Proof.
  intros He H. unfold to_long, trunc_mag.
  assert (E : match e with
              | Z.neg p => Z.shiftr (Z.pos m) (Z.pos p)
              | _ => Z.shiftl (Z.pos m) e
              end = Zpos m * 2 ^ e).
  { destruct e as [|p|p]; try lia; rewrite Z.shiftl_mul_pow2; lia. }
  rewrite E. apply int32_id. lia.
Qed.

(** The cast to [long] of a float with a fraction: truncation. *)
Lemma to_long_shifted (m : positive) (e : Z) :
  e < 0 -> Zpos m / 2 ^ (- e) <= 2147483647 ->
  to_long (S754_finite false m e) = Zpos m / 2 ^ (- e).
Proof.
  intros He H. unfold to_long, trunc_mag.
  destruct e as [|p|p]; try lia.
  rewrite Z.shiftr_div_pow2 by lia. change (- Z.neg p) with (Z.pos p) in *.
  apply int32_id. split; [|exact H].
  pose proof (Z.div_pos (Z.pos m) (2 ^ Z.pos p) ltac:(lia) ltac:(lia)). lia.
Qed.

End F32Facts.

(** The same facts for the 64-bit format (53-bit significand). *)
Module F64Facts.
Import FloatFacts.

Lemma normalize64_clk :
  binary_normalize 53 1024 125000000 0 false = S754_finite false 8388608000000000 (-26).
Proof. vm_compute. reflexivity. Qed.

Lemma normalize64_65536 :
  binary_normalize 53 1024 65536 0 false = S754_finite false 4503599627370496 (-36).
Proof. vm_compute. reflexivity. Qed.

Lemma mul64_65536 (m : positive) (e : Z) :
  2 ^ 52 <= Zpos m < 2 ^ 53 -> -900 <= e <= 900 ->
  SFmul 53 1024 (S754_finite false m e) (S754_finite false 4503599627370496 (-36)) =
  S754_finite false m (e + 16).
Proof.
  intros H He. unfold SFmul. cbn [xorb].
  unfold binary_round_aux, shr_fexp at 1. cbn [Zdigits2].
  rewrite (digits2_pos_unique (m * 4503599627370496) 105) by (simpl in *; lia).
  replace (fexp 53 1024 (105 + (e + -36)) - (e + -36)) with 52
    by (unfold fexp, emin; lia).
  rewrite Pos.mul_comm.
  cbv [Pos.mul shr shr_record_of_loc SpecFloat.iter_pos shr_1 orb loc_of_shr_record shr_m round_nearest_even].
  rewrite (shr_fexp_full 53 1024 eq_refl) by (simpl in *; lia). cbn [shr_m shr_record_of_loc].
  destruct (Z.leb_spec (e + -36 + 52) (1024 - 53)); [|lia].
  f_equal. lia.
Qed.

End F64Facts.

(** The tuning word for a frequency whose [2^k]-fold has exactly 24 bits
    and lies below an eighth of the reference clock. *)
Lemma fword1_scaled (f k : Z) :
  0 <= k <= 2 ->
  2 ^ 23 <= f * 2 ^ k < 15625000 ->
  fword1 f = rne_div (f * 2 ^ k * 2 ^ 24) 15625000 * 2 ^ (5 - k).
Proof.
  intros Hk H. unfold fword1. cbv zeta.
  rewrite (F32Facts.of_long_scaled f k) by (simpl; lia).
  assert (Hm : Zpos (Z.to_pos (f * 2 ^ k)) = f * 2 ^ k) by (apply Z2Pos.id; lia).
  rewrite F32Facts.div_clk by lia. rewrite Hm.
  pose proof (FloatFacts.rne_div_spec (f * 2 ^ k * 2 ^ 24) 15625000 ltac:(lia)) as Hr.
  set (m1 := rne_div (f * 2 ^ k * 2 ^ 24) 15625000) in *.
  change (2 ^ 24) with 16777216 in Hr. change (2 ^ 23) with 8388608 in H.
  assert (Hb : 8388608 <= m1 < 16777216) by lia.
  assert (Hp : Zpos (Z.to_pos m1) = m1) by (apply Z2Pos.id; lia).
  rewrite !F32Facts.mul_65536 by (simpl; lia).
  replace (- k - 27 + 16 + 16) with (5 - k) by lia.
  rewrite F32Facts.to_long_scaled; rewrite ?Hp; try lia.
  assert (k = 0 \/ k = 1 \/ k = 2) as [-> | [-> | ->]] by lia; simpl; lia.
Qed.

(** The tuning word for a 25-bit frequency below a quarter of the
    reference clock. *)
Lemma fword1_25 (f : Z) :
  2 ^ 24 <= f < 31249998 ->
  fword1 f = rne_div (rne_div f 2 * 2 ^ 24) 15625000 * 2 ^ 6.
Proof.
  intros H. unfold fword1. cbv zeta.
  rewrite F32Facts.of_long_25 by (simpl in *; lia).
  pose proof (FloatFacts.rne_div_spec f 2 ltac:(lia)) as Hh.
  set (mx := rne_div f 2) in *. change (2 ^ 24) with 16777216 in H.
  assert (Hm : Zpos (Z.to_pos mx) = mx) by (apply Z2Pos.id; lia).
  rewrite F32Facts.div_clk by (simpl; lia). rewrite Hm.
  pose proof (FloatFacts.rne_div_spec (mx * 2 ^ 24) 15625000 ltac:(lia)) as Hr.
  set (m1 := rne_div (mx * 2 ^ 24) 15625000) in *.
  change (2 ^ 24) with 16777216 in Hr.
  assert (Hb : 8388608 <= m1 < 16777216) by lia.
  assert (Hp : Zpos (Z.to_pos m1) = m1) by (apply Z2Pos.id; lia).
  rewrite !F32Facts.mul_65536 by (simpl; lia).
  replace (1 - 27 + 16 + 16) with 6 by lia.
  rewrite F32Facts.to_long_scaled; rewrite ?Hp; simpl; lia.
Qed.

Lemma band_range (b f : Z) :
  0 <= b < 5 -> is_mem_freq_ok f b = true ->
  (b = 0 /\ 3490000 <= f <= 3810000) \/ (b = 1 /\ 6990000 <= f <= 7210000) \/
  (b = 2 /\ 13990000 <= f <= 14360000) \/ (b = 3 /\ 18060000 <= f <= 18170000) \/
  (b = 4 /\ 20990000 <= f <= 21460000).
Proof.
  intros Hb H. unfold is_mem_freq_ok in H. apply andb_true_iff in H as [H0 H1].
  apply Z.leb_le in H0, H1.
  assert (b = 0 \/ b = 1 \/ b = 2 \/ b = 3 \/ b = 4) as [-> | [-> | [-> | [-> | ->]]]] by lia.
  - change (aget band_f0 0) with 3490000 in H0. change (aget band_f1 0) with 3810000 in H1. lia.
  - change (aget band_f0 1) with 6990000 in H0. change (aget band_f1 1) with 7210000 in H1. lia.
  - change (aget band_f0 2) with 13990000 in H0. change (aget band_f1 2) with 14360000 in H1. lia.
  - change (aget band_f0 3) with 18060000 in H0. change (aget band_f1 3) with 18170000 in H1. lia.
  - change (aget band_f0 4) with 20990000 in H0. change (aget band_f1 4) with 21460000 in H1. lia.
Qed.

Lemma word_bounds (w f m e : Z) :
  0 <= e ->
  Z.abs (w * 125000000 - f * 2 ^ 32) <= m ->
  m <= e * 125000000 + 62500000 ->
  Z.abs (w - ideal_word f) <= e.
Proof.
  intros He H Hm. unfold ideal_word. change (2 ^ 32) with 4294967296 in *.
  Z.div_mod_to_equations. lia.
Qed.

(** C1, as stated, fails: at 14.2 MHz the word is 3 steps away from the
    ideal word, and it decodes to a frequency more than 3 resolution steps
    away.  In the 24-bit significand of the AVR [double], 14200000 and
    125000000 = 15625000 * 2^3 are exact, their quotient 0.1136 is rounded
    to 15247134 * 2^-27, and the two multiplications by 65536 are exact:
    the word is 15247134 * 2^5 = 487908288, while 0.1136 * 2^32 is
    487908284.8 and the ideal word 487908285. *)
Lemma tuning_word_off_at_14200000 :
  ~ (forall b f, 0 <= b < MAXBANDS -> is_mem_freq_ok f b = true ->
                 Z.abs (fword1 f - ideal_word f) <= 1) /\
  ~ (forall b f, 0 <= b < MAXBANDS -> is_mem_freq_ok f b = true ->
                 Z.abs (fword1 f * 125000000 - f * 2 ^ 32) <= 125000000).
Proof.
  split; intros H; specialize (H 2 14200000 ltac:(unfold MAXBANDS; lia) eq_refl);
    vm_compute in H; apply H; reflexivity.
Qed.

(** C1, amended.  For every frequency of a band, [set_frequency_ad9850]
    programs the word [fword1]; it is positive and fits the 32-bit
    register, it lies within 4, 8, 16, 66 and 66 steps (bands 0 to 4) of
    the ideal word, and it decodes to a frequency within 4, 8, 16, 67 and
    67 resolution steps of the frequency asked for. *)
Theorem tuning_word_accuracy (b f : Z) :
  0 <= b < MAXBANDS -> is_mem_freq_ok f b = true ->
  (forall s, dds (set_frequency_ad9850 f s) = send_fword (fword1 f) (dds s)) /\
  0 < fword1 f <= 2147483647 /\
  Z.abs (fword1 f - ideal_word f) <= aget word_error b /\
  Z.abs (fword1 f * 125000000 - f * 2 ^ 32) <= aget decode_error b * 125000000.
Proof.
  intros Hb H. split; [reflexivity|].
  destruct (band_range b f Hb H) as [[-> R] | [[-> R] | [[-> R] | [[-> R] | [-> R]]]]].
  - rewrite (fword1_scaled f 2) by (simpl; lia).
    pose proof (FloatFacts.rne_div_spec (f * 2 ^ 2 * 2 ^ 24) 15625000 ltac:(lia)) as Hr.
    set (m1 := rne_div (f * 2 ^ 2 * 2 ^ 24) 15625000) in *.
    change (aget word_error 0) with 4. change (aget decode_error 0) with 4.
    simpl Z.pow in *.
    assert (Hd : Z.abs (m1 * 8 * 125000000 - f * 4294967296) <= 4 * 125000000) by lia.
    split; [lia|]. split; [|lia]. apply (word_bounds _ _ _ 4 ltac:(lia) Hd). lia.
  - rewrite (fword1_scaled f 1) by (simpl; lia).
    pose proof (FloatFacts.rne_div_spec (f * 2 ^ 1 * 2 ^ 24) 15625000 ltac:(lia)) as Hr.
    set (m1 := rne_div (f * 2 ^ 1 * 2 ^ 24) 15625000) in *.
    change (aget word_error 1) with 8. change (aget decode_error 1) with 8.
    simpl Z.pow in *.
    assert (Hd : Z.abs (m1 * 16 * 125000000 - f * 4294967296) <= 8 * 125000000) by lia.
    split; [lia|]. split; [|lia]. apply (word_bounds _ _ _ 8 ltac:(lia) Hd). lia.
  - rewrite (fword1_scaled f 0) by (simpl; lia).
    pose proof (FloatFacts.rne_div_spec (f * 2 ^ 0 * 2 ^ 24) 15625000 ltac:(lia)) as Hr.
    set (m1 := rne_div (f * 2 ^ 0 * 2 ^ 24) 15625000) in *.
    change (aget word_error 2) with 16. change (aget decode_error 2) with 16.
    simpl Z.pow in *.
    assert (Hd : Z.abs (m1 * 32 * 125000000 - f * 4294967296) <= 16 * 125000000) by lia.
    split; [lia|]. split; [|lia]. apply (word_bounds _ _ _ 16 ltac:(lia) Hd). lia.
  - rewrite (fword1_25 f) by (simpl; lia).
    pose proof (FloatFacts.rne_div_spec f 2 ltac:(lia)) as Hh.
    set (mx := rne_div f 2) in *.
    pose proof (FloatFacts.rne_div_spec (mx * 2 ^ 24) 15625000 ltac:(lia)) as Hr.
    set (m1 := rne_div (mx * 2 ^ 24) 15625000) in *.
    change (aget word_error 3) with 66. change (aget decode_error 3) with 67.
    simpl Z.pow in *.
    assert (Hd : Z.abs (m1 * 64 * 125000000 - f * 4294967296) <= 8294967296) by lia.
    split; [lia|]. split; [|lia]. apply (word_bounds _ _ _ 66 ltac:(lia) Hd). lia.
  - rewrite (fword1_25 f) by (simpl; lia).
    pose proof (FloatFacts.rne_div_spec f 2 ltac:(lia)) as Hh.
    set (mx := rne_div f 2) in *.
    pose proof (FloatFacts.rne_div_spec (mx * 2 ^ 24) 15625000 ltac:(lia)) as Hr.
    set (m1 := rne_div (mx * 2 ^ 24) 15625000) in *.
    change (aget word_error 4) with 66. change (aget decode_error 4) with 67.
    simpl Z.pow in *.
    assert (Hd : Z.abs (m1 * 64 * 125000000 - f * 4294967296) <= 8294967296) by lia.
    split; [lia|]. split; [|lia]. apply (word_bounds _ _ _ 66 ltac:(lia) Hd). lia.
Qed.

Lemma tuning_word_accuracy_witness :
  Z.abs (fword1 14200000 - ideal_word 14200000) <= aget word_error 2.
Proof.
  exact (proj1 (proj2 (proj2 (tuning_word_accuracy 2 14200000 ltac:(unfold MAXBANDS; lia) eq_refl)))).
Defined.

(** The loss is that of the 24-bit significand: a 64-bit [double] would
    give the truncation of 487908284.8 at 14.2 MHz. *)
Example tuning_word_at_14200000 :
  fword1 14200000 = 487908288 /\ ideal_word 14200000 = 487908285 /\
  fword1_binary64 14200000 = 487908284.
Proof. vm_compute. repeat split; reflexivity. Qed.

(** The bounds are attained in every band. *)
Example tuning_word_error_attained :
  map (fun f => Z.abs (fword1 f - ideal_word f))
      [3490002; 6990012; 13990005; 18060103; 20990055] = word_error.
Proof. vm_compute. reflexivity. Qed.

(** The word a 64-bit [double] would give, for a frequency whose
    [2^k]-fold has exactly 53 bits and lies below [125000000 * 2^26]. *)
Lemma fword1_binary64_scaled (f k : Z) :
  27 <= k <= 52 ->
  2 ^ 52 <= f * 2 ^ k < 8388608000000000 ->
  fword1_binary64 f = rne_div (f * 2 ^ k * 2 ^ 53) 8388608000000000 / 2 ^ (k - 5).
Proof.
  intros Hk H. unfold fword1_binary64. cbv zeta.
  rewrite (FloatFacts.binary_normalize_scaled 53 1024 eq_refl eq_refl f k) by (simpl; lia).
  rewrite F64Facts.normalize64_clk, F64Facts.normalize64_65536.
  assert (Hm : Zpos (Z.to_pos (f * 2 ^ k)) = f * 2 ^ k) by (apply Z2Pos.id; lia).
  set (m := Z.to_pos (f * 2 ^ k)) in *.
  rewrite (FloatFacts.SFdiv_full 53 1024 eq_refl m 8388608000000000 (- k) (-26))
    by (reflexivity || (simpl; lia)).
  rewrite Hm.
  pose proof (FloatFacts.rne_div_spec (f * 2 ^ k * 2 ^ 53) 8388608000000000 ltac:(lia)) as Hr.
  set (m1 := rne_div (f * 2 ^ k * 2 ^ 53) 8388608000000000) in *.
  change (2 ^ 53) with 9007199254740992 in *. change (2 ^ 52) with 4503599627370496 in *.
  assert (Hb : 4503599627370496 <= m1 < 9007199254740992) by lia.
  assert (Hp : Zpos (Z.to_pos m1) = m1) by (apply Z2Pos.id; lia).
  rewrite !F64Facts.mul64_65536 by (simpl; lia).
  replace (- k - -26 - 53 + 16 + 16) with (5 - k) by lia.
  assert (Hj : 2 ^ 22 <= 2 ^ (k - 5)) by (apply Z.pow_le_mono_r; lia).
  rewrite F32Facts.to_long_shifted; rewrite ?Hp; replace (- (5 - k)) with (k - 5) by lia.
  - reflexivity.
  - lia.
  - assert (m1 / 2 ^ (k - 5) < 2147483648); [|lia].
    apply Z.div_lt_upper_bound; [lia|]. change (2 ^ 22) with 4194304 in Hj. nia.
Qed.

(** With a 64-bit [double] the word would be within one step of the ideal
    word, and would decode to within one resolution step of the frequency
    asked for, in every band: it is the 24-bit significand that costs the
    accuracy. *)
Lemma tuning_word_binary64 (b f : Z) :
  0 <= b < MAXBANDS -> is_mem_freq_ok f b = true ->
  0 < fword1_binary64 f <= 2147483647 /\
  Z.abs (fword1_binary64 f - ideal_word f) <= 1 /\
  Z.abs (fword1_binary64 f * 125000000 - f * 2 ^ 32) <= 125000000.
Proof.
  intros Hb H.
  assert (exists k, 28 <= k <= 31 /\ 2 ^ 52 <= f * 2 ^ k < 8388608000000000 /\
                    0 < f <= 21460000) as (k & Hk & R & Hf0).
  { destruct (band_range b f Hb H) as [[-> R] | [[-> R] | [[-> R] | [[-> R] | [-> R]]]]];
      [exists 31|exists 30|exists 29|exists 28|exists 28]; simpl; lia. }
  rewrite (fword1_binary64_scaled f k) by lia.
  pose proof (FloatFacts.rne_div_spec (f * 2 ^ k * 2 ^ 53) 8388608000000000 ltac:(lia)) as Hr.
  pose proof (FloatFacts.rne_div_floor (f * 2 ^ k * 2 ^ 53) 8388608000000000) as Hf.
  set (q := rne_div (f * 2 ^ k * 2 ^ 53) 8388608000000000) in *.
  assert (Hd : Z.abs (q / 2 ^ (k - 5) * 125000000 - f * 2 ^ 32) <= 125000000).
  { assert (k = 28 \/ k = 29 \/ k = 30 \/ k = 31) as [-> | [-> | [-> | ->]]] by lia;
      simpl Z.pow in *; simpl Z.sub in *; Z.div_mod_to_equations; lia. }
  split; [|split; [|exact Hd]].
  - change (2 ^ 32) with 4294967296 in Hd. lia.
  - apply (word_bounds _ _ _ 1 ltac:(lia) Hd). lia.
Qed.

(* ================================================================== *)
(** * Start-up: loading the operating state *)

#[global] Arguments send_fword : simpl never.
#[global] Opaque send_fword fword1.

Lemma eeprom_read_byte_range (s : state) (a : Z) : 0 <= eeprom_read_byte s a <= 255.
Proof. unfold eeprom_read_byte. destruct (eeprom s !! a); [apply uint8_range|lia]. Qed.

Lemma load_start_band_cases (s : state) :
  let b := eeprom_read_byte s OFF_LAST_BAND_USED in
  (0 <= b <= 4 /\ load_start_band s = set_cur_band b s) \/
  (4 < b /\ load_start_band s = set_cur_band 2 s).
Proof.
  intros b. pose proof (eeprom_read_byte_range s OFF_LAST_BAND_USED) as Hb. fold b in Hb.
  unfold load_start_band, load_band. fold b.
  destruct (Z.leb_spec 0 b); [|lia]. destruct (Z.leb_spec b 4); simpl.
  - left. split; [lia|]. destruct (Z.eqb_spec b (-1)); [lia|reflexivity].
  - right. split; [lia|reflexivity].
Qed.

Lemma load_start_vfo_cases (s : state) :
  let v := eeprom_read_byte s (int16 (cur_band s + OFF_VFO_DATA)) in
  (0 <= v <= 1 /\ load_start_vfo s = set_cur_vfo v s) \/
  (1 < v /\ load_start_vfo s = set_cur_vfo 0 s).
Proof.
  intros v. pose proof (eeprom_read_byte_range s (int16 (cur_band s + OFF_VFO_DATA))) as Hv.
  fold v in Hv. unfold load_start_vfo, load_vfo. fold v.
  destruct (Z.eqb_spec v 0) as [E0 | N0]; simpl.
  - left. split; [lia|]. rewrite E0. reflexivity.
  - destruct (Z.eqb_spec v 1) as [E1 | N1]; simpl.
    + left. split; [lia|]. rewrite E1. reflexivity.
    + right. split; [lia|reflexivity].
Qed.

Lemma load_tx_preset_spec (band : Z) (s : state) :
  0 <= band <= 4 ->
  load_tx_preset band s = (if tx_preset_raw band s <=? 4095 then tx_preset_raw band s else 2048)
  /\ 0 <= load_tx_preset band s <= 4095.
Proof.
  intros Hb. unfold load_tx_preset, tx_preset_raw. cbv zeta.
  rewrite (int16_id (128 + band * 2)) by lia.
  pose proof (eeprom_read_byte_range s (128 + band * 2)) as H1.
  pose proof (eeprom_read_byte_range s (128 + band * 2 + 1)) as H2.
  revert H1 H2. generalize (eeprom_read_byte s (128 + band * 2)).
  generalize (eeprom_read_byte s (128 + band * 2 + 1)). intros lo hi H1 H2.
  rewrite Z.shiftl_mul_pow2 by lia. change (2 ^ 8) with 256.
  destruct (Z.leb_spec (256 * hi + lo) 4095) as [Hle | Hgt].
  - rewrite (int16_id (hi * 256)) by lia. rewrite int16_id by lia.
    destruct (Z.leb_spec 0 (hi * 256 + lo)); [|lia].
    destruct (Z.leb_spec (hi * 256 + lo) 4095); simpl; lia.
  - assert (Hw : ~ (0 <= int16 (int16 (hi * 256) + lo) <= 4095)).
    { unfold int16, wrap. change (2 ^ (16 - 1)) with 32768. change (2 ^ 16) with 65536.
      Z.div_mod_to_equations. lia. }
    destruct (Z.leb_spec 0 (int16 (int16 (hi * 256) + lo)));
      destruct (Z.leb_spec (int16 (int16 (hi * 256) + lo)) 4095); simpl; lia.
Qed.

Lemma is_mem_freq_ok_spec (f b : Z) :
  is_mem_freq_ok f b = true <-> aget band_f0 b <= f <= aget band_f1 b.
Proof. unfold is_mem_freq_ok. rewrite andb_true_iff, !Z.leb_le. reflexivity. Qed.

Lemma c_freq_in_band (b : Z) : 0 <= b <= 4 -> is_mem_freq_ok (aget c_freq b) b = true.
Proof.
  intros H. assert (b = 0 \/ b = 1 \/ b = 2 \/ b = 3 \/ b = 4) as [-> | [-> | [-> | [-> | ->]]]] by lia;
  reflexivity.
Qed.

(** Reduction of projections through the setters, and nothing else. *)
Ltac state_simpl :=
  unfold set_dds_vfo, set_lo, mcp4725_set_value, eeprom_write_byte, set_frequency_ad9850;
  unfold f_vfo_at, set_f_vfo_at, eeprom_read_byte;
  cbn [cur_vfo f_vfo laststate tuningknob runseconds10 tuningcount f_lo sideband
       cur_band tx_preset thresh eeprom dds PORTD trace adc_count
       set_cur_vfo set_f_vfo set_laststate set_tuningknob set_runseconds10
       set_tuningcount set_f_lo set_sideband set_cur_band set_tx_preset set_thresh
       set_eeprom set_dds set_PORTD set_adc_count emit].

Tactic Notation "state_simpl" "in" hyp(H) :=
  unfold set_dds_vfo, set_lo, mcp4725_set_value, eeprom_write_byte, set_frequency_ad9850 in H;
  unfold f_vfo_at, set_f_vfo_at, eeprom_read_byte in H;
  cbn [cur_vfo f_vfo laststate tuningknob runseconds10 tuningcount f_lo sideband
       cur_band tx_preset thresh eeprom dds PORTD trace adc_count
       set_cur_vfo set_f_vfo set_laststate set_tuningknob set_runseconds10
       set_tuningcount set_f_lo set_sideband set_cur_band set_tx_preset set_thresh
       set_eeprom set_dds set_PORTD set_adc_count emit] in H.

Lemma set_band_effect (bcode : Z) (s : state) :
  0 <= bcode ->
  exists p, set_band bcode s = set_lo (aget std_sideband bcode) (set_PORTD p s).
Proof.
  intros H. unfold set_band. cbv zeta. destruct (Z.ltb_spec bcode 0); [lia|].
  unfold set_relay_bit.
  repeat match goal with |- context [if truthy ?x then _ else _] => destruct (truthy x) end;
    eexists; reflexivity.
Qed.

Lemma load_start_thresh_cases (s : state) :
  let t := eeprom_read_byte s 138 in
  load_start_thresh s = set_thresh (if t <=? 12 then t else 8) s.
Proof.
  intros t. pose proof (eeprom_read_byte_range s 138) as Ht. fold t in Ht.
  unfold load_start_thresh. cbn [thresh set_thresh]. fold t.
  destruct (Z.ltb_spec t 0); [lia|]. destruct (Z.gtb_spec t 12); destruct (Z.leb_spec t 12);
    try lia; reflexivity.
Qed.

Lemma load_start_tx_presets_step (n : nat) (t1 : Z) (s : state) :
  0 <= t1 <= 4 ->
  load_start_tx_presets (S n) t1 s =
  load_start_tx_presets n (t1 + 1) (set_tx_preset (aset (tx_preset s) t1 (load_tx_preset t1 s)) s).
Proof.
  intros Ht. cbn [load_start_tx_presets]. cbv zeta. cbn [tx_preset set_tx_preset].
  rewrite (int16_id (t1 + 1)) by lia.
  destruct (load_tx_preset_spec t1 s Ht) as [_ Hr].
  destruct (decide (Z.to_nat t1 < length (tx_preset s))%nat) as [Hlt | Hge].
  - assert (E : aget (aset (tx_preset s) t1 (load_tx_preset t1 s)) t1 = load_tx_preset t1 s)
      by (unfold aget, aset; rewrite list_lookup_insert_eq; [reflexivity|exact Hlt]).
    rewrite E. destruct (Z.ltb_spec (load_tx_preset t1 s) 0); [lia|].
    destruct (Z.gtb_spec (load_tx_preset t1 s) 4096); [lia|]. reflexivity.
  - assert (E : aset (tx_preset s) t1 (load_tx_preset t1 s) = tx_preset s)
      by (unfold aset; apply list_insert_ge; lia).
    rewrite E.
    assert (E0 : aget (tx_preset s) t1 = 0)
      by (unfold aget; rewrite lookup_ge_None_2; [reflexivity|lia]).
    rewrite E0. reflexivity.
Qed.

Lemma load_start_tx_presets_all (s : state) (p0 p1 p2 p3 p4 p5 : Z) :
  tx_preset s = [p0; p1; p2; p3; p4; p5] ->
  load_start_tx_presets 5 0 s =
  set_tx_preset [load_tx_preset 0 s; load_tx_preset 1 s; load_tx_preset 2 s;
                 load_tx_preset 3 s; load_tx_preset 4 s; p5] s.
Proof.
  intros H.
  rewrite load_start_tx_presets_step by lia. cbn [tx_preset set_tx_preset]. rewrite H.
  rewrite load_start_tx_presets_step by lia. cbn [tx_preset set_tx_preset].
  rewrite load_start_tx_presets_step by lia. cbn [tx_preset set_tx_preset].
  rewrite load_start_tx_presets_step by lia. cbn [tx_preset set_tx_preset].
  rewrite load_start_tx_presets_step by lia. cbn [tx_preset set_tx_preset].
  reflexivity.
Qed.

Lemma load_start_band_eq (s : state) :
  let b0 := eeprom_read_byte s OFF_LAST_BAND_USED in
  load_start_band s = set_cur_band (if b0 <=? 4 then b0 else 2) s.
Proof.
  intros b0. destruct (load_start_band_cases s) as [[H ->] | [H ->]]; fold b0 in H.
  - destruct (Z.leb_spec b0 4); [reflexivity|lia].
  - destruct (Z.leb_spec b0 4); [lia|reflexivity].
Qed.

Lemma load_start_vfo_eq (s : state) :
  let v0 := eeprom_read_byte s (int16 (cur_band s + OFF_VFO_DATA)) in
  load_start_vfo s = set_cur_vfo (if v0 <=? 1 then v0 else 0) s.
Proof.
  intros v0. destruct (load_start_vfo_cases s) as [[H ->] | [H ->]]; fold v0 in H.
  - destruct (Z.leb_spec v0 1); [reflexivity|lia].
  - destruct (Z.leb_spec v0 1); [lia|reflexivity].
Qed.

Lemma set_f_vfo_at_twice (b v f g : Z) (s : state) :
  set_f_vfo_at b v g (set_f_vfo_at b v f s) = set_f_vfo_at b v g s.
Proof.
  unfold set_f_vfo_at, aset. cbn [f_vfo set_f_vfo]. rewrite list_insert_insert_eq. reflexivity.
Qed.

Lemma checked_frequency_in_band (vfo band : Z) (s : state) :
  0 <= band <= 4 -> is_mem_freq_ok (checked_frequency vfo band s) band = true.
Proof.
  intros H. unfold checked_frequency.
  destruct (is_mem_freq_ok (load_frequency vfo band s) band) eqn:E; [exact E|].
  by apply c_freq_in_band.
Qed.

Lemma load_frequency_eeprom (s s' : state) (vfo band : Z) :
  eeprom s = eeprom s' -> load_frequency vfo band s = load_frequency vfo band s'.
Proof. intros H. unfold load_frequency, eeprom_read_byte. rewrite H. reflexivity. Qed.

Lemma checked_frequency_eeprom (s s' : state) (vfo band : Z) :
  eeprom s = eeprom s' -> checked_frequency vfo band s = checked_frequency vfo band s'.
Proof. intros H. unfold checked_frequency. rewrite (load_frequency_eeprom s s' _ _ H). reflexivity. Qed.

Lemma load_start_qrg_eq (s : state) :
  0 <= cur_band s <= 4 -> cur_vfo s = 0 \/ cur_vfo s = 1 -> length (f_vfo s) = 10%nat ->
  exists p,
    load_start_qrg s =
    set_lo (aget std_sideband (cur_band s))
      (set_PORTD p
         (set_sideband (aget std_sideband (cur_band s))
            (set_f_vfo_at (cur_band s) (cur_vfo s)
               (checked_frequency (cur_vfo s) (cur_band s) s) s))).
Proof.
  intros Hb Hv Hl. unfold load_start_qrg. cbv zeta.
  set (b := cur_band s) in *. set (v := cur_vfo s) in *.
  set (f0 := load_frequency v b s).
  change (cur_band (set_f_vfo_at b v f0 s)) with b.
  change (cur_vfo (set_f_vfo_at b v f0 s)) with v.
  rewrite f_vfo_at_set_eq by assumption.
  unfold checked_frequency. fold f0.
  destruct (is_mem_freq_ok f0 b); cbn [negb].
  - change (cur_band (set_f_vfo_at b v f0 s)) with b.
    destruct (set_band_effect b (set_sideband (aget std_sideband b) (set_f_vfo_at b v f0 s))
                ltac:(lia)) as [p Hp].
    exists p. exact Hp.
  - rewrite set_f_vfo_at_twice.
    change (cur_band (set_f_vfo_at b v (aget c_freq b) s)) with b.
    destruct (set_band_effect b (set_sideband (aget std_sideband b)
                                   (set_f_vfo_at b v (aget c_freq b) s))
                ltac:(lia)) as [p Hp].
    exists p. exact Hp.
Qed.

Lemma f_vfo_at_set_ne (s : state) (b v b' v' f : Z) :
  0 <= b <= 4 -> v = 0 \/ v = 1 -> 0 <= b' <= 4 -> v' = 0 \/ v' = 1 ->
  (b, v) <> (b', v') ->
  f_vfo_at (set_f_vfo_at b v f s) b' v' = f_vfo_at s b' v'.
Proof.
  intros Hb Hv Hb' Hv' Hne. unfold f_vfo_at, set_f_vfo_at, aget, aset. cbn [f_vfo set_f_vfo].
  rewrite list_lookup_insert_ne; [reflexivity|].
  intros E. apply Hne. f_equal; lia.
Qed.

Lemma power_on_in_band (e : gmap Z Z) (b v : Z) :
  0 <= b <= 4 -> v = 0 \/ v = 1 ->
  is_mem_freq_ok (f_vfo_at (power_on e) b v) b = true.
Proof.
  intros Hb Hv.
  assert (b = 0 \/ b = 1 \/ b = 2 \/ b = 3 \/ b = 4) as [-> | [-> | [-> | [-> | ->]]]] by lia;
  destruct Hv as [-> | ->]; reflexivity.
Qed.

Lemma operating_vars_set_dds_vfo (s : state) : operating_vars (set_dds_vfo s) = operating_vars s.
Proof.
  unfold set_dds_vfo.
  pose proof (radio_vars_set_frequency_ad9850
                (int32 (f_vfo_at s (cur_band s) (cur_vfo s) + aget (f_lo s) (sideband s))) s) as H.
  revert H. generalize (set_frequency_ad9850
                (int32 (f_vfo_at s (cur_band s) (cur_vfo s) + aget (f_lo s) (sideband s))) s).
  intros s' H. unfold radio_vars in H. unfold operating_vars. congruence.
Qed.

Lemma operating_vars_emit (ev : event) (s : state) : operating_vars (emit ev s) = operating_vars s.
Proof. reflexivity. Qed.

(** The operating state after the start-up sequence, for any state it is
    entered with. *)
Lemma load_start_values_core (s0 : state) (p0 p1 p2 p3 p4 p5 : Z) :
  tx_preset s0 = [p0; p1; p2; p3; p4; p5] ->
  length (f_vfo s0) = 10%nat ->
  let b0 := eeprom_read_byte s0 OFF_LAST_BAND_USED in
  let b := if b0 <=? 4 then b0 else 2 in
  let v0 := eeprom_read_byte s0 (b + OFF_VFO_DATA) in
  let v := if v0 <=? 1 then v0 else 0 in
  let t0 := eeprom_read_byte s0 138 in
  operating_vars (load_start_values s0) =
  (b, v, aset (f_vfo s0) (2 * b + v) (checked_frequency v b s0), aget std_sideband b,
   [load_tx_preset 0 s0; load_tx_preset 1 s0; load_tx_preset 2 s0;
    load_tx_preset 3 s0; load_tx_preset 4 s0; p5],
   (if t0 <=? 12 then t0 else 8), eeprom s0).
Proof.
  intros Htx Hlen b0 b v0 v t0.
  pose proof (eeprom_read_byte_range s0 OFF_LAST_BAND_USED) as Hb0. fold b0 in Hb0.
  assert (Hb : 0 <= b <= 4) by (unfold b; destruct (Z.leb_spec b0 4); lia).
  pose proof (eeprom_read_byte_range s0 (b + OFF_VFO_DATA)) as Hv0. fold v0 in Hv0.
  assert (Hv : v = 0 \/ v = 1) by (unfold v; destruct (Z.leb_spec v0 1); lia).
  unfold load_start_values. cbv zeta.
  (* band and VFO *)
  rewrite load_start_band_eq. cbv zeta. fold b0 b.
  rewrite load_start_vfo_eq. cbv zeta. cbn [cur_band set_cur_band].
  unfold OFF_VFO_DATA in *. rewrite (int16_id (b + 7)) by lia.
  replace (eeprom_read_byte (set_cur_band b s0) (b + 7)) with v0 by reflexivity. fold v.
  (* frequency, sideband, relays *)
  destruct (load_start_qrg_eq (set_cur_vfo v (set_cur_band b s0)) Hb Hv Hlen) as [p E3].
  cbn [cur_band cur_vfo set_cur_vfo set_cur_band] in E3.
  rewrite (checked_frequency_eeprom (set_cur_vfo v (set_cur_band b s0)) s0 v b eq_refl) in E3.
  rewrite E3. clear E3.
  (* threshold *)
  rewrite load_start_thresh_cases. cbv zeta.
  replace (eeprom_read_byte _ 138) with t0 by reflexivity.
  (* everything above, as one state *)
  match goal with
  | |- context [set_dds_vfo (set_dds_vfo ?t)] =>
      assert (H4 : operating_vars t
                   = (b, v, aset (f_vfo s0) (2 * b + v) (checked_frequency v b s0),
                      aget std_sideband b, tx_preset s0, (if t0 <=? 12 then t0 else 8),
                      eeprom s0)) by reflexivity;
      revert H4; generalize t; intros s4 H4
  end.
  (* oscillators on *)
  assert (H5 : operating_vars (set_dds_vfo (set_dds_vfo s4)) = operating_vars s4)
    by (rewrite !operating_vars_set_dds_vfo; reflexivity).
  rewrite H4 in H5. clear H4.
  revert H5. generalize (set_dds_vfo (set_dds_vfo s4)). clear s4. intros s5 H5.
  assert (H6 : operating_vars (emit (Si5351_set_freq SYNTH_MS_2 0)
                                 (emit (Si5351_set_freq SYNTH_MS_1 0) (set_lo (sideband s5) s5)))
               = operating_vars s5)
    by (unfold set_lo; rewrite !operating_vars_emit; reflexivity).
  rewrite H5 in H6. clear H5.
  revert H6. generalize (emit (Si5351_set_freq SYNTH_MS_2 0)
                           (emit (Si5351_set_freq SYNTH_MS_1 0) (set_lo (sideband s5) s5))).
  clear s5. intros s6 H6.
  (* TX presets *)
  unfold operating_vars in H6. injection H6 as H6b H6v H6f H6s H6t H6h H6e.
  rewrite Htx in H6t.
  rewrite (load_start_tx_presets_all s6 _ _ _ _ _ _ H6t).
  assert (Hl : forall t, load_tx_preset t s6 = load_tx_preset t s0)
    by (intros t; unfold load_tx_preset, eeprom_read_byte; rewrite H6e; reflexivity).
  rewrite !Hl. unfold mcp4725_set_value. rewrite operating_vars_emit.
  unfold operating_vars. cbn [cur_band cur_vfo f_vfo sideband tx_preset thresh eeprom set_tx_preset].
  rewrite H6b, H6v, H6f, H6s, H6h, H6e. reflexivity.
Qed.

(** C5.  For every EEPROM content, the start-up sequence of [main] ends in
    a valid operating state: the band is the stored byte if that is in
    0 .. 4 and band 2 otherwise; the VFO is the stored byte if 0 or 1 and
    VFO A otherwise; the live frequency is the stored one if inside the
    band's edges and the band's centre frequency otherwise, so it lies
    inside the edges (as does every other VFO frequency); the sideband is
    the band's default; every TX preset is the stored 16-bit value if at
    most 4095 and 2048 otherwise; the scan threshold is the stored byte if
    at most 12 and 8 otherwise. *)
Theorem load_start_values_valid (e : gmap Z Z) :
  let s0 := power_on e in
  let s := load_start_values s0 in
  let b0 := eeprom_read_byte s0 OFF_LAST_BAND_USED in
  let b := if b0 <=? 4 then b0 else 2 in
  let v0 := eeprom_read_byte s0 (b + OFF_VFO_DATA) in
  let v := if v0 <=? 1 then v0 else 0 in
  let f0 := load_frequency v b s0 in
  let t0 := eeprom_read_byte s0 138 in
  cur_band s = b /\ 0 <= cur_band s <= 4 /\
  cur_vfo s = v /\ (cur_vfo s = 0 \/ cur_vfo s = 1) /\
  f_vfo_at s b v = (if is_mem_freq_ok f0 b then f0 else aget c_freq b) /\
  (forall b' v', 0 <= b' <= 4 -> v' = 0 \/ v' = 1 ->
                 aget band_f0 b' <= f_vfo_at s b' v' <= aget band_f1 b') /\
  sideband s = aget std_sideband b /\
  (forall t, 0 <= t <= 4 ->
             aget (tx_preset s) t
             = (if tx_preset_raw t s0 <=? 4095 then tx_preset_raw t s0 else 2048) /\
             0 <= aget (tx_preset s) t <= 4095) /\
  thresh s = (if t0 <=? 12 then t0 else 8) /\ 0 <= thresh s <= 12.
Proof.
  intros s0 s b0 b v0 v f0 t0.
  pose proof (load_start_values_core s0 0 0 0 0 0 0 eq_refl eq_refl) as H.
  cbv zeta in H. fold b0 b v0 v t0 s in H.
  pose proof (eeprom_read_byte_range s0 OFF_LAST_BAND_USED) as Hb0. fold b0 in Hb0.
  assert (Hb : 0 <= b <= 4) by (unfold b; destruct (Z.leb_spec b0 4); lia).
  pose proof (eeprom_read_byte_range s0 (b + OFF_VFO_DATA)) as Hv0. fold v0 in Hv0.
  assert (Hv : v = 0 \/ v = 1) by (unfold v; destruct (Z.leb_spec v0 1); lia).
  pose proof (eeprom_read_byte_range s0 138) as Ht0. fold t0 in Ht0.
  clearbody s b v t0.
  unfold operating_vars in H. injection H as Hcb Hcv Hfv Hsb Htxs Hth _.
  set (f := checked_frequency v b s0) in *.
  assert (Hfat : forall b' v', f_vfo_at s b' v' = f_vfo_at (set_f_vfo_at b v f s0) b' v')
    by (intros; unfold f_vfo_at, set_f_vfo_at; rewrite Hfv; reflexivity).
  assert (Hok : is_mem_freq_ok f b = true) by (apply checked_frequency_in_band; exact Hb).
  assert (Hlen : length (f_vfo s0) = 10%nat) by reflexivity.
  assert (Hin : forall b' v', 0 <= b' <= 4 -> v' = 0 \/ v' = 1 ->
                 aget band_f0 b' <= f_vfo_at s b' v' <= aget band_f1 b').
  { intros b' v' Hb' Hv'. rewrite Hfat. destruct (decide ((b, v) = (b', v'))) as [Heq | Hne].
    - injection Heq as <- <-. rewrite f_vfo_at_set_eq by assumption.
      apply is_mem_freq_ok_spec in Hok. lia.
    - rewrite f_vfo_at_set_ne by assumption.
      pose proof (power_on_in_band e b' v' Hb' Hv') as Hp.
      apply is_mem_freq_ok_spec in Hp. fold s0 in Hp. lia. }
  assert (Htxp : forall t, 0 <= t <= 4 ->
             aget (tx_preset s) t
             = (if tx_preset_raw t s0 <=? 4095 then tx_preset_raw t s0 else 2048) /\
             0 <= aget (tx_preset s) t <= 4095).
  { intros t Ht. rewrite Htxs.
    assert (t = 0 \/ t = 1 \/ t = 2 \/ t = 3 \/ t = 4) as [-> | [-> | [-> | [-> | ->]]]] by lia;
      apply load_tx_preset_spec; lia. }
  rewrite Hcb, Hcv, Hsb, Hth.
  split; [reflexivity|]. split; [exact Hb|]. split; [reflexivity|]. split; [exact Hv|].
  split; [rewrite Hfat, f_vfo_at_set_eq by assumption; reflexivity|].
  split; [exact Hin|]. split; [reflexivity|]. split; [exact Htxp|].
  split; [reflexivity|]. destruct (Z.leb_spec t0 12); lia.
Qed.

(* ================================================================== *)
(** * Band change *)

Lemma aget_aset_eq (l : list Z) (i v : Z) :
  (Z.to_nat i < length l)%nat -> aget (aset l i v) i = v.
Proof. intros H. unfold aget, aset. by rewrite list_lookup_insert_eq. Qed.


Lemma store_checked_test_after (b v : Z) (s x : state) :
  0 <= b <= 4 -> v = 0 \/ v = 1 -> length (f_vfo x) = 10%nat ->
  eeprom x = eeprom s ->
  (if negb (is_mem_freq_ok (f_vfo_at (set_f_vfo_at b v (load_frequency v b x) x) b v) b)
   then set_f_vfo_at b v (aget c_freq b) (set_f_vfo_at b v (load_frequency v b x) x)
   else set_f_vfo_at b v (load_frequency v b x) x)
  = set_f_vfo_at b v (checked_frequency v b s) x.
Proof.
  intros Hb Hv Hl He. rewrite f_vfo_at_set_eq by assumption.
  rewrite (load_frequency_eeprom x s v b He). unfold checked_frequency.
  destruct (is_mem_freq_ok _ _); cbn [negb]; [reflexivity|apply set_f_vfo_at_twice].
Qed.


Lemma set_band_vars (bcode : Z) (s : state) :
  0 <= bcode ->
  radio_vars (set_band bcode s) = radio_vars (set_PORTD (PORTD (set_band bcode s)) s) /\
  trace (set_band bcode s)
  = Si5351_set_freq SYNTH_MS_0 (aget (f_lo s) (aget std_sideband bcode)) :: trace s.
Proof.
  intros H. destruct (set_band_effect bcode s H) as [p ->]. split; reflexivity.
Qed.



(** C2 (the code departs from the claim).  The radio has started on a
    blank EEPROM: band 2 (20 m), VFO A, upper sideband.  After the menu
    selects band 1 (40 m, default sideband lower) the band's frequency is
    live and the LO has been programmed for the lower sideband, but the
    sideband variable still says upper and the DDS has been programmed with
    the upper sideband offset. *)
Theorem band_change_keeps_old_sideband :
  let s := load_start_values (power_on ∅) in
  let s' := menu_band 1 s in
  (cur_band s, cur_vfo s, sideband s) = (2, 0, 1) /\
  cur_band s' = 1 /\
  aget std_sideband 1 = 0 /\
  sideband s' = 1 /\
  f_vfo_at s' 1 0 = 7120000 /\
  take 3 (trace s') =
    [MCP4725_set 2048; AD9850_set (7120000 + 9001800); Si5351_set_freq SYNTH_MS_0 8998660].
Proof. vm_compute. repeat split; reflexivity. Qed.

(* ================================================================== *)
(** * Scanning: interrupts, the clock and the keys *)

Lemma serve_static (i : irq) (s : state) : static_vars (serve i s) = static_vars s.
Proof.
  destruct i as [pinb|]; [|reflexivity].
  unfold serve, ISR_PCINT0_vect. cbv zeta. destruct (negb _); reflexivity.
Qed.

Lemma serve_all_static (l : list irq) (s : state) : static_vars (serve_all l s) = static_vars s.
Proof.
  revert s. induction l as [|i l IH]; intros s; [reflexivity|].
  change (serve_all (i :: l) s) with (serve_all l (serve i s)).
  rewrite IH. apply serve_static.
Qed.

Lemma ticks_of_nonneg (l : list irq) : 0 <= ticks_of l.
Proof. induction l as [|[pinb|] l IH]; simpl; lia. Qed.

Lemma serve_all_clock (l : list irq) (s : state) :
  -2147483648 <= runseconds10 s ->
  runseconds10 s + ticks_of l <= 2147483647 ->
  runseconds10 (serve_all l s) = runseconds10 s + ticks_of l.
Proof.
  revert s. induction l as [|i l IH]; intros s Hlo Hhi.
  - simpl. lia.
  - change (serve_all (i :: l) s) with (serve_all l (serve i s)).
    pose proof (ticks_of_nonneg l) as Hl.
    destruct i as [pinb|].
    + assert (E : runseconds10 (serve (PCINT0 pinb) s) = runseconds10 s).
      { unfold serve, ISR_PCINT0_vect. cbv zeta. destruct (negb _); reflexivity. }
      simpl ticks_of in Hhi |- *. rewrite IH; rewrite E; lia.
    + assert (E : runseconds10 (serve TIMER1_COMPA s) = runseconds10 s + 1).
      { unfold serve, ISR_TIMER1_COMPA_vect. cbn [runseconds10 set_runseconds10 set_tuningcount].
        simpl ticks_of in Hhi. apply int32_id. lia. }
      simpl ticks_of in Hhi |- *. rewrite IH; rewrite E; lia.
Qed.

Lemma ticks_from_nonneg (env : environment) (a n : nat) : 0 <= ticks_from env a n.
Proof.
  revert a. induction n as [|n IH]; intros a; simpl; [lia|].
  pose proof (ticks_of_nonneg (irqs (env a))). specialize (IH (S a)). lia.
Qed.



Lemma get_adc_runs_on (env : environment) (ch : Z) (s : state) :
  runs_on env s (snd (get_adc env ch s)) /\
  adc_count (snd (get_adc env ch s)) = S (adc_count s).
Proof.
  unfold get_adc. cbn [snd]. set (e := env (adc_count s)).
  pose proof (serve_all_static (irqs e) s) as Hs. unfold static_vars in Hs.
  injection Hs as _ _ _ _ _ _ Hth _ _ _ _ Hac.
  split; [|reflexivity].
  split; [cbn [thresh set_adc_count]; exact Hth|].
  split; [cbn [adc_count set_adc_count]; lia|].
  intros [Hlo Hn]. unfold clock_inv. cbn [runseconds10 adc_count set_adc_count].
  pose proof (Hn 1%nat) as H1. cbn [ticks_from] in H1. fold e in H1.
  pose proof (ticks_of_nonneg (irqs e)).
  rewrite serve_all_clock by lia.
  split; [split; [lia|]|lia].
  intros n. specialize (Hn (S n)). cbn [ticks_from] in Hn. fold e in Hn. lia.
Qed.

Lemma get_keys_runs_on (env : environment) (s : state) :
  runs_on env s (snd (get_keys env s)) /\
  adc_count (snd (get_keys env s)) = S (adc_count s) /\
  fst (get_keys env s) = find_key (adc (env (adc_count s)) 0 mod 1024) 0 key_value.
Proof.
  unfold get_keys. destruct (get_adc_runs_on env 0 s) as [H1 H2].
  destruct (get_adc env 0 s) as [v s1] eqn:E. cbn [fst snd] in *.
  split; [exact H1|]. split; [exact H2|].
  unfold get_adc in E. injection E as <- _. reflexivity.
Qed.

Lemma get_keys_idle (env : environment) (s : state) :
  keys_idle env (adc_count s) ->
  fst (get_keys env s) = 0 /\ keys_idle env (adc_count (snd (get_keys env s))).
Proof.
  intros H. destruct (get_keys_runs_on env s) as (_ & H2 & H3). split.
  - rewrite H3. apply H. lia.
  - rewrite H2. intros n Hn. apply H. lia.
Qed.

Lemma get_s_value_runs_on (env : environment) (s : state) :
  runs_on env s (snd (get_s_value env s)) /\
  adc_count (snd (get_s_value env s)) = S (adc_count s).
Proof.
  unfold get_s_value. destruct (get_adc_runs_on env 1 s) as [H1 H2].
  destruct (get_adc env 1 s) as [v s1]. cbn [fst snd] in *. split; assumption.
Qed.

Lemma keys_idle_later (env : environment) (a b : nat) :
  (a <= b)%nat -> keys_idle env a -> keys_idle env b.
Proof. intros Hab H n Hn. apply H. lia. Qed.

(** Tuning touches neither the clock nor the converter. *)
Lemma tune_frequency_vars (fx : Z) (s : state) :
  let s' := snd (tune_frequency fx s) in
  runseconds10 s' = runseconds10 s /\ adc_count s' = adc_count s /\ thresh s' = thresh s /\
  cur_band s' = cur_band s /\ f_vfo s' = f_vfo s /\ f_lo s' = f_lo s /\
  sideband s' = sideband s /\ trace s' = trace s.
Proof.
  unfold tune_frequency. destruct (tuningknob s >? 2); [repeat split|].
  destruct (tuningknob s <? -2); repeat split.
Qed.

Lemma manual_tuning_vars (fx : Z) (s : state) :
  let s' := snd (manual_tuning fx s) in
  runseconds10 s' = runseconds10 s /\ adc_count s' = adc_count s /\ thresh s' = thresh s.
Proof.
  unfold manual_tuning. destruct (tune_frequency_vars fx s) as (H1 & H2 & H3 & _).
  destruct (tune_frequency fx s) as [ftmp s1]. cbn [snd] in *.
  destruct (truthy ftmp); cbn [snd]; repeat split; assumption.
Qed.

Lemma manual_tuning_vfo_vars (t1 : Z) (s : state) :
  let s' := snd (manual_tuning_vfo t1 s) in
  runseconds10 s' = runseconds10 s /\ adc_count s' = adc_count s /\ thresh s' = thresh s.
Proof.
  unfold manual_tuning_vfo.
  destruct (tune_frequency_vars (f_vfo_at s (cur_band s) t1) s) as (H1 & H2 & H3 & _).
  destruct (tune_frequency (f_vfo_at s (cur_band s) t1) s) as [ftmp s1]. cbn [snd] in *.
  destruct (truthy ftmp); cbn [snd]; repeat split; assumption.
Qed.




(* ================================================================== *)
(** * Scanning: the stop at a signal and the dwell after it *)















(* ================================================================== *)
(** * Scanning: the sweep between two equal VFO frequencies *)

Lemma f0f1_scan_empty_range (env : environment) (fuel : nat) (f wait : Z) (s : state) :
  f0f1_scan env fuel f f 0 wait s = None.
Proof.
  induction fuel as [|fuel IH]; [reflexivity|].
  cbn [f0f1_scan]. change (negb (0 =? 2)) with true. cbv iota.
  assert (E : f0f1_sweep env fuel f f 0 wait s = Some (inr (0, wait), s)).
  { destruct fuel; cbn [f0f1_sweep]; rewrite Z.ltb_irrefl; reflexivity. }
  rewrite E. exact IH.
Qed.

(** C6 (the code departs from the claim).  When the two VFO frequencies of
    the band are equal, [scan_f0_f1] never enters the body of its sweep
    loop, so it never polls a key again and never returns, whatever the
    operator does and however long it runs. *)
Theorem scan_f0_f1_equal_vfos_never_returns
        (env : environment) (fuel : nat) (wait0 : Z) (s : state) :
  f_vfo_at s (cur_band s) 0 = f_vfo_at s (cur_band s) 1 ->
  scan_f0_f1 env fuel wait0 s = None.
Proof.
  intros H. unfold scan_f0_f1. cbv zeta. rewrite H.
  destruct (Z.gtb_spec (f_vfo_at s (cur_band s) 1) (f_vfo_at s (cur_band s) 1)); [lia|].
  destruct (release_keys env fuel s) as [s1|]; [|reflexivity].
  apply f0f1_scan_empty_range.
Qed.

Lemma scan_f0_f1_equal_vfos_never_returns_witness :
  scan_f0_f1 accept_held 1000 0 (load_start_values (power_on {[0 := 0]})) = None.
Proof.
  apply scan_f0_f1_equal_vfos_never_returns. vm_compute. reflexivity.
Defined.

(** With two different VFO frequencies the same operator gets the probe
    frequency back: band 2 after a start on a blank EEPROM sweeps from
    14180000 to 14280000 and "accept" returns the first probe. *)
Example scan_f0_f1_accept_20m :
  fst <$> scan_f0_f1 accept_held 1000 0 (load_start_values (power_on ∅)) = Some 14180000.
Proof. vm_compute. reflexivity. Qed.

(** A pass that did not stop: pending manual tuning is applied to the
    probe frequency, then "accept" (key 2) returns the tuned probe
    frequency, "abort" (key 3) returns 0, and otherwise the sweep goes on
    100 Hz above the tuned probe frequency. *)
Lemma f0f1_resume_keys (env : environment) (fuel : nat) (fx key : Z) (s : state) :
  f0f1_resume env fuel fx key 0 s =
  Some (if key =? 2 then Return (fst (manual_tuning fx s))
        else if key =? 3 then Return 0
        else Next (fst (manual_tuning fx s), 0),
        snd (manual_tuning fx s)).
Proof.
  unfold f0f1_resume. cbv zeta. change (truthy 0) with false. cbv iota.
  destruct (manual_tuning fx s) as [fx' s']. cbn [fst snd].
  destruct (key =? 2); [reflexivity|]. destruct (key =? 3); reflexivity.
Qed.

Lemma f0f1_sweep_next (env : environment) (fuel : nat) (f1 fx key wait : Z) (s : state)
      (fx' wait' : Z) (s' : state) :
  fx < f1 ->
  f0f1_pass env fuel fx wait s = Some (Next (fx', wait'), s') ->
  f0f1_sweep env (S fuel) f1 fx key wait s =
  f0f1_sweep env fuel f1 (int32 (fx' + 100)) 0 wait' s'.
Proof.
  intros H E. cbn [f0f1_sweep]. destruct (Z.ltb_spec fx f1); [|lia]. rewrite E. reflexivity.
Qed.


(* ================================================================== *)
(** * EEPROM: TX presets, the layout, and a power cycle *)

Lemma int16_low_byte (x : Z) : int16 x mod 256 = x mod 256.
Proof.
  unfold int16, wrap. change (2 ^ (16 - 1)) with 32768. change (2 ^ 16) with 65536.
  Z.div_mod_to_equations; lia.
Qed.

(** The two bytes [store_tx_preset] leaves in the EEPROM. *)
Lemma store_tx_preset_bytes (value band : Z) (s : state) :
  let adr := int16 (128 + band * 2) in
  eeprom_read_byte (store_tx_preset value band s) adr = value / 256 mod 16 /\
  eeprom_read_byte (store_tx_preset value band s) (adr + 1) = value mod 256.
Proof.
  intros adr. unfold store_tx_preset. fold adr. cbv zeta.
  rewrite eeprom_read_write_ne by lia. rewrite !eeprom_read_write_eq.
  rewrite Z.shiftr_div_pow2 by lia. change (2 ^ 8) with 256.
  change 15 with (Z.ones 4). change 255 with (Z.ones 8).
  rewrite !Z.land_ones by lia. change (2 ^ 4) with 16. change (2 ^ 8) with 256.
  unfold uint8. split.
  - apply Z.mod_small. Z.div_mod_to_equations; lia.
  - apply Z.mod_mod. lia.
Qed.

(** X1.  Only the low 12 bits of a TX preset are stored: what
    [load_tx_preset] reads back after [store_tx_preset] is the value
    modulo 4096, so a value in 0 .. 4095 comes back unchanged and is never
    replaced by the default, while a value outside comes back as a different
    valid one. *)
Theorem tx_preset_store_load (value band : Z) (s : state) :
  -32768 <= value <= 32767 ->
  load_tx_preset band (store_tx_preset value band s) = value mod 4096 /\
  (0 <= value <= 4095 -> load_tx_preset band (store_tx_preset value band s) = value).
Proof.
  intros Hv.
  assert (E : load_tx_preset band (store_tx_preset value band s) = value mod 4096).
  { destruct (store_tx_preset_bytes value band s) as [H1 H2].
    unfold load_tx_preset. cbv zeta in *. rewrite H1, H2.
    rewrite Z.shiftl_mul_pow2 by lia. change (2 ^ 8) with 256.
    assert (Hd : value mod 4096 = value / 256 mod 16 * 256 + value mod 256)
      by (Z.div_mod_to_equations; lia).
    pose proof (Z.mod_pos_bound (value / 256) 16 ltac:(lia)) as B1.
    pose proof (Z.mod_pos_bound value 256 ltac:(lia)) as B2.
    rewrite (int16_id (value / 256 mod 16 * 256)) by lia.
    rewrite int16_id by lia. rewrite <- Hd.
    pose proof (Z.mod_pos_bound value 4096 ltac:(lia)) as B3.
    destruct (Z.leb_spec 0 (value mod 4096)); [|lia].
    destruct (Z.leb_spec (value mod 4096) 4095); [reflexivity|lia]. }
  split; [exact E|]. intros H. rewrite E. apply Z.mod_small. lia.
Qed.

Lemma tx_preset_store_load_witness :
  load_tx_preset 2 (store_tx_preset 4102 2 (power_on ∅)) = 6.
Proof.
  exact (proj1 (tx_preset_store_load 4102 2 (power_on ∅) ltac:(lia))).
Defined.


Lemma store_frequency_read_ne (vfo band f a : Z) (s : state) :
  let start_adr := int16 (vfo * 4 + band * 8 + OFF_FREQ_DATA) in
  a < start_adr \/ start_adr + 3 < a ->
  eeprom_read_byte (store_frequency vfo band f s) a = eeprom_read_byte s a.
Proof.
  intros start_adr H. unfold store_frequency. fold start_adr. cbv zeta.
  rewrite !eeprom_read_write_ne by lia. reflexivity.
Qed.

Lemma load_frequency_reads (vfo band : Z) (s s' : state) :
  let start_adr := int16 (vfo * 4 + band * 8 + OFF_FREQ_DATA) in
  (forall a, start_adr <= a <= start_adr + 3 -> eeprom_read_byte s' a = eeprom_read_byte s a) ->
  load_frequency vfo band s' = load_frequency vfo band s.
Proof.
  intros start_adr H. unfold load_frequency. fold start_adr. cbv zeta.
  rewrite !H by lia. reflexivity.
Qed.

Lemma load_tx_preset_reads (band : Z) (s s' : state) :
  let adr := int16 (128 + band * 2) in
  (forall a, adr <= a <= adr + 1 -> eeprom_read_byte s' a = eeprom_read_byte s a) ->
  load_tx_preset band s' = load_tx_preset band s.
Proof.
  intros adr H. unfold load_tx_preset. fold adr. cbv zeta.
  rewrite !H by lia. reflexivity.
Qed.

Lemma frequency_start_adr (vfo band : Z) :
  vfo = 0 \/ vfo = 1 -> 0 <= band <= 4 ->
  int16 (vfo * 4 + band * 8 + OFF_FREQ_DATA) = 64 + 8 * band + 4 * vfo.
Proof. intros Hv Hb. unfold OFF_FREQ_DATA. rewrite int16_id; lia. Qed.

(** X2.  The EEPROM layout keeps its records apart: storing a frequency
    for one VFO of one band changes no other stored frequency, nor the
    stored band, the stored VFO of any band, any TX preset or the scan
    threshold. *)
Theorem store_frequency_keeps_the_rest (vfo band f : Z) (s : state) :
  vfo = 0 \/ vfo = 1 -> 0 <= band <= 4 ->
  let s' := store_frequency vfo band f s in
  (forall vfo' band',
      vfo' = 0 \/ vfo' = 1 -> 0 <= band' <= 4 -> vfo' <> vfo \/ band' <> band ->
      load_frequency vfo' band' s' = load_frequency vfo' band' s) /\
  load_band s' = load_band s /\
  (forall b, 0 <= b <= 4 -> load_vfo b s' = load_vfo b s) /\
  (forall t, 0 <= t <= 5 -> load_tx_preset t s' = load_tx_preset t s) /\
  eeprom_read_byte s' 138 = eeprom_read_byte s 138.
Proof.
  intros Hv Hb s'.
  assert (R : forall a, a < 64 + 8 * band + 4 * vfo \/ 64 + 8 * band + 4 * vfo + 3 < a ->
                        eeprom_read_byte s' a = eeprom_read_byte s a).
  { intros a Ha. apply store_frequency_read_ne. rewrite frequency_start_adr by assumption. lia. }
  repeat split.
  - intros vfo' band' Hv' Hb' Hne. apply load_frequency_reads.
    rewrite frequency_start_adr by assumption. intros a Ha. apply R. lia.
  - unfold load_band, OFF_LAST_BAND_USED. rewrite R by lia. reflexivity.
  - intros b Hb'. unfold load_vfo, OFF_VFO_DATA. rewrite int16_id by lia.
    rewrite R by lia. reflexivity.
  - intros t Ht. apply load_tx_preset_reads. rewrite int16_id by lia.
    intros a Ha. apply R. lia.
  - apply R. lia.
Qed.

Lemma store_frequency_keeps_the_rest_witness :
  load_frequency 0 2 (store_frequency 1 2 14280000 (power_on ∅)) = load_frequency 0 2 (power_on ∅).
Proof.
  refine (proj1 (store_frequency_keeps_the_rest 1 2 14280000 (power_on ∅) _ _) 0 2 _ _ _); lia.
Defined.


(** The four bytes in the EEPROM after [store_frequency]. *)
Lemma store_frequency_reads (vfo band f : Z) (s : state) :
  0 <= f < 2147483648 ->
  let a := int16 (vfo * 4 + band * 8 + OFF_FREQ_DATA) in
  let s' := store_frequency vfo band f s in
  eeprom_read_byte s' a = f / 16777216 /\
  eeprom_read_byte s' (a + 1) = f / 65536 mod 256 /\
  eeprom_read_byte s' (a + 2) = f / 256 mod 256 /\
  eeprom_read_byte s' (a + 3) = f mod 256.
Proof.
  intros Hf a s'.
  destruct (frequency_bytes f Hf) as (H1 & H2 & H3 & H4). cbv zeta in H1, H2, H3, H4.
  unfold s', store_frequency. fold a. cbv zeta.
  rewrite H4, H2, H3, H1.
  rewrite !eeprom_read_write_eq.
  rewrite (eeprom_read_write_ne (a + 3) (a + 2)) by lia.
  rewrite (eeprom_read_write_ne (a + 3) (a + 1)) by lia.
  rewrite (eeprom_read_write_ne (a + 3) a) by lia.
  rewrite (eeprom_read_write_ne (a + 2) (a + 1)) by lia.
  rewrite (eeprom_read_write_ne (a + 2) a) by lia.
  rewrite (eeprom_read_write_ne (a + 1) a) by lia.
  rewrite !eeprom_read_write_eq.
  repeat split; apply uint8_id; Z.div_mod_to_equations; lia.
Qed.

(** What [load_frequency] makes of four bytes, the first below 128. *)
Lemma load_frequency_of_bytes (vfo band b3 b2 b1 b0 : Z) (s : state) :
  let a := int16 (vfo * 4 + band * 8 + OFF_FREQ_DATA) in
  eeprom_read_byte s a = b3 -> eeprom_read_byte s (a + 1) = b2 ->
  eeprom_read_byte s (a + 2) = b1 -> eeprom_read_byte s (a + 3) = b0 ->
  0 <= b3 <= 127 -> 0 <= b2 <= 255 -> 0 <= b1 <= 255 -> 0 <= b0 <= 255 ->
  load_frequency vfo band s = 16777216 * b3 + 65536 * b2 + 256 * b1 + b0.
Proof.
  intros a E3 E2 E1 E0 H3 H2 H1 H0. unfold load_frequency. fold a. cbv zeta.
  rewrite E3, E2, E1, E0. unfold uint16.
  rewrite (Z.mod_small (256 * b1)) by lia.
  rewrite (int32_id (16777216 * b3)), (int32_id (65536 * b2)) by lia.
  rewrite (int32_id (16777216 * b3 + 65536 * b2)) by lia.
  rewrite (int32_id (16777216 * b3 + 65536 * b2 + 256 * b1)) by lia.
  rewrite int32_id; lia.
Qed.

Lemma eeprom_read_byte_eeprom (s s' : state) (a : Z) :
  eeprom s' = eeprom s -> eeprom_read_byte s' a = eeprom_read_byte s a.
Proof. intros E. unfold eeprom_read_byte. rewrite E. reflexivity. Qed.

Lemma operating_vars_fields (s : state) (b v : Z) (fv : list Z) (sb : Z) (tp : list Z)
      (th : Z) (e : gmap Z Z) :
  operating_vars s = (b, v, fv, sb, tp, th, e) ->
  cur_band s = b /\ cur_vfo s = v /\ f_vfo s = fv /\ sideband s = sb /\
  tx_preset s = tp /\ thresh s = th /\ eeprom s = e.
Proof. unfold operating_vars. intros H. injection H as <- <- <- <- <- <- <-. repeat split. Qed.

(** X3.  A power cycle after "store" brings the radio back where it was:
    [store_current_operation] followed by the start-up sequence on the
    EEPROM it leaves restores the band, the VFO and, when it lies inside
    the band, the frequency.  The sideband comes back as the band's default:
    the stored sideband byte is not used. *)
Theorem power_cycle_restores_operation (s : state) :
  let b := cur_band s in
  let v := cur_vfo s in
  let f := f_vfo_at s b v in
  0 <= b <= 4 -> v = 0 \/ v = 1 -> is_mem_freq_ok f b = true ->
  let s1 := store_current_operation b v (sideband s) f s in
  let s2 := load_start_values (power_on (eeprom s1)) in
  cur_band s2 = b /\ cur_vfo s2 = v /\ f_vfo_at s2 b v = f /\
  sideband s2 = aget std_sideband b.
Proof.
  intros b v f Hb Hv Hf s1 s2.
  assert (Hf31 : 0 <= f < 2147483648)
    by (destruct (band_range b f ltac:(lia) Hf) as [H|[H|[H|[H|H]]]]; lia).
  set (s0 := power_on (eeprom s1)).
  assert (R : forall a, eeprom_read_byte s0 a = eeprom_read_byte s1 a)
    by (intros a; apply eeprom_read_byte_eeprom; reflexivity).
  assert (A : int16 (v * 4 + b * 8 + OFF_FREQ_DATA) = 64 + 8 * b + 4 * v)
    by (by apply frequency_start_adr).
  assert (R0 : eeprom_read_byte s0 OFF_LAST_BAND_USED = b).
  { rewrite R. unfold s1, store_current_operation. cbv zeta.
    rewrite store_frequency_read_ne by (rewrite A; unfold OFF_LAST_BAND_USED; lia).
    unfold store_vfo, OFF_LAST_BAND_USED, OFF_LAST_SIDEBAND_USED, OFF_VFO_DATA.
    rewrite (int16_id (b + 7)) by lia.
    rewrite !eeprom_read_write_ne by lia. rewrite eeprom_read_write_eq.
    apply uint8_id. lia. }
  assert (R1 : eeprom_read_byte s0 (b + OFF_VFO_DATA) = v).
  { rewrite R. unfold s1, store_current_operation. cbv zeta.
    rewrite store_frequency_read_ne by (rewrite A; unfold OFF_VFO_DATA; lia).
    unfold store_vfo, OFF_LAST_BAND_USED, OFF_LAST_SIDEBAND_USED, OFF_VFO_DATA.
    rewrite (int16_id (b + 7)) by lia.
    rewrite eeprom_read_write_ne by lia. rewrite eeprom_read_write_eq.
    apply uint8_id. lia. }
  assert (R2 : load_frequency v b s0 = f).
  { destruct (store_frequency_reads v b f
                (eeprom_write_byte OFF_LAST_SIDEBAND_USED (sideband s)
                   (store_vfo b v (eeprom_write_byte OFF_LAST_BAND_USED b s))) Hf31)
      as (B3 & B2 & B1 & B0).
    rewrite (load_frequency_of_bytes v b (f / 16777216) (f / 65536 mod 256)
               (f / 256 mod 256) (f mod 256) s0);
      try (rewrite R; assumption); try (Z.div_mod_to_equations; lia). }
  pose proof (load_start_values_core s0 0 0 0 0 0 0 eq_refl eq_refl) as C.
  cbv zeta in C. rewrite R0 in C.
  destruct (Z.leb_spec b 4); [|lia]. rewrite R1 in C.
  destruct (Z.leb_spec v 1); [|lia].
  apply operating_vars_fields in C. destruct C as (C1 & C2 & C3 & C4 & _).
  change (load_start_values s0) with s2 in C1, C2, C3, C4.
  repeat split; try assumption.
  unfold f_vfo_at. rewrite C3.
  unfold checked_frequency. rewrite R2, Hf.
  apply aget_aset_eq. change (length (f_vfo s0)) with 10%nat. lia.
Qed.

Lemma power_cycle_restores_operation_witness :
  let s := set_cur_vfo 1 (set_cur_band 3 (power_on ∅)) in
  f_vfo_at (load_start_values
              (power_on (eeprom (store_current_operation 3 1 (sideband s) 18150000 s)))) 3 1
  = 18150000.
Proof.
  intros s.
  exact (proj1 (proj2 (proj2 (power_cycle_restores_operation s ltac:(simpl; lia)
                                 ltac:(right; reflexivity) eq_refl)))).
Defined.


Lemma eeprom_read_byte_insert_ne (e : gmap Z Z) (a b x : Z) :
  a <> b ->
  eeprom_read_byte (power_on (<[a := x]> e)) b = eeprom_read_byte (power_on e) b.
Proof. intros H. unfold eeprom_read_byte. cbn [eeprom power_on]. by rewrite lookup_insert_ne. Qed.

(** The operating state after start-up is a function of the EEPROM cells
    the start-up sequence reads. *)
Lemma load_start_values_reads (e e' : gmap Z Z) :
  (forall a, a = 0 \/ 7 <= a <= 11 \/ 64 <= a <= 103 \/ 128 <= a <= 138 ->
             eeprom_read_byte (power_on e') a = eeprom_read_byte (power_on e) a) ->
  let s := load_start_values (power_on e) in
  let s' := load_start_values (power_on e') in
  cur_band s' = cur_band s /\ cur_vfo s' = cur_vfo s /\ f_vfo s' = f_vfo s /\
  sideband s' = sideband s /\ tx_preset s' = tx_preset s /\ thresh s' = thresh s.
Proof.
  intros R s s'.
  pose proof (load_start_values_core (power_on e) 0 0 0 0 0 0 eq_refl eq_refl) as C.
  pose proof (load_start_values_core (power_on e') 0 0 0 0 0 0 eq_refl eq_refl) as C'.
  cbv zeta in C, C'.
  rewrite (R OFF_LAST_BAND_USED) in C' by (left; reflexivity).
  pose proof (eeprom_read_byte_range (power_on e) OFF_LAST_BAND_USED) as Hb0.
  set (b := if eeprom_read_byte (power_on e) OFF_LAST_BAND_USED <=? 4
            then eeprom_read_byte (power_on e) OFF_LAST_BAND_USED else 2) in *.
  assert (Hb : 0 <= b <= 4).
  { unfold b. destruct (Z.leb_spec (eeprom_read_byte (power_on e) OFF_LAST_BAND_USED) 4); lia. }
  rewrite (R (b + OFF_VFO_DATA)) in C' by (unfold OFF_VFO_DATA; lia).
  pose proof (eeprom_read_byte_range (power_on e) (b + OFF_VFO_DATA)) as Hv0.
  set (v := if eeprom_read_byte (power_on e) (b + OFF_VFO_DATA) <=? 1
            then eeprom_read_byte (power_on e) (b + OFF_VFO_DATA) else 0) in *.
  assert (Hv : v = 0 \/ v = 1).
  { unfold v. destruct (Z.leb_spec (eeprom_read_byte (power_on e) (b + OFF_VFO_DATA)) 1); lia. }
  rewrite (R 138) in C' by lia.
  assert (F : checked_frequency v b (power_on e') = checked_frequency v b (power_on e)).
  { unfold checked_frequency.
    rewrite (load_frequency_reads v b (power_on e) (power_on e')); [reflexivity|].
    rewrite frequency_start_adr by assumption. intros a Ha. apply R. lia. }
  rewrite F in C'.
  assert (P : forall t, 0 <= t <= 4 ->
                        load_tx_preset t (power_on e') = load_tx_preset t (power_on e)).
  { intros t Ht. apply load_tx_preset_reads. rewrite int16_id by lia.
    intros a Ha. apply R. lia. }
  rewrite !P in C' by lia.
  apply operating_vars_fields in C. apply operating_vars_fields in C'.
  destruct C as (C1 & C2 & C3 & C4 & C5 & C6 & _).
  destruct C' as (C1' & C2' & C3' & C4' & C5' & C6' & _).
  unfold s, s'. rewrite C1, C2, C3, C4, C5, C6, C1', C2', C3', C4', C5', C6'.
  repeat split.
Qed.

Lemma eeprom_menu_vfo (m : Z) (s : state) :
  eeprom (menu_vfo m s) = <[OFF_LAST_VFO_USED := uint8 (int16 (m - 10))]> (eeprom s).
Proof.
  unfold menu_vfo. cbv zeta.
  match goal with |- context [if ?c then _ else _] => destruct c end; state_simpl; reflexivity.
Qed.

(** X4.  The start-up sequence reads the stored band (cell 0), the stored
    VFO of each band (cells 7 .. 11), the stored frequencies (64 .. 103),
    the TX presets (128 .. 137) and the threshold (138), and nothing else:
    the cells "last VFO used" (5) and "last sideband used" (6) are written
    but have no effect on the next start.  So the VFO chosen in the menu,
    which is written to cell 5 only, does not survive a power cycle by
    itself. *)
Theorem start_up_ignores_unread_cells :
  (forall (e : gmap Z Z) (a x : Z),
      ~ (a = 0 \/ 7 <= a <= 11 \/ 64 <= a <= 103 \/ 128 <= a <= 138) ->
      let s := load_start_values (power_on e) in
      let s' := load_start_values (power_on (<[a := x]> e)) in
      cur_band s' = cur_band s /\ cur_vfo s' = cur_vfo s /\ f_vfo s' = f_vfo s /\
      sideband s' = sideband s /\ tx_preset s' = tx_preset s /\ thresh s' = thresh s) /\
  (forall (m : Z) (s0 : state),
      let s := load_start_values (power_on (eeprom s0)) in
      let s' := load_start_values (power_on (eeprom (menu_vfo m s0))) in
      cur_band s' = cur_band s /\ cur_vfo s' = cur_vfo s /\ f_vfo s' = f_vfo s /\
      sideband s' = sideband s /\ tx_preset s' = tx_preset s /\ thresh s' = thresh s).
Proof.
  split.
  - intros e a x Ha. apply load_start_values_reads.
    intros b Hb. apply eeprom_read_byte_insert_ne. intros ->. contradiction.
  - intros m s0. rewrite eeprom_menu_vfo. apply load_start_values_reads.
    intros b Hb. apply eeprom_read_byte_insert_ne. unfold OFF_LAST_VFO_USED. lia.
Qed.

Lemma start_up_ignores_unread_cells_witness :
  cur_vfo (load_start_values (power_on (<[5 := 1]> ∅))) = cur_vfo (load_start_values (power_on ∅)).
Proof.
  refine (proj1 (proj2 (proj1 start_up_ignores_unread_cells ∅ 5 1 _))). lia.
Defined.


(* ================================================================== *)
(** * Dialogs: what a key poll leaves alone *)

Lemma config_vars_fields (s s' : state) :
  config_vars s' = config_vars s ->
  cur_vfo s' = cur_vfo s /\ f_vfo s' = f_vfo s /\ f_lo s' = f_lo s /\
  sideband s' = sideband s /\ cur_band s' = cur_band s /\ tx_preset s' = tx_preset s /\
  thresh s' = thresh s /\ eeprom s' = eeprom s /\ dds s' = dds s /\ PORTD s' = PORTD s /\
  trace s' = trace s.
Proof.
  unfold config_vars. intros H. injection H as -> -> -> -> -> -> -> -> -> -> ->. repeat split.
Qed.

Lemma serve_all_config (l : list irq) (s : state) : config_vars (serve_all l s) = config_vars s.
Proof.
  pose proof (serve_all_static l s) as H. unfold static_vars in H.
  injection H as H1 H2 H3 H4 H5 H6 H7 H8 H9 H10 H11 H12.
  unfold config_vars. congruence.
Qed.

Lemma get_adc_config (env : environment) (ch : Z) (s : state) :
  config_vars (snd (get_adc env ch s)) = config_vars s.
Proof. unfold get_adc. cbn [snd]. rewrite <- (serve_all_config (irqs (env (adc_count s))) s). reflexivity. Qed.

Lemma get_keys_config (env : environment) (s : state) :
  config_vars (snd (get_keys env s)) = config_vars s.
Proof.
  unfold get_keys. pose proof (get_adc_config env 0 s) as H.
  destruct (get_adc env 0 s) as [a s1]. exact H.
Qed.

Lemma get_keys_range (env : environment) (s : state) : 0 <= fst (get_keys env s) <= 4.
Proof.
  unfold get_keys. destruct (get_adc env 0 s) as [a s1]. cbn [fst].
  unfold key_value, find_key.
  repeat match goal with |- context [if ?c then _ else _] => destruct c end; lia.
Qed.

Lemma release_keys_config (env : environment) (fuel : nat) (s s' : state) :
  release_keys env fuel s = Some s' -> config_vars s' = config_vars s.
Proof.
  revert s. induction fuel as [|fuel IH]; intros s H; [discriminate|].
  cbn [release_keys] in H. pose proof (get_keys_config env s) as C.
  destruct (get_keys env s) as [k s1]. cbn [snd] in C.
  destruct (truthy k).
  - rewrite (IH _ H). exact C.
  - injection H as <-. exact C.
Qed.

Lemma config_vars_thresh_trans (a b c : state) (tb tc : Z) :
  config_vars b = config_vars (set_thresh tb a) ->
  config_vars c = config_vars (set_thresh tc b) ->
  config_vars c = config_vars (set_thresh tc a).
Proof.
  unfold config_vars.
  cbn [cur_vfo f_vfo f_lo sideband cur_band tx_preset thresh eeprom dds PORTD trace set_thresh].
  intros H1 H2. injection H1 as ? ? ? ? ? ? ? ? ? ? ?.
  injection H2 as ? ? ? ? ? ? ? ? ? ? ?. congruence.
Qed.

Lemma config_vars_set_thresh_same (a b : state) :
  config_vars b = config_vars a -> config_vars b = config_vars (set_thresh (thresh b) a).
Proof.
  unfold config_vars.
  cbn [cur_vfo f_vfo f_lo sideband cur_band tx_preset thresh eeprom dds PORTD trace set_thresh].
  intros H1. injection H1 as ? ? ? ? ? ? ? ? ? ? ?. congruence.
Qed.


(* ================================================================== *)
(** * The scan threshold dialog *)

Lemma thresh_loop_exit (env : environment) (fuel : nat) :
  forall key s key' s',
    thresh_loop env fuel key s = Some (key', s') ->
    0 <= thresh s <= 12 ->
    0 <= thresh s' <= 12 /\ key' <> 0 /\
    config_vars s' = config_vars (set_thresh (thresh s') s).
Proof.
  induction fuel as [|fuel IH]; intros key s key' s' H Ht.
  - cbn [thresh_loop] in H. destruct (truthy key) eqn:K; cbn [negb] in H; [|discriminate].
    injection H as <- <-. split; [exact Ht|]. split; [|reflexivity].
    intros ->. discriminate.
  - cbn [thresh_loop] in H. destruct (truthy key) eqn:K; cbn [negb] in H.
    { injection H as <- <-. split; [exact Ht|]. split; [|reflexivity].
      intros ->. discriminate. }
    set (s1 := if tuningknob s >? 2
               then set_tuningknob 0
                      (if thresh s <? 12 then set_thresh (int16 (thresh s + 1)) s else s)
               else s) in H.
    assert (H1 : 0 <= thresh s1 <= 12 /\ config_vars s1 = config_vars (set_thresh (thresh s1) s)).
    { unfold s1. destruct (tuningknob s >? 2); [|split; [exact Ht|reflexivity]].
      destruct (Z.ltb_spec (thresh s) 12); cbn [thresh set_tuningknob set_thresh].
      - rewrite int16_id by lia. split; [lia|reflexivity].
      - split; [lia|reflexivity]. }
    destruct H1 as [Ht1 C1].
    set (s2 := if tuningknob s1 <? -2
               then set_tuningknob 0
                      (if thresh s1 >? 0 then set_thresh (int16 (thresh s1 - 1)) s1 else s1)
               else s1) in H.
    assert (H2 : 0 <= thresh s2 <= 12 /\ config_vars s2 = config_vars (set_thresh (thresh s2) s1)).
    { unfold s2. destruct (tuningknob s1 <? -2); [|split; [exact Ht1|reflexivity]].
      destruct (Z.gtb_spec (thresh s1) 0); cbn [thresh set_tuningknob set_thresh].
      - rewrite int16_id by lia. split; [lia|reflexivity].
      - split; [lia|reflexivity]. }
    destruct H2 as [Ht2 C2].
    pose proof (get_keys_config env s2) as C3.
    destruct (get_keys env s2) as [k s3]. cbn [snd] in C3.
    assert (Ht3 : 0 <= thresh s3 <= 12).
    { apply config_vars_fields in C3. destruct C3 as (_ & _ & _ & _ & _ & _ & E & _).
      rewrite E. exact Ht2. }
    destruct (IH k s3 key' s' H Ht3) as (R & Kn & C4).
    split; [exact R|]. split; [exact Kn|].
    apply config_vars_set_thresh_same in C3.
    exact (config_vars_thresh_trans _ _ _ _ _ C1
             (config_vars_thresh_trans _ _ _ _ _ C2
                (config_vars_thresh_trans _ _ _ _ _ C3 C4))).
Qed.

(** X5.  The scan threshold dialog keeps the threshold in 0 .. 12 and
    touches nothing else but, when it ends with "accept" (key 2), EEPROM
    cell 138, where it stores the threshold it leaves, so that the next
    start loads the same value.  Ended with another key it leaves the
    EEPROM as it was, the adjusted threshold stays in force. *)
Theorem set_scan_threshold_effect (env : environment) (fuel : nat) (s : state)
        (key : Z) (s' : state) :
  set_scan_threshold env fuel s = Some (key, s') ->
  0 <= thresh s <= 12 ->
  0 <= thresh s' <= 12 /\
  key <> 0 /\
  (key = 2 ->
     config_vars s' = config_vars (eeprom_write_byte 138 (thresh s') (set_thresh (thresh s') s)) /\
     thresh (load_start_thresh (power_on (eeprom s'))) = thresh s') /\
  (key <> 2 -> config_vars s' = config_vars (set_thresh (thresh s') s)).
Proof.
  intros H Ht. unfold set_scan_threshold in H.
  destruct (thresh_loop env fuel 0 s) as [[k s1]|] eqn:E; [|discriminate].
  destruct (thresh_loop_exit env fuel 0 s k s1 E Ht) as (R & Kn & C).
  injection H as <- <-.
  destruct (Z.eqb_spec k 2) as [K2|K2].
  - cbn [thresh eeprom_write_byte set_eeprom]. repeat split; try assumption; try lia.
    + revert C. unfold config_vars, eeprom_write_byte.
      cbn [cur_vfo f_vfo f_lo sideband cur_band tx_preset thresh eeprom dds PORTD trace
           set_thresh set_eeprom].
      intros C. injection C as -> -> -> -> -> -> -> -> -> ->. reflexivity.
    + rewrite load_start_thresh_cases. cbv zeta. cbn [thresh set_thresh].
      assert (E8 : eeprom_read_byte
                     (power_on (eeprom (eeprom_write_byte 138 (thresh s1) s1))) 138
                   = thresh s1).
      { unfold eeprom_read_byte, eeprom_write_byte. cbn [eeprom power_on set_eeprom].
        rewrite lookup_insert_eq. rewrite uint8_id by (unfold uint8; rewrite Z.mod_small; lia).
        apply uint8_id. lia. }
      cbn [eeprom_write_byte set_eeprom] in E8. rewrite E8.
      destruct (Z.leb_spec (thresh s1) 12); [reflexivity|lia].
  - repeat split; try assumption; try lia. intros _. exact C.
Qed.

Lemma set_scan_threshold_effect_witness :
  exists key s',
    set_scan_threshold turn_then_accept 5 (power_on ∅) = Some (key, s') /\
    key = 2 /\ thresh s' <> thresh (power_on ∅) /\ 0 <= thresh s' <= 12.
Proof.
  destruct (set_scan_threshold turn_then_accept 5 (power_on ∅)) as [[k s']|] eqn:E;
    [|vm_compute in E; discriminate E].
  exists k, s'. split; [reflexivity|].
  pose proof (set_scan_threshold_effect turn_then_accept 5 (power_on ∅) k s' E
                ltac:(simpl; lia)) as (R & _).
  vm_compute in E. injection E as <- <-.
  split; [reflexivity|]. split; [|exact R]. cbn [thresh power_on]. lia.
Defined.


(* ================================================================== *)
(** * The TX preset dialog *)

Lemma config_vars_dac_writes (vs : list Z) (s : state) :
  config_vars (dac_writes vs s)
  = (cur_vfo s, f_vfo s, f_lo s, sideband s, cur_band s, tx_preset s, thresh s, eeprom s,
     dds s, PORTD s, map MCP4725_set vs ++ trace s).
Proof.
  induction vs as [|v vs IH]; [reflexivity|].
  cbn [dac_writes fold_right]. fold (dac_writes vs s).
  revert IH. unfold config_vars, mcp4725_set_value.
  cbn [cur_vfo f_vfo f_lo sideband cur_band tx_preset thresh eeprom dds PORTD trace emit].
  intros IH. injection IH as -> -> -> -> -> -> -> -> -> -> ->. reflexivity.
Qed.

Lemma config_vars_dac_writes_congr (vs : list Z) (s s' : state) :
  config_vars s' = config_vars s -> config_vars (dac_writes vs s') = config_vars (dac_writes vs s).
Proof.
  intros H. rewrite !config_vars_dac_writes. apply config_vars_fields in H.
  destruct H as (-> & -> & -> & -> & -> & -> & -> & -> & -> & -> & ->). reflexivity.
Qed.

Lemma dac_writes_app (vs ws : list Z) (s : state) :
  dac_writes (vs ++ ws) s = dac_writes vs (dac_writes ws s).
Proof. unfold dac_writes. apply fold_right_app. Qed.

Lemma config_vars_store_tx_preset_congr (v b : Z) (tp : list Z) (s s' : state) :
  config_vars s' = config_vars s ->
  config_vars (store_tx_preset v b (set_tx_preset tp s'))
  = config_vars (store_tx_preset v b (set_tx_preset tp s)).
Proof.
  intros H. apply config_vars_fields in H.
  destruct H as (H1 & H2 & H3 & H4 & H5 & H6 & H7 & H8 & H9 & H10 & H11).
  unfold config_vars, store_tx_preset, eeprom_write_byte. cbv zeta.
  cbn [cur_vfo f_vfo f_lo sideband cur_band tx_preset thresh eeprom dds PORTD trace
       set_tx_preset set_eeprom].
  rewrite H1, H2, H3, H4, H5, H7, H8, H9, H10, H11. reflexivity.
Qed.

Lemma preset_loop_exit (env : environment) (fuel : nat) :
  forall key v1 s key' v1' s',
    preset_loop env fuel key v1 s = Some (key', v1', s') ->
    key' <> 0 /\
    exists vs, config_vars s' = config_vars (dac_writes vs s) /\ v1' = hd v1 vs.
Proof.
  induction fuel as [|fuel IH]; intros key v1 s key' v1' s' H.
  - cbn [preset_loop] in H. destruct (truthy key) eqn:K; cbn [negb] in H; [|discriminate].
    injection H as <- <- <-. split; [intros ->; discriminate|]. exists []. split; reflexivity.
  - cbn [preset_loop] in H. destruct (truthy key) eqn:K; cbn [negb] in H.
    { injection H as <- <- <-. split; [intros ->; discriminate|]. exists []. split; reflexivity. }
    set (r1 := if tuningknob s >=? 1
               then ((if v1 <? 4095 then int16 (v1 + calc_tuningfactor s) else 4095),
                     mcp4725_set_value
                       (if v1 <? 4095 then int16 (v1 + calc_tuningfactor s) else 4095)
                       (set_tuningknob 0 s))
               else (v1, s)) in H.
    assert (H1 : exists vs, config_vars (snd r1) = config_vars (dac_writes vs s)
                            /\ fst r1 = hd v1 vs).
    { unfold r1. destruct (tuningknob s >=? 1).
      - exists [if v1 <? 4095 then int16 (v1 + calc_tuningfactor s) else 4095].
        split; reflexivity.
      - exists []. split; reflexivity. }
    destruct r1 as [v1a sa]. cbn [fst snd] in H1. destruct H1 as (vs1 & C1 & E1).
    set (r2 := if tuningknob sa <=? -1
               then ((if v1a >? 0 then int16 (v1a - calc_tuningfactor sa) else 0),
                     mcp4725_set_value
                       (if v1a >? 0 then int16 (v1a - calc_tuningfactor sa) else 0)
                       (set_tuningknob 0 sa))
               else (v1a, sa)) in H.
    assert (H2 : exists vs, config_vars (snd r2) = config_vars (dac_writes vs sa)
                            /\ fst r2 = hd v1a vs).
    { unfold r2. destruct (tuningknob sa <=? -1).
      - exists [if v1a >? 0 then int16 (v1a - calc_tuningfactor sa) else 0].
        split; reflexivity.
      - exists []. split; reflexivity. }
    destruct r2 as [v1b sb]. cbn [fst snd] in H2. destruct H2 as (vs2 & C2 & E2).
    pose proof (get_keys_config env sb) as C3.
    destruct (get_keys env sb) as [k sc]. cbn [snd] in C3.
    destruct (IH k v1b sc key' v1' s' H) as (Kn & vs3 & C4 & E3).
    split; [exact Kn|]. exists (vs3 ++ vs2 ++ vs1). split.
    + rewrite C4, !dac_writes_app.
      apply config_vars_dac_writes_congr. rewrite C3, C2.
      apply config_vars_dac_writes_congr. exact C1.
    + rewrite E3, E2, E1. destruct vs3; [|reflexivity]. destruct vs2; reflexivity.
Qed.

(** X6.  The TX preset dialog starts from the preset of the current band
    and hands every value it reaches to the DAC.  Ended with "accept" (key
    2) it puts the last value into the preset table and stores it; ended
    with any other key it leaves the preset table and the EEPROM as they
    were, while the DAC keeps the last value.  Nothing else is changed. *)
Theorem tx_preset_adjust_effect (env : environment) (fuel : nat) (s : state)
        (key v : Z) (s' : state) :
  tx_preset_adjust env fuel s = Some (key, v, s') ->
  let b := cur_band s in
  key <> 0 /\
  exists vs,
    v = hd 0 (vs ++ [aget (tx_preset s) b]) /\
    (key = 2 ->
       config_vars s' =
       config_vars (store_tx_preset v b
                      (set_tx_preset (aset (tx_preset s) b v)
                         (dac_writes (vs ++ [aget (tx_preset s) b]) s)))) /\
    (key <> 2 -> config_vars s' = config_vars (dac_writes (vs ++ [aget (tx_preset s) b]) s)).
Proof.
  intros H b. unfold tx_preset_adjust in H. cbv zeta in H. fold b in H.
  set (p := aget (tx_preset s) b) in *.
  destruct (release_keys env fuel (mcp4725_set_value p s)) as [s1|] eqn:E1; [|discriminate].
  apply release_keys_config in E1.
  pose proof (get_keys_config env s1) as C2.
  destruct (get_keys env s1) as [k s2]. cbn [snd] in C2.
  destruct (preset_loop env fuel k p s2) as [[[k3 v3] s3]|] eqn:E3; [|discriminate].
  destruct (preset_loop_exit env fuel k p s2 k3 v3 s3 E3) as (Kn & vs & C3 & Ev).
  injection H as <- <- <-.
  split; [exact Kn|]. exists vs.
  assert (C : config_vars s3 = config_vars (dac_writes (vs ++ [p]) s)).
  { rewrite C3, dac_writes_app. apply config_vars_dac_writes_congr.
    rewrite C2, E1. reflexivity. }
  split; [destruct vs; [exact Ev|exact Ev]|].
  split.
  - intros ->. cbn [Z.eqb Pos.eqb].
    pose proof (config_vars_dac_writes (vs ++ [p]) s) as D. unfold config_vars in D.
    injection D as _ _ _ _ Eb Et _ _ _ _ _.
    pose proof (config_vars_fields _ _ C) as (_ & _ & _ & _ & C7 & C8 & _).
    rewrite C7, C8, Eb, Et. apply config_vars_store_tx_preset_congr. exact C.
  - intros K2. destruct (Z.eqb_spec k3 2); [contradiction|]. exact C.
Qed.

Lemma tx_preset_adjust_effect_witness :
  exists key v s',
    tx_preset_adjust turn_then_accept 5 (set_tuningcount 5 (power_on ∅)) = Some (key, v, s') /\
    key <> 0.
Proof.
  destruct (tx_preset_adjust turn_then_accept 5 (set_tuningcount 5 (power_on ∅)))
    as [[[k v] s']|] eqn:E; [|vm_compute in E; discriminate E].
  exists k, v, s'. split; [reflexivity|].
  exact (proj1 (tx_preset_adjust_effect turn_then_accept 5 _ k v s' E)).
Defined.


(* ================================================================== *)
(** * The menu *)

Lemma settings_of_config (s s' : state) :
  config_vars s' = config_vars s -> settings s' = settings s.
Proof.
  intros H. apply config_vars_fields in H.
  destruct H as (H1 & H2 & H3 & H4 & H5 & H6 & H7 & H8 & _ & H10 & _).
  unfold settings. congruence.
Qed.

Lemma settings_set_frequency_ad9850 (fx : Z) (s : state) :
  settings (set_frequency_ad9850 fx s) = settings s.
Proof. reflexivity. Qed.

Lemma settings_get_keys (env : environment) (s : state) :
  settings (snd (get_keys env s)) = settings s.
Proof. apply settings_of_config, get_keys_config. Qed.

Lemma settings_release_keys (env : environment) (fuel : nat) (s s' : state) :
  release_keys env fuel s = Some s' -> settings s' = settings s.
Proof. intros H. apply settings_of_config. by apply release_keys_config in H. Qed.

Lemma trace_release_keys (env : environment) (fuel : nat) (s s' : state) :
  release_keys env fuel s = Some s' -> trace s' = trace s.
Proof.
  intros H. apply release_keys_config in H. apply config_vars_fields in H. tauto.
Qed.

Lemma nav_loop_exit (env : environment) (fuel : nat) (m maxitems : Z) :
  0 <= maxitems <= 32766 ->
  forall key mpos s key' mpos' s',
    nav_loop env fuel m maxitems key mpos s = Some (key', mpos', s') ->
    0 <= mpos <= maxitems ->
    0 <= mpos' <= maxitems /\ key' <> 0 /\ settings s' = settings s.
Proof.
  intros Hm. induction fuel as [|fuel IH]; intros key mpos s key' mpos' s' H Hp.
  - cbn [nav_loop] in H. destruct (Z.eqb_spec key 0); [discriminate|].
    injection H as <- <- <-. repeat split; (assumption || lia).
  - cbn [nav_loop] in H. destruct (Z.eqb_spec key 0).
    2: { injection H as <- <- <-. repeat split; (assumption || lia). }
    set (r1 := if tuningknob s >? 2
               then (if mpos <? maxitems then int16 (mpos + 1) else 0, set_tuningknob 0 s)
               else (mpos, s)) in H.
    assert (H1 : 0 <= fst r1 <= maxitems /\ settings (snd r1) = settings s).
    { unfold r1. destruct (tuningknob s >? 2); cbn [fst snd]; [|split; [lia|reflexivity]].
      split; [|reflexivity]. destruct (Z.ltb_spec mpos maxitems); [|lia].
      rewrite int16_id; lia. }
    destruct r1 as [p1 s1]. cbn [fst snd] in H1. destruct H1 as [Hp1 S1].
    set (r2 := if tuningknob s1 <? -2
               then (if p1 >? 0 then int16 (p1 - 1) else maxitems, set_tuningknob 0 s1)
               else (p1, s1)) in H.
    assert (H2 : 0 <= fst r2 <= maxitems /\ settings (snd r2) = settings s1).
    { unfold r2. destruct (tuningknob s1 <? -2); cbn [fst snd]; [|split; [lia|reflexivity]].
      split; [|reflexivity]. destruct (Z.gtb_spec p1 0); [|lia].
      rewrite int16_id; lia. }
    destruct r2 as [p2 s2]. cbn [fst snd] in H2. destruct H2 as [Hp2 S2].
    set (s3 := if m =? 1
               then set_frequency_ad9850
                      (int32 (f_vfo_at s2 (cur_band s2) p2 + aget (f_lo s2) (sideband s2))) s2
               else s2) in H.
    assert (S3 : settings s3 = settings s2) by (unfold s3; destruct (m =? 1); reflexivity).
    set (s4 := if m =? 2 then set_lo p2 s3 else s3) in H.
    assert (S4 : settings s4 = settings s3) by (unfold s4; destruct (m =? 2); reflexivity).
    pose proof (settings_get_keys env s4) as S5.
    destruct (get_keys env s4) as [k s5]. cbn [snd] in S5.
    destruct (IH k p2 s5 key' mpos' s' H Hp2) as (R & Kn & S6).
    repeat split; try assumption; try lia. congruence.
Qed.

Lemma navigate_thru_item_list_frame (env : environment) (fuel : nat)
      (m maxitems menu_pos : Z) (s : state) (r : Z) (s' : state) :
  navigate_thru_item_list env fuel m maxitems menu_pos s = Some (r, s') ->
  0 <= menu_pos <= maxitems -> maxitems <= 32766 ->
  (r = -1 \/ r = -3 \/ 0 <= r <= maxitems) /\ settings s' = settings s.
Proof.
  intros H Hp Hm. unfold navigate_thru_item_list in H.
  pose proof (settings_get_keys env s) as S1.
  destruct (get_keys env s) as [k s1]. cbn [snd] in S1.
  destruct (nav_loop env fuel m maxitems k menu_pos s1) as [[[k2 p2] s2]|] eqn:E; [|discriminate].
  destruct (nav_loop_exit env fuel m maxitems ltac:(lia) k menu_pos s1 k2 p2 s2 E Hp)
    as (R & Kn & S2).
  destruct (release_keys env fuel (set_lo (sideband s2) s2)) as [s3|] eqn:E3; [|discriminate].
  injection H as <- <-. split.
  - destruct (k2 =? 1); [lia|]. destruct (k2 =? 2); [lia|]. destruct (k2 =? 3); lia.
  - rewrite (settings_release_keys env fuel _ _ E3). change (settings s2 = settings s). congruence.
Qed.

(** X7.  Navigating an item list keeps the position inside the list (it
    wraps around at both ends), returns the position only on "accept",
    -1 on "next menu" and -3 on "quit"; it changes no setting, and whatever
    LO frequency the sideband menu previewed, the LO is programmed for the
    current sideband again at the end. *)
Theorem navigate_thru_item_list_result (env : environment) (fuel : nat)
        (m maxitems menu_pos : Z) (s : state) (r : Z) (s' : state) :
  navigate_thru_item_list env fuel m maxitems menu_pos s = Some (r, s') ->
  0 <= menu_pos <= maxitems -> maxitems <= 32766 ->
  (r = -1 \/ r = -3 \/ 0 <= r <= maxitems) /\
  settings s' = settings s /\
  exists rest,
    trace s' = Si5351_set_freq SYNTH_MS_0 (aget (f_lo s) (sideband s)) :: rest.
Proof.
  intros H Hp Hm. unfold navigate_thru_item_list in H.
  pose proof (settings_get_keys env s) as S1.
  destruct (get_keys env s) as [k s1]. cbn [snd] in S1.
  destruct (nav_loop env fuel m maxitems k menu_pos s1) as [[[k2 p2] s2]|] eqn:E; [|discriminate].
  destruct (nav_loop_exit env fuel m maxitems ltac:(lia) k menu_pos s1 k2 p2 s2 E Hp)
    as (R & Kn & S2).
  destruct (release_keys env fuel (set_lo (sideband s2) s2)) as [s3|] eqn:E3; [|discriminate].
  injection H as <- <-.
  assert (S : settings s2 = settings s) by congruence.
  split; [|split].
  - destruct (k2 =? 1); [lia|]. destruct (k2 =? 2); [lia|]. destruct (k2 =? 3); lia.
  - rewrite (settings_release_keys env fuel _ _ E3). exact S.
  - rewrite (trace_release_keys env fuel _ _ E3). unfold set_lo. cbn [trace emit].
    unfold settings in S. injection S as _ _ -> -> _ _ _ _ _. eexists. reflexivity.
Qed.

Lemma navigate_thru_item_list_result_witness :
  exists r s',
    navigate_thru_item_list (script [turn_cw; press 2]) 5 0 4 2 (power_on ∅) = Some (r, s') /\
    r = 3 /\ (r = -1 \/ r = -3 \/ 0 <= r <= 4).
Proof.
  destruct (navigate_thru_item_list (script [turn_cw; press 2]) 5 0 4 2 (power_on ∅))
    as [[r s']|] eqn:E; [|vm_compute in E; discriminate E].
  exists r, s'. split; [reflexivity|].
  split; [vm_compute in E; by injection E as <- _|].
  exact (proj1 (navigate_thru_item_list_result (script [turn_cw; press 2]) 5 0 4 2 _ r s' E
                  ltac:(lia) ltac:(lia))).
Defined.


Lemma menu_page_result (env : environment) (fuel : nat) (menu menu_pos : Z) (s : state)
      (x : Z + unit) (s' : state) :
  menu_page env fuel menu menu_pos s = Some (x, s') ->
  0 <= menu <= 5 -> 0 <= menu_pos <= aget menu_items menu ->
  settings s' = settings s /\
  match x with
  | inl r => r = -3 \/ menu * 10 <= r <= menu * 10 + aget menu_items menu
  | inr _ => True
  end.
Proof.
  intros H Hm Hp. unfold menu_page in H.
  destruct (release_keys env fuel s) as [s1|] eqn:E1; [|discriminate].
  apply settings_release_keys in E1.
  destruct (navigate_thru_item_list env fuel menu (aget menu_items menu) menu_pos s1)
    as [[r s2]|] eqn:E2; [|discriminate].
  assert (Hi : 0 <= aget menu_items menu <= 4).
  { assert (menu = 0 \/ menu = 1 \/ menu = 2 \/ menu = 3 \/ menu = 4 \/ menu = 5)
      as [-> | [-> | [-> | [-> | [-> | ->]]]]] by lia; vm_compute; split; discriminate. }
  destruct (navigate_thru_item_list_frame env fuel menu (aget menu_items menu) menu_pos
              s1 r s2 E2 Hp ltac:(lia)) as (R & S2).
  assert (S : settings s2 = settings s) by congruence.
  destruct (Z.gtb_spec r (-1)).
  - injection H as <- <-. split; [exact S|]. right.
    rewrite int16_id by lia. rewrite int32_id by lia. lia.
  - destruct (Z.eqb_spec r (-3)); injection H as <- <-; (split; [exact S|]); [left; reflexivity|exact I].
Qed.

(** X8.  Whatever the operator does in the menu, [menux] changes no
    setting and returns one of the values [main] is written for: a band
    0 .. 4, a VFO 10 .. 11, a sideband 20 .. 21, a scan function 30 .. 32,
    split off or on 40 .. 41, an adjustment 50 .. 52, or -2 (nothing
    chosen) or -3 (menu quit). *)
Theorem menux_result (env : environment) (fuel : nat) (split : Z) (s : state)
        (r : Z) (s' : state) :
  menux env fuel split s = Some (r, s') ->
  0 <= cur_band s <= 4 -> 0 <= cur_vfo s <= 1 -> 0 <= sideband s <= 1 -> 0 <= split <= 1 ->
  In r menu_results /\ settings s' = settings s.
Proof.
  intros H Hb Hv Hs Hsp. unfold menux in H.
  assert (G : forall x, (x = -3 \/ x = -2 \/ 0 <= x <= 4 \/ 10 <= x <= 11 \/ 20 <= x <= 21 \/
                         30 <= x <= 32 \/ 40 <= x <= 41 \/ 50 <= x <= 52) -> In x menu_results).
  { intros x Hx. unfold menu_results. cbn [In].
    assert (x = -3 \/ x = -2 \/ x = 0 \/ x = 1 \/ x = 2 \/ x = 3 \/ x = 4 \/ x = 10 \/ x = 11 \/
            x = 20 \/ x = 21 \/ x = 30 \/ x = 31 \/ x = 32 \/ x = 40 \/ x = 41 \/
            x = 50 \/ x = 51 \/ x = 52) by lia.
    intuition. }
  cbn [menu_pages] in H.
  destruct (menu_page env fuel 0 (cur_band s) s) as [[[r0|[]] s0]|] eqn:E0; [| |discriminate];
    destruct (menu_page_result env fuel 0 _ s _ _ E0 ltac:(lia) ltac:(exact Hb)) as [S0 R0].
  { injection H as <- <-. split; [apply G; change (aget menu_items 0) with 4 in R0; lia|exact S0]. }
  assert (B0 : cur_vfo s0 = cur_vfo s /\ sideband s0 = sideband s)
    by (unfold settings in S0; injection S0 as ? ? ? ? ? ? ? ? ?; split; assumption).
  destruct B0 as [V0 SB0].
  destruct (menu_page env fuel 1 (cur_vfo s0) s0) as [[[r1|[]] s1]|] eqn:E1; [| |discriminate];
    destruct (menu_page_result env fuel 1 _ s0 _ _ E1 ltac:(lia)
                ltac:(rewrite V0; exact Hv)) as [S1 R1].
  { injection H as <- <-.
    split; [apply G; change (aget menu_items 1) with 1 in R1; lia|congruence]. }
  assert (SB1 : sideband s1 = sideband s)
    by (unfold settings in S1; injection S1 as ? ? ? ? ? ? ? ? ?; congruence).
  destruct (menu_page env fuel 2 (sideband s1) s1) as [[[r2|[]] s2]|] eqn:E2; [| |discriminate];
    destruct (menu_page_result env fuel 2 _ s1 _ _ E2 ltac:(lia)
                ltac:(rewrite SB1; exact Hs)) as [S2 R2].
  { injection H as <- <-.
    split; [apply G; change (aget menu_items 2) with 1 in R2; lia|congruence]. }
  destruct (menu_page env fuel 3 0 s2) as [[[r3|[]] s3]|] eqn:E3; [| |discriminate];
    destruct (menu_page_result env fuel 3 _ s2 _ _ E3 ltac:(lia)
                ltac:(vm_compute; split; discriminate)) as [S3 R3].
  { injection H as <- <-.
    split; [apply G; change (aget menu_items 3) with 2 in R3; lia|congruence]. }
  destruct (menu_page env fuel 4 split s3) as [[[r4|[]] s4]|] eqn:E4; [| |discriminate];
    destruct (menu_page_result env fuel 4 _ s3 _ _ E4 ltac:(lia) ltac:(exact Hsp)) as [S4 R4].
  { injection H as <- <-.
    split; [apply G; change (aget menu_items 4) with 1 in R4; lia|congruence]. }
  destruct (menu_page env fuel 5 0 s4) as [[[r5|[]] s5]|] eqn:E5; [| |discriminate];
    destruct (menu_page_result env fuel 5 _ s4 _ _ E5 ltac:(lia)
                ltac:(vm_compute; split; discriminate)) as [S5 R5].
  { injection H as <- <-.
    split; [apply G; change (aget menu_items 5) with 2 in R5; lia|congruence]. }
  injection H as <- <-. split; [apply G; lia|congruence].
Qed.

Lemma menux_result_witness :
  exists r s',
    menux (script [idle; press 1; idle; idle; press 1; idle; idle; turn_cw; press 2])
          20 0 (load_start_values (power_on ∅)) = Some (r, s') /\
    r = 20 /\ In r menu_results.
Proof.
  set (env := script [idle; press 1; idle; idle; press 1; idle; idle; turn_cw; press 2]).
  destruct (menux env 20 0 (load_start_values (power_on ∅))) as [[r s']|] eqn:E;
    [|vm_compute in E; discriminate E].
  exists r, s'. split; [reflexivity|].
  split; [vm_compute in E; by injection E as <- _|].
  exact (proj1 (menux_result env 20 0 _ r s' E ltac:(vm_compute; split; discriminate)
                  ltac:(vm_compute; split; discriminate)
                  ltac:(vm_compute; split; discriminate) ltac:(lia))).
Defined.


(* ================================================================== *)
(** * The LO frequency dialog *)


Lemma aset_aget (l : list Z) (i : Z) :
  (Z.to_nat i < length l)%nat -> aset l i (aget l i) = l.
Proof.
  intros H. unfold aset, aget. apply list_insert_id.
  destruct (lookup_lt_is_Some_2 l (Z.to_nat i) H) as [x E]. rewrite E. reflexivity.
Qed.








(* ================================================================== *)
(** * Scanning: what a scan leaves alone *)

Lemma settings_get_s_value (env : environment) (s : state) :
  settings (snd (get_s_value env s)) = settings s.
Proof.
  unfold get_s_value. pose proof (get_adc_config env 1 s) as H.
  destruct (get_adc env 1 s) as [a s1]. cbn [snd] in *. by apply settings_of_config.
Qed.

Lemma settings_tune_frequency (fx : Z) (s : state) :
  settings (snd (tune_frequency fx s)) = settings s.
Proof.
  unfold tune_frequency. destruct (tuningknob s >? 2); [reflexivity|].
  destruct (tuningknob s <? -2); reflexivity.
Qed.

Lemma settings_manual_tuning (fx : Z) (s : state) :
  settings (snd (manual_tuning fx s)) = settings s.
Proof.
  unfold manual_tuning. pose proof (settings_tune_frequency fx s) as H.
  destruct (tune_frequency fx s) as [ftmp s1]. cbn [snd] in H.
  destruct (truthy ftmp); cbn [snd]; [rewrite settings_set_frequency_ad9850|]; exact H.
Qed.

Lemma f0f1_stopped_settings (env : environment) (fuel : nat) :
  forall fx key sval wait s r s',
    f0f1_stopped env fuel fx key sval wait s = Some (r, s') -> settings s' = settings s.
Proof.
  induction fuel as [|fuel IH]; intros fx key sval wait s r s' H; cbn [f0f1_stopped] in H;
    destruct ((sval >? thresh s) && negb (truthy key)); try discriminate;
    try (injection H as _ <-; reflexivity).
  pose proof (settings_get_s_value env s) as A.
  destruct (get_s_value env s) as [sv s1]. cbn [snd] in A.
  pose proof (settings_get_keys env s1) as B.
  destruct (get_keys env s1) as [k s2]. cbn [snd] in B.
  pose proof (settings_manual_tuning fx s2) as C.
  destruct (manual_tuning fx s2) as [fx2 s3]. cbn [snd] in C.
  apply IH in H. congruence.
Qed.

Lemma f0f1_waiting_settings (env : environment) (fuel : nat) :
  forall fx key r10 s r s',
    f0f1_waiting env fuel fx key r10 s = Some (r, s') -> settings s' = settings s.
Proof.
  induction fuel as [|fuel IH]; intros fx key r10 s r s' H; cbn [f0f1_waiting] in H;
    destruct (int32 (r10 + 30) >? runseconds10 s); try discriminate;
    try (injection H as _ <-; reflexivity).
  pose proof (settings_get_keys env s) as B.
  destruct (get_keys env s) as [k s2]. cbn [snd] in B.
  pose proof (settings_manual_tuning fx s2) as C.
  destruct (manual_tuning fx s2) as [fx2 s3]. cbn [snd] in C.
  apply IH in H. congruence.
Qed.

Lemma f0f1_resume_settings (env : environment) (fuel : nat) (fx key wait : Z) (s : state)
      (r : pass (Z * Z)) (s' : state) :
  f0f1_resume env fuel fx key wait s = Some (r, s') -> settings s' = settings s.
Proof.
  unfold f0f1_resume. cbv zeta. intros H.
  assert (W : forall x, (if truthy wait then f0f1_waiting env fuel fx key (runseconds10 s) s
                         else Some (fx, key, s)) = Some x -> settings (snd x) = settings s).
  { intros [[a b] c]. destruct (truthy wait); intros E.
    - apply f0f1_waiting_settings in E. exact E.
    - injection E as _ _ <-. reflexivity. }
  destruct (if truthy wait then f0f1_waiting env fuel fx key (runseconds10 s) s
            else Some (fx, key, s)) as [[[fx1 k1] s1]|]; [|discriminate].
  specialize (W _ eq_refl). cbn [snd] in W.
  pose proof (settings_manual_tuning fx1 s1) as C.
  destruct (manual_tuning fx1 s1) as [fx2 s2]. cbn [snd] in C.
  destruct (k1 =? 2); [injection H as _ <-; congruence|].
  destruct (k1 =? 3); injection H as _ <-; congruence.
Qed.

Lemma f0f1_pass_settings (env : environment) (fuel : nat) (fx wait : Z) (s : state)
      (r : pass (Z * Z)) (s' : state) :
  f0f1_pass env fuel fx wait s = Some (r, s') -> settings s' = settings s.
Proof.
  unfold f0f1_pass. intros H.
  pose proof (settings_get_keys env s) as A.
  destruct (get_keys env s) as [k s1]. cbn [snd] in A.
  set (s2 := set_frequency_ad9850 _ s1) in H.
  assert (B : settings s2 = settings s1) by apply settings_set_frequency_ad9850.
  pose proof (settings_get_s_value env s2) as C.
  destruct (get_s_value env s2) as [sv s3]. cbn [snd] in C.
  destruct (f0f1_stopped env fuel fx k sv wait s3) as [[[[[fx4 k4] sv4] w4] s4]|] eqn:E;
    [|discriminate].
  apply f0f1_stopped_settings in E. apply f0f1_resume_settings in H. congruence.
Qed.

Lemma f0f1_sweep_settings (env : environment) (fuel : nat) :
  forall f1 fx key wait s r s',
    f0f1_sweep env fuel f1 fx key wait s = Some (r, s') -> settings s' = settings s.
Proof.
  induction fuel as [|fuel IH]; intros f1 fx key wait s r s' H; cbn [f0f1_sweep] in H;
    destruct (fx <? f1); try discriminate; try (injection H as _ <-; reflexivity).
  destruct (f0f1_pass env fuel fx wait s) as [[[v|[fx1 w1]] s1]|] eqn:E; [| |discriminate].
  - injection H as _ <-. by apply f0f1_pass_settings in E.
  - apply f0f1_pass_settings in E. apply IH in H. congruence.
Qed.

Lemma f0f1_scan_settings (env : environment) (fuel : nat) :
  forall f0 f1 key wait s r s',
    f0f1_scan env fuel f0 f1 key wait s = Some (r, s') -> settings s' = settings s.
Proof.
  induction fuel as [|fuel IH]; intros f0 f1 key wait s r s' H; cbn [f0f1_scan] in H;
    destruct (negb (key =? 2)); try discriminate; try (injection H as _ <-; reflexivity).
  destruct (f0f1_sweep env fuel f1 f0 key wait s) as [[[v|[k1 w1]] s1]|] eqn:E; [| |discriminate].
  - injection H as _ <-. by apply f0f1_sweep_settings in E.
  - apply f0f1_sweep_settings in E. apply IH in H. congruence.
Qed.

Lemma scan_f0_f1_settings (env : environment) (fuel : nat) (wait0 : Z) (s : state)
      (r : Z) (s' : state) :
  scan_f0_f1 env fuel wait0 s = Some (r, s') -> settings s' = settings s.
Proof.
  unfold scan_f0_f1. cbv zeta. intros H.
  destruct (f_vfo_at s (cur_band s) 0 >? f_vfo_at s (cur_band s) 1);
    (destruct (release_keys env fuel s) as [s1|] eqn:E; [|discriminate];
     apply settings_release_keys in E; apply f0f1_scan_settings in H; congruence).
Qed.

Lemma band_tuned_refl (s : state) : band_tuned s s.
Proof. split; [reflexivity|]. split; reflexivity. Qed.

Lemma band_tuned_trans (s1 s2 s3 : state) :
  band_tuned s1 s2 -> band_tuned s2 s3 -> band_tuned s1 s3.
Proof.
  intros (A1 & A2 & A3) (B1 & B2 & B3).
  assert (Hb : cur_band s2 = cur_band s1).
  { unfold fixed_settings in A1. injection A1 as _ _ _ ? _ _ _ _. assumption. }
  split; [congruence|]. split; [congruence|].
  intros b v H0 Hb' Hv. rewrite B3 by congruence. by apply A3.
Qed.

Lemma band_tuned_of_settings (s s' : state) : settings s' = settings s -> band_tuned s s'.
Proof.
  unfold settings. intros H. injection H as H1 H2 H3 H4 H5 H6 H7 H8 H9.
  split; [unfold fixed_settings; congruence|]. split; [congruence|].
  intros b v _ _ _. unfold f_vfo_at. congruence.
Qed.

Lemma manual_tuning_vfo_tuned (t1 : Z) (s : state) :
  0 <= cur_band s -> 0 <= t1 <= 1 -> band_tuned s (snd (manual_tuning_vfo t1 s)).
Proof.
  intros Hb Ht. unfold manual_tuning_vfo.
  pose proof (settings_tune_frequency (f_vfo_at s (cur_band s) t1) s) as H.
  destruct (tune_frequency (f_vfo_at s (cur_band s) t1) s) as [ftmp s1]. cbn [snd] in H.
  destruct (truthy ftmp); cbn [snd]; [|by apply band_tuned_of_settings].
  unfold settings in H. injection H as H1 H2 H3 H4 H5 H6 H7 H8 H9.
  split; [unfold fixed_settings; cbn; congruence|].
  split.
  - cbn. unfold aset. rewrite length_insert. congruence.
  - intros b v H0 Hne Hv. unfold f_vfo_at. cbn. unfold aset, aget.
    rewrite list_lookup_insert_ne by lia. congruence.
Qed.

Lemma band_tuned_get_keys (env : environment) (s : state) :
  band_tuned s (snd (get_keys env s)).
Proof. apply band_tuned_of_settings, settings_get_keys. Qed.

Lemma band_tuned_get_s_value (env : environment) (s : state) :
  band_tuned s (snd (get_s_value env s)).
Proof. apply band_tuned_of_settings, settings_get_s_value. Qed.

Lemma band_tuned_cur_band (s s' : state) : band_tuned s s' -> cur_band s' = cur_band s.
Proof. intros [A _]. unfold fixed_settings in A. injection A as _ _ _ ? _ _ _ _. assumption. Qed.

Lemma vfo_stopped_tuned (env : environment) (fuel : nat) (t1 : Z) :
  0 <= t1 <= 1 ->
  forall key sval s r s',
    vfo_stopped env fuel t1 key sval s = Some (r, s') -> 0 <= cur_band s -> band_tuned s s'.
Proof.
  intros Ht.
  induction fuel as [|fuel IH]; intros key sval s r s' H Hb; cbn [vfo_stopped] in H;
    destruct ((sval >? thresh s) && negb (truthy key)); try discriminate;
    try (injection H as _ <-; apply band_tuned_refl).
  pose proof (band_tuned_get_s_value env s) as A.
  destruct (get_s_value env s) as [sv s1]. cbn [snd] in A.
  pose proof (band_tuned_get_keys env s1) as B.
  destruct (get_keys env s1) as [k s2]. cbn [snd] in B.
  pose proof (band_tuned_trans _ _ _ A B) as AB.
  pose proof (band_tuned_cur_band _ _ AB) as E2.
  pose proof (manual_tuning_vfo_tuned t1 s2 ltac:(lia) Ht) as C.
  destruct (manual_tuning_vfo t1 s2) as [fl s3]. cbn [snd] in C.
  pose proof (band_tuned_trans _ _ _ AB C) as AC.
  pose proof (band_tuned_cur_band _ _ AC) as E3.
  apply IH in H; [|lia]. by eapply band_tuned_trans.
Qed.

Lemma vfo_waiting_tuned (env : environment) (fuel : nat) (t1 : Z) :
  0 <= t1 <= 1 ->
  forall key r10 s r s',
    vfo_waiting env fuel t1 key r10 s = Some (r, s') -> 0 <= cur_band s -> band_tuned s s'.
Proof.
  intros Ht.
  induction fuel as [|fuel IH]; intros key r10 s r s' H Hb; cbn [vfo_waiting] in H;
    destruct (int32 (r10 + 30) >? runseconds10 s); try discriminate;
    try (injection H as _ <-; apply band_tuned_refl).
  pose proof (band_tuned_get_keys env s) as B.
  destruct (get_keys env s) as [k s2]. cbn [snd] in B.
  pose proof (band_tuned_cur_band _ _ B) as E2.
  pose proof (manual_tuning_vfo_tuned t1 s2 ltac:(lia) Ht) as C.
  destruct (manual_tuning_vfo t1 s2) as [fl s3]. cbn [snd] in C.
  pose proof (band_tuned_trans _ _ _ B C) as AC.
  pose proof (band_tuned_cur_band _ _ AC) as E3.
  apply IH in H; [|lia]. by eapply band_tuned_trans.
Qed.

Lemma vfo_resume_tuned (env : environment) (fuel : nat) (t1 key : Z) (s : state)
      (r : pass unit) (s' : state) :
  0 <= t1 <= 1 -> 0 <= cur_band s ->
  vfo_resume env fuel t1 key s = Some (r, s') -> band_tuned s s'.
Proof.
  intros Ht Hb H. unfold vfo_resume in H.
  destruct (vfo_waiting env fuel t1 key (runseconds10 s) s) as [[k1 s1]|] eqn:E; [|discriminate].
  apply vfo_waiting_tuned in E; [|assumption..].
  pose proof (band_tuned_cur_band _ _ E) as E1.
  pose proof (manual_tuning_vfo_tuned t1 s1 ltac:(lia) Ht) as C.
  destruct (manual_tuning_vfo t1 s1) as [fl s2]. cbn [snd] in C.
  pose proof (band_tuned_trans _ _ _ E C) as AC.
  destruct (k1 =? 2); [injection H as _ <-; exact AC|].
  destruct (k1 =? 3); injection H as _ <-; exact AC.
Qed.

Lemma vfo_pass_tuned (env : environment) (fuel : nat) (t1 : Z) (s : state)
      (r : pass unit) (s' : state) :
  0 <= t1 <= 1 -> 0 <= cur_band s ->
  vfo_pass env fuel t1 s = Some (r, s') -> band_tuned s s'.
Proof.
  intros Ht Hb H. unfold vfo_pass in H.
  pose proof (band_tuned_get_keys env s) as A.
  destruct (get_keys env s) as [k s1]. cbn [snd] in A.
  set (s2 := set_frequency_ad9850 _ s1) in H.
  assert (B : band_tuned s1 s2)
    by apply band_tuned_of_settings, settings_set_frequency_ad9850.
  pose proof (band_tuned_get_s_value env s2) as C.
  destruct (get_s_value env s2) as [sv s3]. cbn [snd] in C.
  pose proof (band_tuned_trans _ _ _ (band_tuned_trans _ _ _ A B) C) as AC.
  pose proof (band_tuned_cur_band _ _ AC) as E3.
  destruct (vfo_stopped env fuel t1 k sv s3) as [[[k4 sv4] s4]|] eqn:E; [|discriminate].
  apply vfo_stopped_tuned in E; [|assumption|lia].
  pose proof (band_tuned_trans _ _ _ AC E) as AE.
  pose proof (band_tuned_cur_band _ _ AE) as E4.
  apply vfo_resume_tuned in H; [|assumption|lia]. by eapply band_tuned_trans.
Qed.

Lemma vfo_sweep_tuned (env : environment) (fuel : nat) :
  forall t1 key s r s',
    vfo_sweep env fuel t1 key s = Some (r, s') -> 0 <= t1 -> 0 <= cur_band s -> band_tuned s s'.
Proof.
  induction fuel as [|fuel IH]; intros t1 key s r s' H Ht Hb; cbn [vfo_sweep] in H;
    destruct (Z.ltb_spec t1 2); try discriminate;
    try (injection H as _ <-; apply band_tuned_refl).
  destruct (vfo_pass env fuel t1 s) as [[[v|u] s1]|] eqn:E; [| |discriminate].
  - injection H as _ <-. apply vfo_pass_tuned in E; [assumption|lia|assumption].
  - apply vfo_pass_tuned in E; [|lia|assumption].
    pose proof (band_tuned_cur_band _ _ E) as E1.
    apply IH in H; [by eapply band_tuned_trans| |lia].
    rewrite int16_id by lia. lia.
Qed.

Lemma vfo_scan_tuned (env : environment) (fuel : nat) :
  forall key s r s',
    vfo_scan env fuel key s = Some (r, s') -> 0 <= cur_band s -> band_tuned s s'.
Proof.
  induction fuel as [|fuel IH]; intros key s r s' H Hb; cbn [vfo_scan] in H;
    destruct (negb (key =? 2)); try discriminate;
    try (injection H as _ <-; apply band_tuned_refl).
  destruct (vfo_sweep env fuel 0 key s) as [[[v|k1] s1]|] eqn:E; [| |discriminate].
  - injection H as _ <-. apply vfo_sweep_tuned in E; [assumption|lia|assumption].
  - apply vfo_sweep_tuned in E; [|lia|assumption].
    pose proof (band_tuned_cur_band _ _ E) as E1.
    apply IH in H; [by eapply band_tuned_trans|lia].
Qed.

(** X10.  A scan changes no setting.  [scan_f0_f1] leaves the band, the
    VFO, both VFO frequencies, the sideband, the LO frequencies, the TX
    presets, the threshold, the EEPROM and the band relays as they were:
    the frequency tuned by hand during the scan is only returned.
    [scan_vfoa_vfob] may change the two VFO frequencies of the current band,
    by manual tuning, and nothing else. *)
Theorem scans_keep_settings (env : environment) (fuel : nat) (wait0 : Z) (s : state) :
  0 <= cur_band s ->
  (forall r s', scan_f0_f1 env fuel wait0 s = Some (r, s') -> settings s' = settings s) /\
  (forall r s', scan_vfoa_vfob env fuel s = Some (r, s') -> band_tuned s s').
Proof.
  intros Hb. split; intros r s'; [apply scan_f0_f1_settings|].
  unfold scan_vfoa_vfob. intros H.
  destruct (release_keys env fuel s) as [s1|] eqn:E; [|discriminate].
  apply settings_release_keys in E. apply band_tuned_of_settings in E.
  pose proof (band_tuned_cur_band _ _ E) as E1.
  apply vfo_scan_tuned in H; [|lia]. by eapply band_tuned_trans.
Qed.

Lemma scans_keep_settings_witness :
  let s := load_start_values (power_on ∅) in
  exists r1 s1 r2 s2,
    scan_f0_f1 tune_then_accept 10 0 s = Some (r1, s1) /\ r1 = 14180003 /\
    settings s1 = settings s /\
    scan_vfoa_vfob tune_then_accept 10 s = Some (r2, s2) /\ f_vfo_at s2 2 0 = 14180003 /\
    band_tuned s s2.
Proof.
  intros s.
  destruct (scan_f0_f1 tune_then_accept 10 0 s) as [[r1 s1]|] eqn:E1;
    [|vm_compute in E1; discriminate E1].
  destruct (scan_vfoa_vfob tune_then_accept 10 s) as [[r2 s2]|] eqn:E2;
    [|vm_compute in E2; discriminate E2].
  exists r1, s1, r2, s2.
  pose proof (scans_keep_settings tune_then_accept 10 0 s ltac:(vm_compute; discriminate))
    as [A B].
  split; [reflexivity|]. split; [vm_compute in E1; congruence|].
  split; [exact (A _ _ E1)|]. split; [reflexivity|].
  split; [vm_compute in E2; injection E2 as _ <-; reflexivity|].
  exact (B _ _ E2).
Defined.

(* ================================================================== *)
(** * Scanning: thresholds the S-meter never falls to *)

Lemma get_s_value_range (env : environment) (s : state) :
  2 <= fst (get_s_value env s) <= 165.
Proof.
  unfold get_s_value, get_adc. cbn [fst].
  set (a := adc (env (adc_count s)) 1 mod 1024).
  assert (Ha : 0 <= a < 1024) by (apply Z.mod_pos_bound; lia).
  rewrite int16_id by lia.
  destruct (Z.ltb_spec (a - 360) 10).
  - change (Z.shiftr 10 2) with 2. lia.
  - rewrite Z.shiftr_div_pow2 by lia. change (2 ^ 2) with 4.
    split; [apply Z.div_le_lower_bound; lia|].
    assert ((a - 360) / 4 < 166) by (apply Z.div_lt_upper_bound; lia). lia.
Qed.

Lemma f0f1_stopped_stuck (env : environment) (fuel : nat) :
  forall fx sval wait s,
    thresh s <= 1 -> 2 <= sval -> keys_idle env (adc_count s) ->
    f0f1_stopped env fuel fx 0 sval wait s = None.
Proof.
  induction fuel as [|fuel IH]; intros fx sval wait s Ht Hs Hk; cbn [f0f1_stopped];
    change (negb (truthy 0)) with true; rewrite andb_true_r;
    (destruct (Z.gtb_spec sval (thresh s)); [|lia]); [reflexivity|].
  pose proof (get_s_value_range env s) as R.
  destruct (get_s_value_runs_on env s) as [[T1 _] A1].
  destruct (get_s_value env s) as [sv s1]. cbn [fst snd] in *.
  assert (K1 : keys_idle env (adc_count s1)) by (eapply keys_idle_later; [|exact Hk]; lia).
  destruct (get_keys_runs_on env s1) as [[T2 _] _].
  destruct (get_keys_idle env s1 K1) as [K2 K3].
  destruct (get_keys env s1) as [k s2]. cbn [fst snd] in *. subst k.
  destruct (manual_tuning_vars fx s2) as (_ & A3 & T3).
  destruct (manual_tuning fx s2) as [fx3 s3]. cbn [snd] in *.
  apply IH; [lia|lia|]. by rewrite A3.
Qed.

Lemma vfo_stopped_stuck (env : environment) (fuel : nat) :
  forall t1 sval s,
    thresh s <= 1 -> 2 <= sval -> keys_idle env (adc_count s) ->
    vfo_stopped env fuel t1 0 sval s = None.
Proof.
  induction fuel as [|fuel IH]; intros t1 sval s Ht Hs Hk; cbn [vfo_stopped];
    change (negb (truthy 0)) with true; rewrite andb_true_r;
    (destruct (Z.gtb_spec sval (thresh s)); [|lia]); [reflexivity|].
  pose proof (get_s_value_range env s) as R.
  destruct (get_s_value_runs_on env s) as [[T1 _] A1].
  destruct (get_s_value env s) as [sv s1]. cbn [fst snd] in *.
  assert (K1 : keys_idle env (adc_count s1)) by (eapply keys_idle_later; [|exact Hk]; lia).
  destruct (get_keys_runs_on env s1) as [[T2 _] _].
  destruct (get_keys_idle env s1 K1) as [K2 K3].
  destruct (get_keys env s1) as [k s2]. cbn [fst snd] in *. subst k.
  destruct (manual_tuning_vfo_vars t1 s2) as (_ & A3 & T3).
  destruct (manual_tuning_vfo t1 s2) as [fl s3]. cbn [snd] in *.
  apply IH; [lia|lia|]. by rewrite A3.
Qed.

Lemma f0f1_pass_stuck (env : environment) (fuel : nat) (fx wait : Z) (s : state) :
  thresh s <= 1 -> keys_idle env (adc_count s) -> f0f1_pass env fuel fx wait s = None.
Proof.
  intros Ht Hk. unfold f0f1_pass.
  destruct (get_keys_runs_on env s) as [[T1 _] _].
  destruct (get_keys_idle env s Hk) as [K1 K2].
  destruct (get_keys env s) as [k s1]. cbn [fst snd] in *. subst k.
  set (s2 := set_frequency_ad9850 _ s1).
  pose proof (get_s_value_range env s2) as R.
  destruct (get_s_value_runs_on env s2) as [[T3 _] A3].
  destruct (get_s_value env s2) as [sv s3]. cbn [fst snd] in *.
  rewrite f0f1_stopped_stuck; [reflexivity| |lia|].
  - rewrite T3. subst s2. rewrite dds_thresh. lia.
  - eapply keys_idle_later; [|exact K2]. rewrite A3. subst s2. rewrite dds_adc_count. lia.
Qed.

Lemma vfo_pass_stuck (env : environment) (fuel : nat) (t1 : Z) (s : state) :
  thresh s <= 1 -> keys_idle env (adc_count s) -> vfo_pass env fuel t1 s = None.
Proof.
  intros Ht Hk. unfold vfo_pass.
  destruct (get_keys_runs_on env s) as [[T1 _] _].
  destruct (get_keys_idle env s Hk) as [K1 K2].
  destruct (get_keys env s) as [k s1]. cbn [fst snd] in *. subst k.
  set (s2 := set_frequency_ad9850 _ s1).
  pose proof (get_s_value_range env s2) as R.
  destruct (get_s_value_runs_on env s2) as [[T3 _] A3].
  destruct (get_s_value env s2) as [sv s3]. cbn [fst snd] in *.
  rewrite vfo_stopped_stuck; [reflexivity| |lia|].
  - rewrite T3. subst s2. rewrite dds_thresh. lia.
  - eapply keys_idle_later; [|exact K2]. rewrite A3. subst s2. rewrite dds_adc_count. lia.
Qed.

Lemma release_keys_runs_on (env : environment) (fuel : nat) :
  forall s s', release_keys env fuel s = Some s' ->
               thresh s' = thresh s /\ (adc_count s <= adc_count s')%nat.
Proof.
  induction fuel as [|fuel IH]; intros s s' H; [discriminate|].
  cbn [release_keys] in H.
  destruct (get_keys_runs_on env s) as [[T1 _] [A1 _]].
  destruct (get_keys env s) as [k s1]. cbn [fst snd] in *.
  destruct (truthy k).
  - apply IH in H. destruct H. split; [congruence|lia].
  - injection H as <-. split; [assumption|lia].
Qed.

(** X11.  The S-meter reading of [get_s_value] is never below 2.  With
    the scan threshold set to 0 or 1, which the threshold dialog allows, a
    scan therefore never leaves the first frequency it probes unless a key
    is pressed: no pass of either scan ends, and neither scan returns,
    however long it runs. *)
Theorem scan_stuck_below_threshold_2 (env : environment) (s : state) :
  thresh s <= 1 -> keys_idle env (adc_count s) ->
  2 <= fst (get_s_value env s) /\
  forall fuel,
    (forall fx wait, f0f1_pass env fuel fx wait s = None) /\
    (forall t1, vfo_pass env fuel t1 s = None) /\
    (forall wait0, scan_f0_f1 env fuel wait0 s = None) /\
    scan_vfoa_vfob env fuel s = None.
Proof.
  intros Ht Hk. split; [apply get_s_value_range|]. intros fuel.
  split; [intros; by apply f0f1_pass_stuck|].
  split; [intros; by apply vfo_pass_stuck|].
  split.
  - intros wait0. unfold scan_f0_f1. cbv zeta.
    set (f0 := f_vfo_at s (cur_band s) 0). set (f1 := f_vfo_at s (cur_band s) 1).
    assert (G : forall a b s1, thresh s1 <= 1 -> keys_idle env (adc_count s1) ->
                               f0f1_scan env fuel a b 0 wait0 s1 = None).
    { intros a b s1 T1 K1. destruct fuel as [|fuel]; [reflexivity|].
      cbn [f0f1_scan]. change (negb (0 =? 2)) with true. cbv iota.
      destruct (Z.ltb_spec a b) as [L|L].
      - destruct fuel as [|fuel]; cbn [f0f1_sweep]; (destruct (Z.ltb_spec a b); [|lia]);
          [reflexivity|].
        by rewrite f0f1_pass_stuck.
      - assert (E : f0f1_sweep env fuel b a 0 wait0 s1 = Some (inr (0, wait0), s1)).
        { destruct fuel; cbn [f0f1_sweep]; (destruct (Z.ltb_spec a b); [lia|]); reflexivity. }
        rewrite E. clear E. revert s1 T1 K1.
        induction fuel as [|fuel IH]; intros s1 T1 K1; [reflexivity|].
        cbn [f0f1_scan]. change (negb (0 =? 2)) with true. cbv iota.
        assert (E : f0f1_sweep env fuel b a 0 wait0 s1 = Some (inr (0, wait0), s1)).
        { destruct fuel; cbn [f0f1_sweep]; (destruct (Z.ltb_spec a b); [lia|]); reflexivity. }
        rewrite E. by apply IH. }
    destruct (release_keys env fuel s) as [s1|] eqn:E;
      [|destruct (f0 >? f1); reflexivity].
    apply release_keys_runs_on in E. destruct E as [E1 E2].
    assert (K1 : keys_idle env (adc_count s1)) by (eapply keys_idle_later; [|exact Hk]; lia).
    destruct (f0 >? f1); apply G; (lia || assumption).
  - unfold scan_vfoa_vfob.
    destruct (release_keys env fuel s) as [s1|] eqn:E; [|reflexivity].
    apply release_keys_runs_on in E. destruct E as [E1 E2].
    assert (K1 : keys_idle env (adc_count s1)) by (eapply keys_idle_later; [|exact Hk]; lia).
    destruct fuel as [|fuel]; [reflexivity|].
    cbn [vfo_scan]. change (negb (0 =? 2)) with true. cbv iota.
    destruct fuel as [|fuel]; [reflexivity|].
    cbn [vfo_sweep]. change (0 <? 2) with true. cbv iota.
    rewrite vfo_pass_stuck; [reflexivity|lia|assumption].
Qed.

Lemma scan_stuck_below_threshold_2_witness :
  let s := load_start_values (power_on {[138 := 1]}) in
  thresh s = 1 /\
  forall fuel, scan_f0_f1 (script []) fuel 0 s = None /\ scan_vfoa_vfob (script []) fuel s = None.
Proof.
  intros s. split; [vm_compute; reflexivity|]. intros fuel.
  assert (Ht : thresh s <= 1) by (vm_compute; discriminate).
  assert (Hk : keys_idle (script []) (adc_count s)) by (intros n _; destruct n; reflexivity).
  destruct (scan_stuck_below_threshold_2 (script []) s Ht Hk) as [_ H].
  destruct (H fuel) as (_ & _ & H1 & H2). split; [apply H1|exact H2].
Defined.

(* ================================================================== *)
(** * The DDS port: the pins the programming sequence does not own *)

Lemma pins_kept_start (d : dds_pins) : pins_kept (DDS_PORT d) d d.
Proof. split; [intros i _ _ _ _; reflexivity|]. exists []. split; [reflexivity|constructor]. Qed.

Lemma write_set_kept (p : Z) (d0 d : dds_pins) (k : Z) :
  k = DDS_FQ_UD \/ k = DDS_SDATA \/ k = DDS_W_CLK ->
  pins_kept p d0 d ->
  pins_kept p d0 (write_DDS_PORT (uint8 (Z.lor (DDS_PORT d) (Z.shiftl 1 k))) d).
Proof.
  intros Hk [A (ws & B & C)].
  assert (K : other_pins_kept p (uint8 (Z.lor (DDS_PORT d) (Z.shiftl 1 k)))).
  { intros i Hi H2 H3 H4. unfold DDS_FQ_UD, DDS_SDATA, DDS_W_CLK in *.
    rewrite testbit_set_bit by lia. rewrite A by assumption.
    destruct (Z.eqb_spec i k); [lia|]. apply orb_false_r. }
  split; [exact K|].
  exists (uint8 (Z.lor (DDS_PORT d) (Z.shiftl 1 k)) :: ws). cbn [write_DDS_PORT dds_writes].
  split; [by rewrite B|]. by constructor.
Qed.

Lemma write_clear_kept (p : Z) (d0 d : dds_pins) (k : Z) :
  k = DDS_FQ_UD \/ k = DDS_SDATA \/ k = DDS_W_CLK ->
  pins_kept p d0 d ->
  pins_kept p d0 (write_DDS_PORT (uint8 (Z.land (DDS_PORT d) (Z.lnot (Z.shiftl 1 k)))) d).
Proof.
  intros Hk [A (ws & B & C)].
  assert (K : other_pins_kept p (uint8 (Z.land (DDS_PORT d) (Z.lnot (Z.shiftl 1 k))))).
  { intros i Hi H2 H3 H4. unfold DDS_FQ_UD, DDS_SDATA, DDS_W_CLK in *.
    rewrite testbit_clear_bit by lia. rewrite A by assumption.
    destruct (Z.eqb_spec i k); [lia|]. apply andb_true_r. }
  split; [exact K|].
  exists (uint8 (Z.land (DDS_PORT d) (Z.lnot (Z.shiftl 1 k))) :: ws).
  cbn [write_DDS_PORT dds_writes].
  split; [by rewrite B|]. by constructor.
Qed.

Lemma spi_send_bit_kept (p : Z) (d0 d : dds_pins) (b : Z) :
  pins_kept p d0 d -> pins_kept p d0 (spi_send_bit b d).
Proof.
  intros H. unfold spi_send_bit. cbv zeta.
  apply write_clear_kept; [tauto|]. apply write_set_kept; [tauto|].
  destruct (truthy b); [apply write_set_kept|apply write_clear_kept]; tauto.
Qed.

Lemma send_bits_kept (p : Z) (d0 : dds_pins) (n : nat) :
  forall w x d, pins_kept p d0 d -> pins_kept p d0 (send_bits n w x d).
Proof.
  induction n as [|n IH]; intros w x d H; cbn [send_bits]; [exact H|].
  apply IH. by apply spi_send_bit_kept.
Qed.

Lemma send_zeros_kept (p : Z) (d0 : dds_pins) (n : nat) :
  forall d, pins_kept p d0 d -> pins_kept p d0 (send_zeros n d).
Proof.
  induction n as [|n IH]; intros d H; cbn [send_zeros]; [exact H|].
  apply IH. by apply spi_send_bit_kept.
Qed.

(** After a 0 bit both the data and the clock line are low. *)
Lemma spi_send_zero_levels (d : dds_pins) :
  Z.testbit (DDS_PORT (spi_send_bit 0 d)) DDS_SDATA = false /\
  Z.testbit (DDS_PORT (spi_send_bit 0 d)) DDS_W_CLK = false.
Proof.
  unfold spi_send_bit. change (truthy 0) with false. cbv iota zeta.
  cbn [write_DDS_PORT DDS_PORT]. unfold DDS_SDATA, DDS_W_CLK.
  rewrite !testbit_clear_bit, !testbit_set_bit, !testbit_clear_bit by lia.
  cbn. rewrite !andb_false_r. split; reflexivity.
Qed.

Lemma send_zeros_levels (n : nat) :
  forall d,
    (0 < n)%nat \/
    (Z.testbit (DDS_PORT d) DDS_SDATA = false /\ Z.testbit (DDS_PORT d) DDS_W_CLK = false) ->
    Z.testbit (DDS_PORT (send_zeros n d)) DDS_SDATA = false /\
    Z.testbit (DDS_PORT (send_zeros n d)) DDS_W_CLK = false.
Proof.
  induction n as [|n IH]; intros d H; cbn [send_zeros].
  - destruct H as [H|H]; [lia|exact H].
  - apply IH. right. apply spi_send_zero_levels.
Qed.

(** X12.  Programming the DDS moves only its own three lines of the
    port.  Whatever the port holds before, every value [set_frequency_ad9850]
    writes keeps the five other pins (among them the pull-ups of the rotary
    encoder inputs) as they were, and the sequence always ends with FQ_UD
    high and SDATA and W_CLK low: the port is left at
    [(p & 0xE3) | 0x04]. *)
Theorem dds_programming_keeps_other_pins (fx : Z) (s : state) :
  let p := DDS_PORT (dds s) in
  let d' := dds (set_frequency_ad9850 fx s) in
  (exists ws, dds_writes d' = ws ++ dds_writes (dds s) /\
              length ws = 122%nat /\ Forall (other_pins_kept p) ws) /\
  Z.testbit (DDS_PORT d') DDS_FQ_UD = true /\
  Z.testbit (DDS_PORT d') DDS_SDATA = false /\
  Z.testbit (DDS_PORT d') DDS_W_CLK = false /\
  DDS_PORT d' = Z.lor (Z.land (uint8 p) 227) 4.
Proof.
  intros p d'. subst d'. unfold set_frequency_ad9850. cbn [dds set_dds emit].
  set (w := fword1 fx). set (d := dds s) in *.
  with_strategy transparent [send_fword] unfold send_fword. cbv zeta.
  set (d1 := write_DDS_PORT _ d).
  set (d2 := send_bits 16 (loword w) 1 d1).
  set (d3 := send_bits 16 (hiword w) 1 d2).
  set (d4 := send_zeros 8 d3).
  assert (K4 : pins_kept p d d4).
  { apply send_zeros_kept, send_bits_kept, send_bits_kept, write_clear_kept; [tauto|].
    apply pins_kept_start. }
  pose proof (write_set_kept p d d4 DDS_FQ_UD ltac:(tauto) K4) as [K5 (ws & E & F)].
  destruct (send_zeros_levels 8 d3 ltac:(left; lia)) as [L1 L2]. fold d4 in L1, L2.
  set (d5 := write_DDS_PORT _ d4) in *.
  assert (B2 : Z.testbit (DDS_PORT d5) DDS_FQ_UD = true).
  { subst d5. cbn [write_DDS_PORT DDS_PORT]. unfold DDS_FQ_UD.
    rewrite testbit_set_bit by lia. apply orb_true_r. }
  assert (B3 : Z.testbit (DDS_PORT d5) DDS_SDATA = false).
  { subst d5. cbn [write_DDS_PORT DDS_PORT]. unfold DDS_FQ_UD, DDS_SDATA in *.
    rewrite testbit_set_bit by lia. rewrite L1. reflexivity. }
  assert (B4 : Z.testbit (DDS_PORT d5) DDS_W_CLK = false).
  { subst d5. cbn [write_DDS_PORT DDS_PORT]. unfold DDS_FQ_UD, DDS_W_CLK in *.
    rewrite testbit_set_bit by lia. rewrite L2. reflexivity. }
  split.
  { exists ws. split; [exact E|]. split; [|exact F].
    apply (f_equal (@length Z)) in E. rewrite length_app in E.
    assert (N : forall n w x d, length (dds_writes (send_bits n w x d))
                                = (3 * n + length (dds_writes d))%nat).
    { clear. induction n as [|n IH]; intros w x d; cbn [send_bits]; [lia|].
      rewrite IH. unfold spi_send_bit. cbv zeta.
      destruct (truthy _); cbn [write_DDS_PORT dds_writes length]; lia. }
    assert (M : forall n d, length (dds_writes (send_zeros n d))
                            = (3 * n + length (dds_writes d))%nat).
    { clear. induction n as [|n IH]; intros d; cbn [send_zeros]; [lia|].
      rewrite IH. unfold spi_send_bit. cbv zeta.
      destruct (truthy _); cbn [write_DDS_PORT dds_writes length]; lia. }
    subst d5. cbn [write_DDS_PORT dds_writes length] in E. subst d4 d3 d2.
    rewrite M, !N in E. subst d1. cbn [write_DDS_PORT dds_writes length] in E. lia. }
  split; [exact B2|]. split; [exact B3|]. split; [exact B4|].
  apply Z.bits_inj'. intros i Hi.
  rewrite Z.lor_spec, Z.land_spec.
  destruct (Z.ltb_spec i 8) as [Lt|Ge].
  - rewrite testbit_uint8 by lia.
    unfold DDS_FQ_UD, DDS_SDATA, DDS_W_CLK in *.
    assert (C : i = 0 \/ i = 1 \/ i = 2 \/ i = 3 \/ i = 4 \/ i = 5 \/ i = 6 \/ i = 7) by lia.
    unfold other_pins_kept, DDS_FQ_UD, DDS_SDATA, DDS_W_CLK in K5.
    destruct C as [-> | [-> | [-> | [-> | [-> | [-> | [-> | ->]]]]]]];
      first [ rewrite B2 | rewrite B3 | rewrite B4 | rewrite K5 by lia ];
      cbn; rewrite ?andb_true_r, ?andb_false_r, ?orb_false_r; reflexivity.
  - subst d5. cbn [write_DDS_PORT DDS_PORT]. unfold uint8. change 256 with (2 ^ 8).
    rewrite !Z.mod_pow2_bits_high by lia.
    change 227 with (2 ^ 8 - 29). change 4 with (2 ^ 2).
    rewrite Z.pow2_bits_eqb by lia. destruct (Z.eqb_spec 2 i); [lia|]. reflexivity.
Qed.

(* ================================================================== *)
(** * [int2asc]: cells and loops *)

Lemma put_out (l : list Z) :
  forall buf i j, j < i \/ i + Z.of_nat (length l) <= j -> put buf i l j = buf j.
Proof.
  induction l as [|x l IH]; intros buf i j H; cbn [put]; [reflexivity|].
  cbn [length] in H. rewrite IH by lia. unfold poke.
  destruct (Z.eqb_spec j i); [lia|reflexivity].
Qed.

Lemma put_in (l : list Z) :
  forall buf i k, (k < length l)%nat -> put buf i l (i + Z.of_nat k) = nth k l 0.
Proof.
  induction l as [|x l IH]; intros buf i k H; cbn [length] in H; [lia|].
  cbn [put]. destruct k as [|k].
  - rewrite put_out by lia. unfold poke. rewrite Z.add_0_r, Z.eqb_refl. reflexivity.
  - replace (i + Z.of_nat (S k)) with (i + 1 + Z.of_nat k) by lia.
    rewrite IH by lia. reflexivity.
Qed.

Lemma put_app (l1 l2 : list Z) :
  forall buf i, put buf i (l1 ++ l2) = put (put buf i l1) (i + Z.of_nat (length l1)) l2.
Proof.
  induction l1 as [|x l1 IH]; intros buf i; cbn [app put length].
  - by rewrite Z.add_0_r.
  - rewrite IH. f_equal. lia.
Qed.

Lemma clear_buf_put (n : nat) :
  forall i buf, 0 <= i -> i + Z.of_nat n <= 32767 ->
                clear_buf n i buf = put buf i (repeat 0 n).
Proof.
  induction n as [|n IH]; intros i buf H0 H1; cbn [clear_buf repeat put]; [reflexivity|].
  rewrite int16_id by lia. apply IH; lia.
Qed.

Lemma pow10_pos (m : nat) : 0 < 10 ^ Z.of_nat m.
Proof. apply Z.pow_pos_nonneg; lia. Qed.

Lemma pow10_S (m : nat) : 10 ^ Z.of_nat (S m) = 10 * 10 ^ Z.of_nat m.
Proof. rewrite Nat2Z.inj_succ, Z.pow_succ_r by lia. reflexivity. Qed.

Lemma divisor_next (m : nat) : Z.quot (10 ^ Z.of_nat m) 10 = divisor m.
Proof.
  destruct m as [|m]; [reflexivity|]. cbn [divisor].
  rewrite pow10_S. rewrite Z.mul_comm. apply Z.quot_mul. lia.
Qed.

Lemma digits_loop_spec (dec : Z) (m : nat) :
  forall fuel n xp buf,
    (m <= 10)%nat ->
    0 <= n < 10 ^ Z.of_nat m -> n <= 2147483647 -> 0 <= xp <= 100 - Z.of_nat m ->
    digits_loop fuel dec (divisor m) n (Z.of_nat m - 1) xp buf
    = if (m <=? fuel)%nat
      then Some (put buf (10 - Z.of_nat m + xp) (digits_point m dec n))
      else None.
Proof.
  induction m as [|m IH]; intros fuel n xp buf Hm Hn Hn' Hx.
  - destruct fuel; reflexivity.
  - destruct fuel as [|fuel].
    { cbn [divisor digits_loop]. pose proof (pow10_pos m) as Hp.
      assert (T : truthy (10 ^ Z.of_nat m) = true) by (apply truthy_true; lia).
      rewrite T. reflexivity. }
    change (S m <=? S fuel)%nat with (m <=? fuel)%nat.
    pose proof (pow10_pos m) as Hp. rewrite pow10_S in Hn.
    cbn [divisor digits_loop digits_point].
    assert (T : truthy (10 ^ Z.of_nat m) = true) by (apply truthy_true; lia).
    rewrite T. cbv zeta.
    rewrite Z.quot_div_nonneg by lia.
    assert (Hq : 0 <= n / 10 ^ Z.of_nat m <= 9).
    { split; [apply Z.div_pos; lia|].
      assert (n / 10 ^ Z.of_nat m < 10) by (apply Z.div_lt_upper_bound; lia). lia. }
    pose proof (Z.mod_pos_bound n (10 ^ Z.of_nat m) Hp) as Hr.
    pose proof (Z.div_mod n (10 ^ Z.of_nat m) ltac:(lia)) as Hd.
    rewrite (int16_id (n / _)) by lia.
    rewrite (int32_id (n / _ * _)) by nia.
    replace (n - n / 10 ^ Z.of_nat m * 10 ^ Z.of_nat m) with (n mod 10 ^ Z.of_nat m) by lia.
    rewrite (int32_id (n mod _)) by lia.
    rewrite uint8_id by lia.
    rewrite divisor_next.
    replace (Z.of_nat (S m) - 1) with (Z.of_nat m) by lia.
    replace (n / 10 ^ Z.of_nat m + 48) with (48 + n / 10 ^ Z.of_nat m) by lia.
    replace (9 - Z.of_nat m + xp) with (10 - Z.of_nat (S m) + xp) by lia.
    rewrite (int16_id (Z.of_nat m - 1)) by lia.
    destruct ((Z.of_nat m =? dec) && truthy dec).
    + rewrite int16_id by lia. rewrite IH by lia.
      destruct (m <=? fuel)%nat; [|reflexivity]. cbn [put app]. do 2 f_equal; [|lia].
      f_equal. lia.
    + rewrite IH by lia.
      destruct (m <=? fuel)%nat; [|reflexivity]. cbn [put app]. do 2 f_equal. lia.
Qed.

Lemma blank_zeros_spec (z : nat) :
  forall fuel i buf,
    (z <= fuel)%nat -> 0 <= i -> i + Z.of_nat z <= 32767 ->
    (forall k, (k < z)%nat -> buf (i + Z.of_nat k) = 48) ->
    buf (i + Z.of_nat z) <> 48 ->
    blank_zeros fuel i buf = Some (i + Z.of_nat z, put buf i (repeat 32 z)).
Proof.
  induction z as [|z IH]; intros fuel i buf Hf H0 H1 Hz Hn.
  - rewrite Z.add_0_r in *. destruct fuel; cbn [blank_zeros repeat put];
      (destruct (Z.eqb_spec (buf i) 48); [contradiction|reflexivity]).
  - destruct fuel as [|fuel]; [lia|]. cbn [blank_zeros repeat put].
    pose proof (Hz 0%nat ltac:(lia)) as E. rewrite Z.add_0_r in E. rewrite E.
    change (48 =? 48) with true. cbv iota.
    rewrite int16_id by lia. rewrite IH; [f_equal; f_equal; lia|lia|lia|lia| |].
    + intros k Hk. unfold poke. destruct (Z.eqb_spec (i + 1 + Z.of_nat k) i); [lia|].
      replace (i + 1 + Z.of_nat k) with (i + Z.of_nat (S k)) by lia. apply Hz. lia.
    + unfold poke. destruct (Z.eqb_spec (i + 1 + Z.of_nat z) i); [lia|].
      replace (i + 1 + Z.of_nat z) with (i + Z.of_nat (S z)) by lia. exact Hn.
Qed.

Lemma move_left_spec (len : nat) :
  forall fuel i c buf,
    (len <= fuel)%nat -> 0 <= c <= i -> i + Z.of_nat len <= 32767 ->
    (forall k, (k < len)%nat -> buf (i + Z.of_nat k) <> 0) ->
    buf (i + Z.of_nat len) = 0 ->
    exists buf',
      move_left fuel i c buf = Some (c + Z.of_nat len, buf') /\
      (forall k, (k < len)%nat -> buf' (c + Z.of_nat k) = buf (i + Z.of_nat k)) /\
      (forall j, j < c \/ c + Z.of_nat len <= j -> buf' j = buf j).
Proof.
  induction len as [|len IH]; intros fuel i c buf Hf Hc Hi Hz Hn.
  - rewrite Z.add_0_r in *. exists buf.
    split; [|split; [lia|reflexivity]].
    destruct fuel; cbn [move_left]; rewrite Hn; reflexivity.
  - destruct fuel as [|fuel]; [lia|]. cbn [move_left].
    pose proof (Hz 0%nat ltac:(lia)) as E. rewrite Z.add_0_r in E.
    apply truthy_true in E. rewrite E. rewrite !int16_id by lia.
    destruct (IH fuel (i + 1) (c + 1) (poke buf c (buf i))) as (buf' & A & B & C);
      [lia|lia|lia| | |].
    + intros k Hk. unfold poke. destruct (Z.eqb_spec (i + 1 + Z.of_nat k) c); [lia|].
      replace (i + 1 + Z.of_nat k) with (i + Z.of_nat (S k)) by lia. apply Hz. lia.
    + unfold poke. destruct (Z.eqb_spec (i + 1 + Z.of_nat len) c); [lia|].
      replace (i + 1 + Z.of_nat len) with (i + Z.of_nat (S len)) by lia. exact Hn.
    + exists buf'. split; [rewrite A; f_equal; f_equal; lia|]. split.
      * intros k Hk. destruct k as [|k].
        -- rewrite !Z.add_0_r. rewrite C by lia. unfold poke. by rewrite Z.eqb_refl.
        -- replace (c + Z.of_nat (S k)) with (c + 1 + Z.of_nat k) by lia.
           rewrite B by lia. unfold poke.
           destruct (Z.eqb_spec (i + 1 + Z.of_nat k) c); [lia|]. f_equal. lia.
      * intros j Hj. rewrite C by lia. unfold poke.
        destruct (Z.eqb_spec j c); [lia|reflexivity].
Qed.

(* ================================================================== *)
(** * [int2asc]: decimal digits *)

Lemma digits_length (m : nat) : forall n, length (digits m n) = m.
Proof. induction m as [|m IH]; intros n; cbn [digits length]; [reflexivity|]. by rewrite IH. Qed.

Lemma digit_range (m : nat) (n : Z) :
  0 <= n < 10 ^ Z.of_nat (S m) -> 0 <= n / 10 ^ Z.of_nat m <= 9.
Proof.
  intros H. rewrite pow10_S in H. pose proof (pow10_pos m).
  split; [apply Z.div_pos; lia|].
  assert (n / 10 ^ Z.of_nat m < 10) by (apply Z.div_lt_upper_bound; lia). lia.
Qed.

Lemma digits_are_digits (m : nat) :
  forall n, 0 <= n < 10 ^ Z.of_nat m -> Forall is_digit (digits m n).
Proof.
  induction m as [|m IH]; intros n H; cbn [digits]; constructor.
  - pose proof (digit_range m n H). unfold is_digit. lia.
  - apply IH. apply Z.mod_pos_bound, pow10_pos.
Qed.

Lemma number_fold (l : list Z) :
  forall a, fold_left (fun a ch => 10 * a + (ch - 48)) l a
            = a * 10 ^ Z.of_nat (length l) + number l.
Proof.
  unfold number. induction l as [|x l IH]; intros a; cbn [fold_left length].
  - change (10 ^ Z.of_nat 0) with 1. lia.
  - rewrite IH. rewrite (IH (10 * 0 + (x - 48))). rewrite pow10_S. ring.
Qed.

Lemma number_cons (x : Z) (l : list Z) :
  number (x :: l) = (x - 48) * 10 ^ Z.of_nat (length l) + number l.
Proof. unfold number at 1. cbn [fold_left]. rewrite number_fold. f_equal. Qed.

Lemma number_digits (m : nat) :
  forall n, 0 <= n < 10 ^ Z.of_nat m -> number (digits m n) = n.
Proof.
  induction m as [|m IH]; intros n H; cbn [digits].
  - change (10 ^ Z.of_nat 0) with 1 in H. unfold number. cbn. lia.
  - rewrite number_cons, digits_length.
    rewrite IH by (apply Z.mod_pos_bound, pow10_pos).
    pose proof (Z.div_mod n (10 ^ Z.of_nat m) ltac:(pose proof (pow10_pos m); lia)). lia.
Qed.

Lemma strip_zeros_split (l : list Z) :
  exists z, l = repeat 48 z ++ strip_zeros l /\ hd 0 (strip_zeros l) <> 48.
Proof.
  induction l as [|x l (z & E & H)]; [exists 0%nat; split; [reflexivity|cbn; lia]|].
  cbn [strip_zeros]. destruct (Z.eqb_spec x 48) as [->|N].
  - exists (S z). cbn [repeat app]. split; [by rewrite <- E|exact H].
  - exists 0%nat. split; [reflexivity|exact N].
Qed.

Lemma strip_zeros_number (l : list Z) : number (strip_zeros l) = number l.
Proof.
  induction l as [|x l IH]; [reflexivity|]. cbn [strip_zeros].
  destruct (Z.eqb_spec x 48) as [->|N]; [|reflexivity].
  rewrite IH, number_cons. lia.
Qed.

Lemma strip_zeros_digits (l : list Z) :
  Forall is_digit l -> no_leading_zero (strip_zeros l).
Proof.
  induction 1 as [|x l Hx Hl IH]; [split; [constructor|cbn; lia]|].
  cbn [strip_zeros]. destruct (Z.eqb_spec x 48) as [->|N]; [exact IH|].
  split; [by constructor|exact N].
Qed.

Lemma strip_zeros_point (l1 l2 : list Z) :
  strip_zeros (l1 ++ 46 :: l2) = strip_zeros l1 ++ 46 :: l2.
Proof.
  induction l1 as [|x l1 IH]; [reflexivity|]. cbn [app strip_zeros].
  destruct (x =? 48); [exact IH|reflexivity].
Qed.

Lemma digits_point_plain (dec : Z) (m : nat) :
  dec <= 0 \/ Z.of_nat m <= dec -> forall n, digits_point m dec n = digits m n.
Proof.
  induction m as [|m IH]; intros H n; cbn [digits_point digits]; [reflexivity|].
  assert (C : (Z.of_nat m =? dec) && truthy dec = false).
  { destruct (Z.eqb_spec (Z.of_nat m) dec) as [E|]; [|reflexivity].
    cbn [andb]. apply truthy_false. lia. }
  rewrite C. cbn [app]. f_equal. apply IH. lia.
Qed.

Lemma digits_point_split (d : nat) (m : nat) :
  (1 <= d < m)%nat ->
  forall n, 0 <= n ->
    digits_point m (Z.of_nat d) n
    = digits (m - d) (n / 10 ^ Z.of_nat d) ++ 46 :: digits d (n mod 10 ^ Z.of_nat d).
Proof.
  induction m as [|m IH]; intros H n Hn; [lia|].
  pose proof (pow10_pos d) as Pd. pose proof (pow10_pos m) as Pm.
  cbn [digits_point]. destruct (Nat.eq_dec m d) as [->|N].
  - rewrite Z.eqb_refl. assert (T : truthy (Z.of_nat d) = true) by (apply truthy_true; lia).
    rewrite T. cbn [andb app].
    replace (S d - d)%nat with 1%nat by lia. cbn [digits app].
    change (10 ^ Z.of_nat 0) with 1. rewrite Z.div_1_r.
    rewrite digits_point_plain by lia. reflexivity.
  - destruct (Z.eqb_spec (Z.of_nat m) (Z.of_nat d)) as [E|_]; [lia|]. cbn [andb app].
    rewrite IH by (lia || (apply Z.mod_pos_bound; lia)).
    replace (S m - d)%nat with (S (m - d)) by lia. cbn [digits app].
    assert (P : 10 ^ Z.of_nat m = 10 ^ Z.of_nat d * 10 ^ Z.of_nat (m - d)).
    { rewrite <- Z.pow_add_r by lia. f_equal. lia. }
    pose proof (pow10_pos (m - d)) as Pk.
    assert (Q1 : n / 10 ^ Z.of_nat d / 10 ^ Z.of_nat (m - d) = n / 10 ^ Z.of_nat m).
    { rewrite P. apply Z.div_div; lia. }
    assert (Q2 : (n mod 10 ^ Z.of_nat m) / 10 ^ Z.of_nat d
                 = (n / 10 ^ Z.of_nat d) mod 10 ^ Z.of_nat (m - d)).
    { rewrite P. rewrite Z.rem_mul_r by lia.
      rewrite (Z.mul_comm (10 ^ Z.of_nat d)), Z.div_add by lia.
      rewrite (Z.div_small (n mod _)) by (apply Z.mod_pos_bound; lia). reflexivity. }
    assert (Q3 : (n mod 10 ^ Z.of_nat m) mod 10 ^ Z.of_nat d = n mod 10 ^ Z.of_nat d).
    { rewrite P. rewrite Z.rem_mul_r by lia.
      rewrite (Z.mul_comm (10 ^ Z.of_nat d)), Z.mod_add by lia.
      apply Z.mod_mod. lia. }
    rewrite Q1, Q2, Q3. reflexivity.
Qed.

Lemma digits_point_chars (dec : Z) (m : nat) :
  forall n, 0 <= n < 10 ^ Z.of_nat m ->
            Forall (fun ch => 46 <= ch <= 57) (digits_point m dec n) /\
            (m <= length (digits_point m dec n) <= m + 1)%nat.
Proof.
  destruct (Z_le_gt_dec dec 0) as [H|H]; [|destruct (Z_le_gt_dec (Z.of_nat m) dec) as [H'|H']].
  - intros n Hn. rewrite digits_point_plain by lia. rewrite digits_length. split; [|lia].
    eapply List.Forall_impl; [|by apply digits_are_digits]. unfold is_digit. cbv beta. intros; lia.
  - intros n Hn. rewrite digits_point_plain by lia. rewrite digits_length. split; [|lia].
    eapply List.Forall_impl; [|by apply digits_are_digits]. unfold is_digit. cbv beta. intros; lia.
  - intros n Hn. rewrite <- (Z2Nat.id dec) by lia.
    rewrite digits_point_split by lia.
    pose proof (pow10_pos (Z.to_nat dec)) as Pd.
    assert (P : 10 ^ Z.of_nat m = 10 ^ Z.of_nat (Z.to_nat dec) * 10 ^ Z.of_nat (m - Z.to_nat dec)).
    { rewrite <- Z.pow_add_r by lia. f_equal. lia. }
    split.
    + apply Forall_app. split; [|constructor; [lia|]].
      * eapply List.Forall_impl; [|apply digits_are_digits]; [unfold is_digit; intros; lia|].
        split; [apply Z.div_pos; lia|]. apply Z.div_lt_upper_bound; lia.
      * eapply List.Forall_impl; [|apply digits_are_digits]; [unfold is_digit; intros; lia|].
        apply Z.mod_pos_bound; lia.
    + rewrite length_app. cbn [length]. rewrite !digits_length. lia.
Qed.

Lemma text_cells (buf : chars) (l : list Z) :
  (forall k, (k < length l)%nat -> buf (Z.of_nat k) = nth k l 0) ->
  text buf (Z.of_nat (length l)) = l.
Proof.
  unfold text. rewrite Nat2Z.id.
  assert (G : forall a, (forall k, (k < length l)%nat -> buf (Z.of_nat (a + k)) = nth k l 0) ->
                        map (fun j => buf (Z.of_nat j)) (seq a (length l)) = l).
  { induction l as [|x l IH]; intros a H; cbn [length seq map]; [reflexivity|]. f_equal.
    - specialize (H 0%nat ltac:(cbn; lia)). by rewrite Nat.add_0_r in H.
    - apply IH. intros k Hk. specialize (H (S k) ltac:(cbn; lia)).
      replace (S a + k)%nat with (a + S k)%nat by lia. exact H. }
  intros H. apply G. exact H.
Qed.

(* ================================================================== *)
(** * [int2asc]: the text it writes *)

(** The last loop and the terminator, on a buffer that holds the string
    [t] from cell [i0] on. *)
Lemma int2asc_finish (fuel : nat) (t : list Z) (i0 : Z) (buf : chars) :
  (length t <= fuel)%nat -> 0 <= i0 -> i0 + Z.of_nat (length t) <= 11 ->
  (forall k, (k < length t)%nat -> buf (i0 + Z.of_nat k) = nth k t 0) ->
  Forall (fun ch => ch <> 0) t ->
  buf (i0 + Z.of_nat (length t)) = 0 ->
  exists buf',
    match move_left fuel i0 0 buf with
    | None => None
    | Some (c, b) => Some (c, poke b c 0)
    end = Some (Z.of_nat (length t), buf') /\
    text buf' (Z.of_nat (length t)) = t /\
    buf' (Z.of_nat (length t)) = 0 /\
    forall j, j < 0 \/ 12 <= j -> buf' j = buf j.
Proof.
  intros Hf H0 H1 Hc Hn Hz.
  destruct (move_left_spec (length t) fuel i0 0 buf) as (b & A & B & C);
    [lia|lia|lia| |exact Hz|].
  { intros k Hk. rewrite Hc by lia. rewrite List.Forall_forall in Hn. apply Hn, nth_In. lia. }
  rewrite A. rewrite Z.add_0_l. eexists. split; [reflexivity|].
  split; [|split].
  - apply text_cells. intros k Hk. unfold poke.
    destruct (Z.eqb_spec (Z.of_nat k) (Z.of_nat (length t))); [lia|].
    specialize (B k Hk). rewrite Z.add_0_l in B. rewrite B. by apply Hc.
  - unfold poke. by rewrite Z.eqb_refl.
  - intros j Hj. unfold poke. destruct (Z.eqb_spec j (Z.of_nat (length t))); [lia|].
    apply C. lia.
Qed.

Lemma nth_repeat_app (z k : nat) (l : list Z) :
  nth k (repeat 48 z ++ l) 0 = if (k <? z)%nat then 48 else nth (k - z) l 0.
Proof.
  destruct (Nat.ltb_spec k z).
  - rewrite app_nth1 by (rewrite repeat_length; lia). apply nth_repeat_lt. lia.
  - rewrite app_nth2 by (rewrite repeat_length; lia). by rewrite repeat_length.
Qed.

Lemma int2asc_render (fuel : nat) (num dec : Z) (buf : chars) :
  num <> 0 -> -1000000000 < num <= 2147483647 -> (11 <= fuel)%nat ->
  exists buf',
    int2asc fuel num dec buf = Some (Z.of_nat (length (render num dec)), buf') /\
    text buf' (Z.of_nat (length (render num dec))) = render num dec /\
    buf' (Z.of_nat (length (render num dec))) = 0 /\
    (length (render num dec) <= 11)%nat /\
    forall j, j < 0 \/ 12 <= j -> buf' j = buf j.
Proof.
  intros Hnz Hr Hf. unfold int2asc, render.
  assert (T : truthy num = true) by (by apply truthy_true). rewrite T. cbn [negb]. cbv zeta.
  set (n := if num <? 0 then int32 (num * -1) else num).
  assert (En : n = Z.abs num).
  { subst n. destruct (Z.ltb_spec num 0); [rewrite int32_id by lia|]; lia. }
  rewrite clear_buf_put by lia.
  change (digits_loop fuel dec 1000000000 n 9 0)
    with (digits_loop fuel dec (divisor 10) n (Z.of_nat 10 - 1) 0).
  assert (Hn10 : 0 <= n < 10 ^ Z.of_nat 10) by (change (10 ^ Z.of_nat 10) with 10000000000; lia).
  rewrite digits_loop_spec by lia. destruct (Nat.leb_spec 10 fuel); [|lia].
  rewrite <- En. set (L := digits_point 10 dec n).
  destruct (digits_point_chars dec 10 n Hn10) as [Lc Ll]. fold L in Lc, Ll.
  destruct (strip_zeros_split L) as (z & EL & Hh). set (S0 := strip_zeros L) in *.
  assert (Lz : length L = (z + length S0)%nat).
  { rewrite EL at 1. by rewrite length_app, repeat_length. }
  change (10 - Z.of_nat 10 + 0) with 0.
  set (buf0 := put buf 0 (repeat 0 12)).
  set (buf1 := put buf0 0 L).
  assert (C1 : forall k, (k < length L)%nat -> buf1 (Z.of_nat k) = nth k L 0).
  { intros k Hk. subst buf1. rewrite <- (put_in L buf0 0 k Hk). f_equal. }
  assert (C1z : buf1 (Z.of_nat (length L)) = 0).
  { subst buf1. rewrite put_out by lia. subst buf0.
    rewrite <- (Z.add_0_l (Z.of_nat (length L))). rewrite put_in by (rewrite repeat_length; lia).
    apply nth_repeat_lt. lia. }
  assert (C1o : forall j, j < 0 \/ 12 <= j -> buf1 j = buf j).
  { intros j Hj. subst buf1 buf0. rewrite !put_out; [reflexivity|rewrite repeat_length|]; lia. }
  rewrite (blank_zeros_spec z fuel 0 buf1); [|lia|lia|lia| |].
  2: { intros k Hk. rewrite Z.add_0_l, C1 by lia. rewrite EL, nth_repeat_app.
       destruct (Nat.ltb_spec k z); [reflexivity|lia]. }
  2: { rewrite Z.add_0_l. destruct (Nat.eq_dec (length S0) 0%nat) as [E0|N0].
       - replace z with (length L) by lia. rewrite C1z. lia.
       - rewrite C1 by lia. rewrite EL, nth_repeat_app.
         destruct (Nat.ltb_spec z z); [lia|]. rewrite Nat.sub_diag.
         destruct S0; [contradiction|exact Hh]. }
  rewrite Z.add_0_l. set (buf2 := put buf1 0 (repeat 32 z)).
  assert (C2 : forall j, j < 0 \/ Z.of_nat z <= j -> buf2 j = buf1 j).
  { intros j Hj. subst buf2. rewrite put_out; [reflexivity|rewrite repeat_length; lia]. }
  assert (S0n : Forall (fun ch => ch <> 0) S0).
  { rewrite EL in Lc. apply Forall_app in Lc. destruct Lc as [_ Lc].
    eapply List.Forall_impl; [|exact Lc]. cbv beta. intros; lia. }
  assert (S0c : forall k, (k < length S0)%nat -> buf2 (Z.of_nat z + Z.of_nat k) = nth k S0 0).
  { intros k Hk. rewrite C2 by lia. rewrite <- Nat2Z.inj_add. rewrite C1 by lia.
    rewrite EL, nth_repeat_app. destruct (Nat.ltb_spec (z + k) z); [lia|]. f_equal. lia. }
  destruct (Z.ltb_spec num 0) as [Neg|Pos].
  - (* negative: the sign goes into the last blanked cell *)
    assert (Z1 : (1 <= z)%nat).
    { destruct z as [|z]; [|lia]. exfalso. apply Hh. cbn [repeat app] in EL. rewrite <- EL.
      subst L. cbn [digits_point hd]. rewrite Z.div_small; [reflexivity|].
      change (10 ^ Z.of_nat 9) with 1000000000. lia. }
    rewrite int16_id by lia.
    destruct (int2asc_finish fuel (45 :: S0) (Z.of_nat z - 1) (poke buf2 (Z.of_nat z - 1) 45))
      as (buf' & A & B & C & D).
    + cbn [length]. lia.
    + lia.
    + cbn [length]. lia.
    + intros k Hk. cbn [length] in Hk. unfold poke. destruct k as [|k].
      * rewrite Z.add_0_r, Z.eqb_refl. reflexivity.
      * destruct (Z.eqb_spec (Z.of_nat z - 1 + Z.of_nat (S k)) (Z.of_nat z - 1)); [lia|].
        replace (Z.of_nat z - 1 + Z.of_nat (S k)) with (Z.of_nat z + Z.of_nat k) by lia.
        cbn [nth]. apply S0c. lia.
    + constructor; [lia|exact S0n].
    + unfold poke. cbn [length].
      destruct (Z.eqb_spec (Z.of_nat z - 1 + Z.of_nat (S (length S0))) (Z.of_nat z - 1));
        [lia|].
      rewrite C2 by lia.
      replace (Z.of_nat z - 1 + Z.of_nat (S (length S0))) with (Z.of_nat (length L)) by lia.
      exact C1z.
    + exists buf'. cbn [app]. split; [exact A|]. split; [exact B|]. split; [exact C|].
      split; [cbn [length]; lia|].
      intros j Hj. rewrite D by exact Hj. unfold poke.
      destruct (Z.eqb_spec j (Z.of_nat z - 1)); [lia|].
      rewrite C2 by lia. by apply C1o.
  - destruct (int2asc_finish fuel S0 (Z.of_nat z) buf2) as (buf' & A & B & C & D).
    + lia.
    + lia.
    + lia.
    + exact S0c.
    + exact S0n.
    + rewrite C2 by lia. rewrite <- Nat2Z.inj_add, <- Lz. exact C1z.
    + exists buf'. cbn [app]. split; [exact A|]. split; [exact B|]. split; [exact C|].
      split; [lia|].
      intros j Hj. rewrite D by exact Hj. rewrite C2 by lia. by apply C1o.
Qed.

(** X13.  [int2asc] writes the decimal text of a number.  For every
    [num] other than 0 from -999999999 to 2147483647 it returns, the cells
    0 .. len - 1 hold: a minus sign when [num] is negative; the digits of
    [|num| / 10 ^ d] without leading zeros (none at all when that is 0);
    and, when [dec] is in 1 .. 9, a point followed by exactly [d = dec]
    digits for [|num| mod 10 ^ d] (otherwise [d = 0] and no point).  Cell
    [len] holds the terminator, [len] is at most 11, and no cell outside
    0 .. 11 is written.  0 is written as the single digit, without point. *)
Theorem int2asc_text (fuel : nat) (num dec : Z) (buf : chars) :
  -1000000000 < num <= 2147483647 -> (11 <= fuel)%nat ->
  let d := places dec in
  exists len buf',
    int2asc fuel num dec buf = Some (len, buf') /\
    buf' len = 0 /\ 1 <= len <= 11 /\
    (forall j, j < 0 \/ 12 <= j -> buf' j = buf j) /\
    (num = 0 -> text buf' len = [48]) /\
    (num <> 0 ->
     exists ip fp,
       text buf' len
       = (if num <? 0 then [45] else []) ++ ip
         ++ match d with O => [] | S _ => [46] end ++ fp /\
       no_leading_zero ip /\ number ip = Z.abs num / 10 ^ Z.of_nat d /\
       Forall is_digit fp /\ length fp = d /\ number fp = Z.abs num mod 10 ^ Z.of_nat d).
Proof.
  intros Hr Hf d. destruct (Z.eq_dec num 0) as [->|Hnz].
  { exists 1, (poke (poke buf 0 48) 1 0). split; [reflexivity|]. split; [reflexivity|].
    split; [lia|]. split; [|split; [reflexivity|contradiction]].
    intros j Hj. unfold poke. destruct (Z.eqb_spec j 1); [lia|].
    destruct (Z.eqb_spec j 0); [lia|reflexivity]. }
  destruct (int2asc_render fuel num dec buf Hnz Hr Hf) as (buf' & A & B & C & D & E).
  set (n := Z.abs num). assert (Hn : 0 < n < 10 ^ Z.of_nat 10)
    by (change (10 ^ Z.of_nat 10) with 10000000000; lia).
  assert (G : exists ip fp,
             render num dec
             = (if num <? 0 then [45] else []) ++ ip
               ++ match d with O => [] | S _ => [46] end ++ fp /\
             no_leading_zero ip /\ number ip = n / 10 ^ Z.of_nat d /\
             Forall is_digit fp /\ length fp = d /\ number fp = n mod 10 ^ Z.of_nat d /\
             (ip ++ match d with O => [] | S _ => [46] end ++ fp <> [])).
  { unfold render. fold n. subst d. unfold places.
    destruct ((1 <=? dec) && (dec <=? 9)) eqn:P.
    - apply andb_true_iff in P. destruct P as [P1 P2].
      apply Z.leb_le in P1. apply Z.leb_le in P2.
      set (d := Z.to_nat dec). assert (Ed : dec = Z.of_nat d) by (subst d; lia).
      pose proof (pow10_pos d) as Pd.
      replace (digits_point 10 dec n) with (digits_point 10 (Z.of_nat d) n) by (by rewrite <- Ed).
      rewrite digits_point_split by lia. rewrite strip_zeros_point.
      exists (strip_zeros (digits (10 - d) (n / 10 ^ Z.of_nat d))),
             (digits d (n mod 10 ^ Z.of_nat d)).
      assert (Q : 0 <= n / 10 ^ Z.of_nat d < 10 ^ Z.of_nat (10 - d)).
      { split; [apply Z.div_pos; lia|]. apply Z.div_lt_upper_bound; [lia|].
        rewrite <- Z.pow_add_r by lia. replace (Z.of_nat d + Z.of_nat (10 - d)) with (Z.of_nat 10) by lia.
        lia. }
      destruct d as [|d']; [lia|]. cbn [app].
      split; [reflexivity|].
      split; [apply strip_zeros_digits, digits_are_digits; exact Q|].
      split; [rewrite strip_zeros_number; apply number_digits; exact Q|].
      split; [apply digits_are_digits, Z.mod_pos_bound; lia|].
      split; [apply digits_length|].
      split; [apply number_digits, Z.mod_pos_bound; lia|].
      intros X. by apply app_eq_nil in X as [_ X].
    - assert (P' : dec <= 0 \/ Z.of_nat 10 <= dec).
      { apply andb_false_iff in P. destruct P as [P|P]; [apply Z.leb_gt in P|apply Z.leb_gt in P]; lia. }
      rewrite digits_point_plain by exact P'.
      exists (strip_zeros (digits 10 n)), []. cbn [app]. rewrite !app_nil_r.
      change (10 ^ Z.of_nat 0) with 1. rewrite Z.div_1_r, Z.mod_1_r.
      split; [reflexivity|].
      split; [apply strip_zeros_digits, digits_are_digits; lia|].
      split; [rewrite strip_zeros_number; apply number_digits; lia|].
      split; [constructor|]. split; [reflexivity|]. split; [reflexivity|].
      intros X. pose proof (strip_zeros_number (digits 10 n)) as Y.
      rewrite X, number_digits in Y by lia. unfold number in Y. cbn in Y. lia. }
  destruct G as (ip & fp & G1 & G2 & G3 & G4 & G5 & G6 & G7).
  exists (Z.of_nat (length (render num dec))), buf'.
  split; [exact A|]. split; [exact C|]. split.
  { split; [|lia]. rewrite G1. rewrite length_app.
    destruct (ip ++ match d with O => [] | S _ => [46] end ++ fp); [contradiction|].
    cbn [length]. lia. }
  split; [exact E|]. split; [contradiction|]. intros _.
  exists ip, fp. rewrite B. fold n. tauto.
Qed.

Lemma int2asc_text_witness :
  exists len buf' ip fp,
    int2asc 11 (-142505) 1 (fun _ => 255) = Some (len, buf') /\
    text buf' len = [45] ++ ip ++ [46] ++ fp /\
    number ip = 14250 /\ length fp = 1%nat /\ number fp = 5.
Proof.
  destruct (int2asc_text 11 (-142505) 1 (fun _ => 255) ltac:(lia) ltac:(lia))
    as (len & buf' & A & _ & _ & _ & _ & B).
  destruct (B ltac:(lia)) as (ip & fp & B1 & _ & B3 & _ & B5 & B6).
  exists len, buf', ip, fp. split; [exact A|]. split; [exact B1|].
  split; [exact B3|]. split; [exact B5|exact B6].
Defined.

(* ================================================================== *)
(** * [int2asc]: negative numbers of ten digits *)

Lemma move_left_runaway (fuel : nat) :
  forall i c buf, buf i = 45 -> c = int16 (i + 1) -> move_left fuel i c buf = None.
Proof.
  induction fuel as [|fuel IH]; intros i c buf Hb Hc; cbn [move_left]; rewrite Hb;
    change (truthy 45) with true; cbv iota; [reflexivity|].
  subst c. apply IH; [|reflexivity]. unfold poke. by rewrite Z.eqb_refl.
Qed.

(** X14.  A negative number of ten digits has no leading zero that could
    take the sign: [int2asc] puts the minus sign into the cell before the
    buffer and then copies it forward cell by cell without ever meeting
    the terminator.  For [num] from -2147483647 to -1000000000 the function
    does not return, whatever [dec] and the buffer are. *)
Theorem int2asc_ten_digit_negative (num dec : Z) (buf : chars) :
  -2147483648 < num <= -1000000000 ->
  (exists b, digits_loop 10 dec 1000000000 (- num) 9 0 (clear_buf 12 0 buf) = Some b /\
             blank_zeros 0 0 b = Some (0, b) /\
             forall fuel, move_left fuel (-1) 0 (poke b (-1) 45) = None) /\
  forall fuel, int2asc fuel num dec buf = None.
Proof.
  intros Hr.
  assert (Hn10 : 0 <= - num < 10 ^ Z.of_nat 10)
    by (change (10 ^ Z.of_nat 10) with 10000000000; lia).
  assert (D : forall fuel,
             digits_loop fuel dec 1000000000 (- num) 9 0 (clear_buf 12 0 buf)
             = if (10 <=? fuel)%nat
               then Some (put (clear_buf 12 0 buf) 0 (digits_point 10 dec (- num)))
               else None).
  { intros fuel.
    change (digits_loop fuel dec 1000000000 (- num) 9 0)
      with (digits_loop fuel dec (divisor 10) (- num) (Z.of_nat 10 - 1) 0).
    by rewrite digits_loop_spec by lia. }
  set (b := put (clear_buf 12 0 buf) 0 (digits_point 10 dec (- num))) in D.
  assert (B0 : b 0 <> 48).
  { subst b. cbn [digits_point put]. rewrite put_out by lia. unfold poke.
    change (0 =? 0) with true. cbv iota. change (10 ^ Z.of_nat 9) with 1000000000.
    assert (1 <= - num / 1000000000) by (apply Z.div_le_lower_bound; lia). lia. }
  assert (B1 : forall fuel, blank_zeros fuel 0 b = Some (0, b)).
  { intros fuel. destruct fuel; cbn [blank_zeros];
      (destruct (Z.eqb_spec (b 0) 48); [contradiction|reflexivity]). }
  assert (M : forall fuel, move_left fuel (-1) 0 (poke b (-1) 45) = None).
  { intros fuel. apply move_left_runaway; reflexivity. }
  split.
  - exists b. split; [exact (D 10%nat)|]. split; [apply B1|exact M].
  - intros fuel. unfold int2asc.
    assert (T : truthy num = true) by (apply truthy_true; lia). rewrite T. cbn [negb]. cbv zeta.
    destruct (Z.ltb_spec num 0); [|lia].
    replace (num * -1) with (- num) by lia. rewrite int32_id by lia.
    rewrite D. destruct (10 <=? fuel)%nat; [|reflexivity].
    rewrite B1. change (int16 (0 - 1)) with (-1). by rewrite M.
Qed.

Lemma int2asc_ten_digit_negative_witness :
  int2asc 100 (-1000000000) (-1) (fun _ => 0) = None /\
  forall fuel, int2asc fuel (-1000000000) (-1) (fun _ => 0) = None.
Proof.
  pose proof (proj2 (int2asc_ten_digit_negative (-1000000000) (-1) (fun _ => 0) ltac:(lia)))
    as H.
  split; [apply H|exact H].
Defined.

(* ================================================================== *)
(** * Supply voltage *)

Lemma adc_v_table :
  forallb (fun a => adc_v a =? a * 300 / 1024) (map Z.of_nat (seq 0 1024)) = true.
Proof. vm_compute. reflexivity. Qed.

(** X15.  The supply voltage [main] hands to the display is exact: for
    every converter reading it is the reading times 300 / 1024, rounded
    down, that is the input voltage of the 6 : 1 divider in tenths of a
    volt; no rounding of the [double] arithmetic shows.  [show_voltage]
    compares this value in tenths with 10, 11 and 13: every supply
    voltage from 1.3 V on is shown in light green. *)
Theorem adc_v_exact (adc6 fcolor : Z) :
  0 <= adc6 <= 1023 ->
  adc_v adc6 = adc6 * 300 / 1024 /\
  (45 <= adc6 -> show_voltage_fcolor fcolor (adc_v adc6) = LIGHTGREEN).
Proof.
  intros H.
  assert (E : adc_v adc6 = adc6 * 300 / 1024).
  { pose proof adc_v_table as T. rewrite forallb_forall in T.
    apply Z.eqb_eq, T. apply in_map_iff. exists (Z.to_nat adc6).
    split; [lia|]. apply in_seq. lia. }
  split; [exact E|]. intros H45. rewrite E.
  assert (13 <= adc6 * 300 / 1024) by (apply Z.div_le_lower_bound; lia).
  unfold show_voltage_fcolor. cbv zeta.
  destruct (Z.geb_spec (adc6 * 300 / 1024) 13); [reflexivity|lia].
Qed.

Lemma adc_v_exact_witness :
  adc_v 471 = 137 /\ show_voltage_fcolor 0 (adc_v 471) = LIGHTGREEN.
Proof.
  destruct (adc_v_exact 471 0 ltac:(lia)) as [A B]. split; [exact A|]. apply B. lia.
Defined.

(* ================================================================== *)
(** * Split operation *)

Lemma get_adc_trace (env : environment) (ch : Z) (s : state) :
  trace (snd (get_adc env ch s)) = trace s /\ settings (snd (get_adc env ch s)) = settings s.
Proof.
  pose proof (get_adc_config env ch s) as H. split; [|by apply settings_of_config].
  apply config_vars_fields in H. tauto.
Qed.

Lemma tuned_for_settings (split txrx : Z) (s s' : state) :
  settings s' = settings s -> trace s' = trace s ->
  tuned_for split txrx s -> tuned_for split txrx s'.
Proof.
  unfold settings, tuned_for, vfo_in_use, f_vfo_at. intros H T.
  injection H as H1 H2 H3 H4 H5 H6 H7 H8 H9. rewrite T, H1, H2, H3, H4, H5. tauto.
Qed.

Lemma tuned_for_set (split txrx vfo : Z) (s : state) :
  vfo = vfo_in_use split txrx s -> tuned_for split txrx (set_dds_for_vfo vfo s).
Proof. intros ->. reflexivity. Qed.

(** X16.  The TX/RX check of the main loop keeps the DDS on the VFO in
    use.  In split mode it programs the DDS for the other VFO when the
    transmit line goes high and for the current VFO when it goes low again,
    also when the line changes between its two conversions; without split
    it never programs the DDS.  No setting is changed, and the new TX/RX
    state follows the second conversion. *)
Theorem txrx_check_keeps_dds_tuned (env : environment) (split txrx : Z) (s : state) :
  0 <= cur_vfo s <= 1 -> 0 <= txrx <= 1 ->
  let a1 := adc (env (adc_count s)) 7 mod 1024 in
  let a2 := adc (env (S (adc_count s))) 7 mod 1024 in
  let txrx' := fst (txrx_check env split txrx s) in
  let s' := snd (txrx_check env split txrx s) in
  txrx' = (if a2 >? 1000 then if a1 >? 1000 then 1 else txrx else 0) /\
  settings s' = settings s /\
  (tuned_for split txrx s -> tuned_for split txrx' s') /\
  (split = 0 -> trace s' = trace s).
Proof.
  intros Hv Ht a1 a2 txrx' s'. subst txrx' s'. unfold txrx_check.
  destruct (get_adc_trace env 7 s) as [T1 S1].
  destruct (get_adc_runs_on env 7 s) as [_ A1].
  assert (E1 : fst (get_adc env 7 s) = a1) by reflexivity.
  destruct (get_adc env 7 s) as [a1' s1]. cbn [fst snd] in *. subst a1'.
  assert (V1 : cur_vfo s1 = cur_vfo s).
  { unfold settings in S1. by injection S1 as ? _ _ _ _ _ _ _ _. }
  set (r := if a1 >? 1000 then _ else _).
  assert (R : fst r = (if a1 >? 1000 then 1 else txrx) /\
              settings (snd r) = settings s /\
              (tuned_for split txrx s -> tuned_for split (fst r) (snd r)) /\
              (split = 0 -> trace (snd r) = trace s) /\
              adc_count (snd r) = adc_count s1).
  { subst r. destruct (a1 >? 1000); cbn [fst snd].
    2: { split; [reflexivity|]. split; [exact S1|].
         split; [by apply tuned_for_settings|]. split; [by intros _|reflexivity]. }
    assert (C : txrx = 0 \/ txrx = 1) by lia. destruct C as [-> | ->].
    2: { cbn [fst snd]. split; [reflexivity|]. split; [exact S1|].
         split; [by apply tuned_for_settings|]. split; [by intros _|reflexivity]. }
    change (negb (truthy 0)) with true. cbv iota. cbn [fst snd].
    split; [reflexivity|].
    destruct (truthy split) eqn:Sp.
    - assert (Sp0 : split <> 0) by (by apply truthy_true).
      destruct (Z.eqb_spec (cur_vfo s1) 0) as [E|E];
        (split; [by rewrite <- S1|]; split; [|split; [intros ->; contradiction|reflexivity]];
         intros _; apply tuned_for_set; unfold vfo_in_use; rewrite Sp; cbn; lia).
    - split; [exact S1|]. split; [|split; [by intros _|reflexivity]].
      intros H. eapply tuned_for_settings; [exact S1|exact T1|].
      revert H. unfold tuned_for, vfo_in_use. by rewrite Sp. }
  destruct r as [t1 s2]. cbn [fst snd] in R. destruct R as (R1 & R2 & R3 & R4 & R5).
  destruct (get_adc_trace env 7 s2) as [T3 S3].
  assert (E2 : fst (get_adc env 7 s2) = a2).
  { unfold get_adc. cbn [fst]. rewrite R5, A1. reflexivity. }
  destruct (get_adc env 7 s2) as [a2' s3]. cbn [fst snd] in *. subst a2'.
  assert (V3 : cur_vfo s3 = cur_vfo s).
  { rewrite R2 in S3. unfold settings in S3. by injection S3 as ? _ _ _ _ _ _ _ _. }
  assert (S3' : settings s3 = settings s) by congruence.
  assert (K : tuned_for split txrx s -> tuned_for split t1 s3).
  { intros H. eapply tuned_for_settings; [exact S3|exact T3|]. by apply R3. }
  destruct (a2 >? 1000); cbn [negb fst snd].
  { split; [exact R1|]. split; [exact S3'|]. split; [exact K|]. intros Z0. etrans; [exact T3|by apply R4]. }
  assert (C : t1 = 0 \/ t1 = 1) by (destruct (a1 >? 1000); lia). destruct C as [-> | ->].
  { cbn [fst snd]. split; [reflexivity|]. split; [exact S3'|]. split; [exact K|].
    intros Z0. etrans; [exact T3|by apply R4]. }
  change (truthy 1) with true. cbv iota. cbn [fst snd]. split; [reflexivity|].
  destruct (truthy split) eqn:Sp.
  - assert (Sp0 : split <> 0) by (by apply truthy_true).
    destruct (Z.eqb_spec (cur_vfo s3) 0) as [E|E];
      (split; [by rewrite <- S3'|]; split; [|intros ->; contradiction];
       intros _; apply tuned_for_set; unfold vfo_in_use; rewrite Sp; cbn; lia).
  - split; [exact S3'|]. split; [|intros Z0; etrans; [exact T3|by apply R4]].
    intros H. specialize (K H). revert K. unfold tuned_for, vfo_in_use. by rewrite Sp.
Qed.

Lemma txrx_check_keeps_dds_tuned_witness :
  let s := load_start_values (power_on ∅) in
  fst (txrx_check ptt_down 1 0 s) = 1 /\
  tuned_for 1 1 (snd (txrx_check ptt_down 1 0 s)) /\
  dds_frequency (trace (snd (txrx_check ptt_down 1 0 s))) = Some (14280000 + 9001800).
Proof.
  intros s.
  destruct (txrx_check_keeps_dds_tuned ptt_down 1 0 s ltac:(vm_compute; split; discriminate)
              ltac:(lia)) as (A & _ & B & _).
  split; [exact A|]. split; [|vm_compute; reflexivity].
  rewrite <- A at 1. apply B. vm_compute. reflexivity.
Defined.

(* ================================================================== *)
(** * Fast QSY round the bands *)

Lemma fast_qsy_shape (s : state) :
  0 <= cur_band s <= 4 -> cur_vfo s = 0 \/ cur_vfo s = 1 -> length (f_vfo s) = 10%nat ->
  let b := if cur_band s <? 4 then cur_band s + 1 else 0 in
  exists x,
    radio_vars x = radio_vars (set_PORTD (PORTD x) (set_cur_band b s)) /\
    fast_qsy s
    = mcp4725_set_value (aget (tx_preset s) b)
        (eeprom_write_byte OFF_LAST_BAND_USED b
           (set_dds_vfo (set_f_vfo_at b (cur_vfo s) (checked_frequency (cur_vfo s) b s) x))).
Proof.
  intros Hb Hv Hlen b. unfold fast_qsy. cbv zeta. unfold MAXBANDS. change (5 - 1) with 4.
  assert (Hb' : 0 <= b <= 4) by (unfold b; destruct (Z.ltb_spec (cur_band s) 4); lia).
  assert (E : (if cur_band s <? 4 then set_cur_band (int16 (cur_band s + 1)) s
               else set_cur_band 0 s) = set_cur_band b s).
  { unfold b. destruct (Z.ltb_spec (cur_band s) 4); [|reflexivity].
    rewrite int16_id by lia. reflexivity. }
  rewrite E. clear E. change (cur_band (set_cur_band b s)) with b.
  destruct (set_band_vars b (set_cur_band b s) ltac:(lia)) as [Hx Ht].
  revert Hx Ht. generalize (set_band b (set_cur_band b s)). intros x Hx Ht.
  assert (Hcb : cur_band x = b) by (unfold radio_vars in Hx; state_simpl in Hx; congruence).
  assert (Hcv : cur_vfo x = cur_vfo s) by (unfold radio_vars in Hx; state_simpl in Hx; congruence).
  assert (He : eeprom x = eeprom s) by (unfold radio_vars in Hx; state_simpl in Hx; congruence).
  assert (Hp : tx_preset x = tx_preset s)
    by (unfold radio_vars in Hx; state_simpl in Hx; congruence).
  assert (Hl : length (f_vfo x) = 10%nat)
    by (unfold radio_vars in Hx; state_simpl in Hx; congruence).
  rewrite Hcb, Hcv.
  change (cur_band (set_f_vfo_at b (cur_vfo s) (load_frequency (cur_vfo s) b x) x))
    with (cur_band x).
  change (cur_vfo (set_f_vfo_at b (cur_vfo s) (load_frequency (cur_vfo s) b x) x))
    with (cur_vfo x).
  rewrite Hcb, Hcv.
  rewrite (store_checked_test_after b (cur_vfo s) s x Hb' Hv Hl He).
  exists x. split; [exact Hx|]. state_simpl. rewrite Hcb, Hp. reflexivity.
Qed.

Lemma fast_qsy_step (s : state) :
  0 <= cur_band s <= 4 -> cur_vfo s = 0 \/ cur_vfo s = 1 -> length (f_vfo s) = 10%nat ->
  let b := (cur_band s + 1) mod 5 in
  let s' := fast_qsy s in
  cur_band s' = b /\ cur_vfo s' = cur_vfo s /\ sideband s' = sideband s /\
  length (f_vfo s') = 10%nat /\
  (forall a, a <> 0 -> eeprom_read_byte s' a = eeprom_read_byte s a) /\
  f_vfo_at s' b (cur_vfo s) = checked_frequency (cur_vfo s) b s.
Proof.
  intros Hb Hv Hlen b s'.
  assert (Eb : b = if cur_band s <? 4 then cur_band s + 1 else 0).
  { subst b. destruct (Z.ltb_spec (cur_band s) 4).
    - apply Z.mod_small. lia.
    - replace (cur_band s) with 4 by lia. reflexivity. }
  assert (Hb' : 0 <= b <= 4) by (subst b; pose proof (Z.mod_pos_bound (cur_band s + 1) 5); lia).
  destruct (fast_qsy_shape s Hb Hv Hlen) as (x & Hx & E). cbv zeta in Hx, E.
  rewrite <- Eb in Hx, E. subst s'. rewrite E.
  unfold radio_vars in Hx. state_simpl in Hx.
  injection Hx as X1 X2 X3 X4 X5 X6 X7 X8 X9 X10 X11 X12 X13.
  state_simpl. split; [exact X9|]. split; [exact X1|]. split; [exact X8|].
  split; [unfold aset; rewrite length_insert; congruence|].
  split.
  - intros a Ha. unfold OFF_LAST_BAND_USED. rewrite lookup_insert_ne by lia. by rewrite X12.
  - apply aget_aset_eq. rewrite X2, Hlen. lia.
Qed.

Lemma checked_frequency_reads (v b : Z) (s s' : state) :
  v = 0 \/ v = 1 -> 0 <= b <= 4 ->
  (forall a, a <> 0 -> eeprom_read_byte s' a = eeprom_read_byte s a) ->
  checked_frequency v b s' = checked_frequency v b s.
Proof.
  intros Hv Hb H. unfold checked_frequency.
  assert (E : load_frequency v b s' = load_frequency v b s).
  { apply load_frequency_reads. rewrite frequency_start_adr by assumption.
    intros a Ha. apply H. lia. }
  by rewrite E.
Qed.

Lemma presses_inv (s : state) :
  0 <= cur_band s <= 4 -> cur_vfo s = 0 \/ cur_vfo s = 1 -> length (f_vfo s) = 10%nat ->
  forall n,
    cur_band (presses n s) = (cur_band s + Z.of_nat n) mod 5 /\
    cur_vfo (presses n s) = cur_vfo s /\ sideband (presses n s) = sideband s /\
    length (f_vfo (presses n s)) = 10%nat /\
    (forall a, a <> 0 -> eeprom_read_byte (presses n s) a = eeprom_read_byte s a) /\
    ((0 < n)%nat ->
     f_vfo_at (presses n s) (cur_band (presses n s)) (cur_vfo s)
     = checked_frequency (cur_vfo s) (cur_band (presses n s)) s).
Proof.
  intros Hb Hv Hlen. induction n as [|n (I1 & I2 & I3 & I4 & I5 & _)].
  - cbn [presses]. rewrite Z.add_0_r, Z.mod_small by lia.
    split; [reflexivity|]. split; [reflexivity|]. split; [reflexivity|].
    split; [exact Hlen|]. split; [reflexivity|lia].
  - cbn [presses]. set (sn := presses n s) in *.
    assert (Bn : 0 <= cur_band sn <= 4)
      by (rewrite I1; pose proof (Z.mod_pos_bound (cur_band s + Z.of_nat n) 5); lia).
    destruct (fast_qsy_step sn Bn ltac:(by rewrite I2) I4) as (S1 & S2 & S3 & S4 & S5 & S6).
    assert (E : (cur_band sn + 1) mod 5 = (cur_band s + Z.of_nat (S n)) mod 5).
    { rewrite I1. rewrite Zplus_mod_idemp_l. f_equal. lia. }
    split; [by rewrite S1|]. split; [congruence|]. split; [congruence|].
    split; [exact S4|]. split; [intros a Ha; rewrite S5 by exact Ha; by apply I5|].
    intros _. rewrite S1. rewrite I2 in S6. rewrite S6.
    apply checked_frequency_reads; [exact Hv| |exact I5].
    pose proof (Z.mod_pos_bound (cur_band sn + 1) 5). lia.
Qed.

(** X17.  Fast QSY (key 4) steps through the five bands in a ring, keeps
    the VFO and the sideband variable, and writes nothing to the EEPROM but
    the band number in cell 0.  On every band it reaches, the frequency of
    the VFO in use is the one in the EEPROM, or the centre frequency when
    that is outside the band: after five presses the radio is back on its
    band, and a frequency that had been tuned there without being stored is
    gone. *)
Theorem fast_qsy_round_the_bands (s : state) (n : nat) :
  0 <= cur_band s <= 4 -> cur_vfo s = 0 \/ cur_vfo s = 1 -> length (f_vfo s) = 10%nat ->
  (0 < n)%nat ->
  let s' := presses n s in
  cur_band s' = (cur_band s + Z.of_nat n) mod 5 /\
  cur_vfo s' = cur_vfo s /\ sideband s' = sideband s /\
  (forall a, a <> 0 -> eeprom_read_byte s' a = eeprom_read_byte s a) /\
  f_vfo_at s' (cur_band s') (cur_vfo s) = checked_frequency (cur_vfo s) (cur_band s') s /\
  (n = 5%nat ->
   cur_band s' = cur_band s /\
   f_vfo_at s' (cur_band s) (cur_vfo s) = checked_frequency (cur_vfo s) (cur_band s) s).
Proof.
  intros Hb Hv Hlen Hn s'.
  destruct (presses_inv s Hb Hv Hlen n) as (I1 & I2 & I3 & I4 & I5 & I6). fold s' in I1, I2, I3, I4, I5, I6.
  split; [exact I1|]. split; [exact I2|]. split; [exact I3|]. split; [exact I5|].
  split; [by apply I6|]. intros ->.
  assert (E : cur_band s' = cur_band s).
  { rewrite I1. change (Z.of_nat 5) with (1 * 5). rewrite Z.mod_add by lia.
    apply Z.mod_small. lia. }
  split; [exact E|]. rewrite <- E. apply I6. lia.
Qed.

Lemma fast_qsy_round_the_bands_witness :
  let s := set_f_vfo_at 2 0 14250000 (load_start_values (power_on ∅)) in
  f_vfo_at s 2 0 = 14250000 /\
  cur_band (presses 5 s) = 2 /\ f_vfo_at (presses 5 s) 2 0 = 14180000.
Proof.
  intros s.
  destruct (fast_qsy_round_the_bands s 5 ltac:(vm_compute; split; discriminate)
              ltac:(left; reflexivity) ltac:(reflexivity) ltac:(lia))
    as (_ & _ & _ & _ & _ & H).
  destruct (H eq_refl) as [A B].
  split; [reflexivity|]. split; [exact A|]. exact B.
Defined.

(* ================================================================== *)
(** * The band relays *)





(* ================================================================== *)
(** * The LO divider of the Si5351 *)

Lemma holds_from_spec (p : Z -> bool) (n : nat) :
  forall lo, holds_from p lo n = true -> forall x, lo <= x < lo + Z.of_nat n -> p x = true.
Proof.
  induction n as [|n IH]; intros lo H x Hx; [lia|].
  cbn [holds_from] in H. apply andb_true_iff in H. destruct H as [H0 H1].
  destruct (Z.eq_dec x lo) as [->|N]; [exact H0|].
  apply (IH (lo + 1)); [exact H1|lia].
Qed.

Lemma divider_table : holds_from divider_ok 8990000 (Z.to_nat 20001) = true.
Proof. vm_cast_no_check (eq_refl true). Qed.

Lemma byte_at_16 (p : Z) : 0 <= p < 262144 -> Z.shiftr (Z.land p 196608) 16 = p / 65536.
Proof.
  intros H. rewrite Z.shiftr_land. change (Z.shiftr 196608 16) with (Z.ones 2).
  rewrite Z.land_ones by lia. rewrite Z.shiftr_div_pow2 by lia.
  change (2 ^ 16) with 65536. change (2 ^ 2) with 4.
  apply Z.mod_small. split; [apply Z.div_pos; lia|apply Z.div_lt_upper_bound; lia].
Qed.

Lemma nibble_at_16 (p : Z) :
  0 <= p < 1048576 -> Z.lor 240 (Z.shiftr (Z.land p 983040) 16) = 240 + p / 65536.
Proof.
  intros H. rewrite Z.shiftr_land. change (Z.shiftr 983040 16) with (Z.ones 4).
  rewrite Z.land_ones by lia. rewrite Z.shiftr_div_pow2 by lia.
  change (2 ^ 16) with 65536. change (2 ^ 4) with 16.
  assert (Q : 0 <= p / 65536 < 16)
    by (split; [apply Z.div_pos; lia|apply Z.div_lt_upper_bound; lia]).
  rewrite Z.mod_small by exact Q.
  assert (C : exists k, (k < 16)%nat /\ p / 65536 = Z.of_nat k)
    by (exists (Z.to_nat (p / 65536)); lia).
  destruct C as (k & Hk & ->).
  do 16 (destruct k as [|k]; [reflexivity|]). lia.
Qed.

Lemma byte_at_8 (p : Z) : 0 <= p -> Z.shiftr (Z.land p 65280) 8 = p / 256 mod 256.
Proof.
  intros H. rewrite Z.shiftr_land. change (Z.shiftr 65280 8) with (Z.ones 8).
  rewrite Z.land_ones by lia. rewrite Z.shiftr_div_pow2 by lia. reflexivity.
Qed.

Lemma byte_at_0 (p : Z) : 0 <= p -> Z.land p 255 = p mod 256.
Proof. intros H. change 255 with (Z.ones 8). by rewrite Z.land_ones by lia. Qed.

Lemma si5351_write_id (r v : Z) :
  0 <= r <= 255 -> 0 <= v <= 255 -> si5351_write (int16 r) (int16 v) = (r, v).
Proof.
  intros Hr Hv. unfold si5351_write. rewrite !int16_id by lia. by rewrite !uint8_id by lia.
Qed.

(** X19.  For every LO frequency within 10 kHz of 9 MHz, which covers
    the three frequencies of the firmware and a thousand steps of the LO
    dialog to either side, [si5351_set_freq] writes a well-formed divider:
    P1 fits its 18 bits and P2 its 20 bits, P3 is [c = 1048575], the eight
    registers hold them in the chip's layout, and
    [(P1 + 512 + P2 / P3) / 128] is the division factor [a + b / c] the
    function computed.  With the VCO at 900 MHz this factor gives the
    frequency asked for to within half a hertz. *)
Theorem si5351_set_freq_accuracy (synth freq : Z) :
  0 <= synth <= 248 -> 8990000 <= freq <= 9010000 ->
  let a := fst (si5351_divider freq) in
  let b := snd (si5351_divider freq) in
  let c := CFACTOR in
  exists p1 p2,
    si5351_set_freq_writes synth freq
    = [(synth, 255); (synth + 1, 255);
       (synth + 2, p1 / 65536); (synth + 3, p1 / 256 mod 256); (synth + 4, p1 mod 256);
       (synth + 5, 240 + p2 / 65536); (synth + 6, p2 / 256 mod 256); (synth + 7, p2 mod 256)] /\
    0 <= p1 < 262144 /\ 0 <= p2 < 1048576 /\
    (p1 + 512) * c + p2 = 128 * (a * c + b) /\
    0 <= b < c /\
    2 * Z.abs (900000000 * c - freq * (a * c + b)) <= a * c + b.
Proof.
  intros Hs Hf a b c.
  pose proof (holds_from_spec divider_ok _ _ divider_table freq ltac:(lia)) as T.
  unfold divider_ok in T. unfold si5351_set_freq_writes.
  subst a b. destruct (si5351_divider freq) as [a b]. cbn [fst snd]. fold c in T |- *.
  apply andb_true_iff in T as [T T5]. apply andb_true_iff in T as [T T4].
  apply andb_true_iff in T as [T T3]. apply andb_true_iff in T as [T1 T2].
  apply Z.leb_le in T1, T2, T3, T5. apply Z.ltb_lt in T4.
  assert (Hc : c = 1048575) by reflexivity.
  pose proof (Z.div_mod (128 * b) c ltac:(lia)) as D.
  pose proof (Z.mod_pos_bound (128 * b) c ltac:(lia)) as M.
  assert (Q : 0 <= 128 * b / c <= 127).
  { split; [apply Z.div_pos; lia|].
    assert (128 * b / c < 128) by (apply Z.div_lt_upper_bound; lia). lia. }
  unfold uint32.
  rewrite (Z.mod_small (128 * a)) by lia. rewrite (Z.mod_small (128 * b)) by lia.
  rewrite (Z.mod_small (128 * a + _)) by lia.
  rewrite (Z.mod_small (128 * a + _ - 512)) by lia.
  rewrite (Z.mod_small (c * _)) by nia.
  replace (128 * b - c * (128 * b / c)) with ((128 * b) mod c) by lia.
  rewrite (Z.mod_small ((128 * b) mod c)) by lia.
  set (p1 := 128 * a + 128 * b / c - 512). set (p2 := (128 * b) mod c).
  assert (P1 : 0 <= p1 < 262144) by (subst p1; lia).
  assert (P2 : 0 <= p2 < 1048576) by (subst p2; lia).
  exists p1, p2.
  rewrite byte_at_16, !byte_at_8, !byte_at_0, nibble_at_16 by lia.
  assert (0 <= p1 / 65536 < 4)
    by (split; [apply Z.div_pos; lia|apply Z.div_lt_upper_bound; lia]).
  assert (0 <= p2 / 65536 < 16)
    by (split; [apply Z.div_pos; lia|apply Z.div_lt_upper_bound; lia]).
  pose proof (Z.mod_pos_bound (p1 / 256) 256 ltac:(lia)).
  pose proof (Z.mod_pos_bound p1 256 ltac:(lia)).
  pose proof (Z.mod_pos_bound (p2 / 256) 256 ltac:(lia)).
  pose proof (Z.mod_pos_bound p2 256 ltac:(lia)).
  rewrite !si5351_write_id by lia.
  unfold si5351_write. rewrite !int16_id by lia. rewrite !(uint8_id synth), !(uint8_id (synth + 1)) by lia.
  split; [reflexivity|]. split; [exact P1|]. split; [exact P2|].
  split; [subst p1 p2; lia|]. split; [lia|exact T5].
Qed.

Lemma si5351_set_freq_accuracy_witness :
  si5351_divider 8998660 = (100, 15615) /\
  2 * Z.abs (900000000 * CFACTOR - 8998660 * (100 * CFACTOR + 15615))
  <= 100 * CFACTOR + 15615.
Proof.
  destruct (si5351_set_freq_accuracy 42 8998660 ltac:(lia) ltac:(lia))
    as (p1 & p2 & _ & _ & _ & _ & _ & H).
  split; [vm_compute; reflexivity|exact H].
Defined.

(* ================================================================== *)
(** * The radio in tune *)













(* ================================================================== *)
(** * Scanning: where a scan leaves the DDS *)

Lemma dds_at_same (fx : Z) (s s' : state) :
  trace s' = trace s -> f_lo s' = f_lo s -> sideband s' = sideband s ->
  dds_at fx s -> dds_at fx s'.
Proof. unfold dds_at. intros -> -> ->. tauto. Qed.

Lemma dds_at_config (fx : Z) (s s' : state) :
  config_vars s' = config_vars s -> dds_at fx s -> dds_at fx s'.
Proof.
  intros H. apply config_vars_fields in H.
  destruct H as (_ & _ & L & S & _ & _ & _ & _ & _ & _ & T). by apply dds_at_same.
Qed.

Lemma dds_at_get_keys (env : environment) (fx : Z) (s : state) :
  dds_at fx s -> dds_at fx (snd (get_keys env s)).
Proof. apply dds_at_config, get_keys_config. Qed.

Lemma dds_at_get_s_value (env : environment) (fx : Z) (s : state) :
  dds_at fx s -> dds_at fx (snd (get_s_value env s)).
Proof.
  unfold get_s_value. pose proof (get_adc_config env 1 s) as H.
  destruct (get_adc env 1 s) as [a s1]. cbn [snd] in *. by apply dds_at_config.
Qed.

Lemma dds_at_set (fx : Z) (s : state) :
  dds_at fx (set_frequency_ad9850 (int32 (fx + aget (f_lo s) (sideband s))) s).
Proof. reflexivity. Qed.

Lemma dds_at_manual_tuning (fx : Z) (s : state) :
  dds_at fx s -> dds_at (fst (manual_tuning fx s)) (snd (manual_tuning fx s)).
Proof.
  intros H. unfold manual_tuning.
  destruct (tune_frequency_vars fx s) as (_ & _ & _ & _ & _ & L & S & T).
  destruct (tune_frequency fx s) as [ftmp s1]. cbn [snd] in *.
  destruct (truthy ftmp); cbn [fst snd]; [apply dds_at_set|].
  by apply (dds_at_same fx s).
Qed.

Lemma f0f1_stopped_dds_at (env : environment) (fuel : nat) :
  forall fx key sval wait s fx' key' sval' wait' s',
    f0f1_stopped env fuel fx key sval wait s = Some (fx', key', sval', wait', s') ->
    dds_at fx s -> dds_at fx' s'.
Proof.
  induction fuel as [|fuel IH]; intros fx key sval wait s fx' key' sval' wait' s' H D;
    cbn [f0f1_stopped] in H;
    destruct ((sval >? thresh s) && negb (truthy key)); try discriminate;
    try (injection H as <- _ _ _ <-; exact D).
  pose proof (dds_at_get_s_value env fx s D) as A.
  destruct (get_s_value env s) as [sv s1]. cbn [snd] in A.
  pose proof (dds_at_get_keys env fx s1 A) as B.
  destruct (get_keys env s1) as [k s2]. cbn [snd] in B.
  pose proof (dds_at_manual_tuning fx s2 B) as C.
  destruct (manual_tuning fx s2) as [fx2 s3]. cbn [fst snd] in C.
  by apply IH in H.
Qed.

Lemma f0f1_waiting_dds_at (env : environment) (fuel : nat) :
  forall fx key r10 s fx' key' s',
    f0f1_waiting env fuel fx key r10 s = Some (fx', key', s') ->
    dds_at fx s -> dds_at fx' s'.
Proof.
  induction fuel as [|fuel IH]; intros fx key r10 s fx' key' s' H D;
    cbn [f0f1_waiting] in H;
    destruct (int32 (r10 + 30) >? runseconds10 s); try discriminate;
    try (injection H as <- _ <-; exact D).
  pose proof (dds_at_get_keys env fx s D) as B.
  destruct (get_keys env s) as [k s2]. cbn [snd] in B.
  pose proof (dds_at_manual_tuning fx s2 B) as C.
  destruct (manual_tuning fx s2) as [fx2 s3]. cbn [fst snd] in C.
  by apply IH in H.
Qed.

Lemma f0f1_resume_dds_at (env : environment) (fuel : nat) (fx key wait : Z) (s : state)
      (r : pass (Z * Z)) (s' : state) :
  f0f1_resume env fuel fx key wait s = Some (r, s') -> dds_at fx s -> pass_on r s'.
Proof.
  unfold f0f1_resume. cbv zeta. intros H D.
  assert (W : forall x, (if truthy wait then f0f1_waiting env fuel fx key (runseconds10 s) s
                         else Some (fx, key, s)) = Some x -> dds_at (fst (fst x)) (snd x)).
  { intros [[a b] c]. cbn [fst snd]. destruct (truthy wait); intros E.
    - by apply f0f1_waiting_dds_at in E.
    - by injection E as <- _ <-. }
  destruct (if truthy wait then f0f1_waiting env fuel fx key (runseconds10 s) s
            else Some (fx, key, s)) as [[[fx1 k1] s1]|]; [|discriminate].
  specialize (W _ eq_refl). cbn [fst snd] in W.
  pose proof (dds_at_manual_tuning fx1 s1 W) as C.
  destruct (manual_tuning fx1 s1) as [fx2 s2]. cbn [fst snd] in C.
  destruct (k1 =? 2); [injection H as <- <-; exists fx2; split; [exact C|by left]|].
  destruct (k1 =? 3); injection H as <- <-; exists fx2; (split; [exact C|]);
    [by right|reflexivity].
Qed.

Lemma f0f1_pass_dds_at (env : environment) (fuel : nat) (fx wait : Z) (s : state)
      (r : pass (Z * Z)) (s' : state) :
  f0f1_pass env fuel fx wait s = Some (r, s') -> pass_on r s'.
Proof.
  unfold f0f1_pass. intros H.
  destruct (get_keys env s) as [k s1].
  pose proof (dds_at_set fx s1) as B. revert B H.
  generalize (set_frequency_ad9850 (int32 (fx + aget (f_lo s1) (sideband s1))) s1).
  intros s2 B H.
  pose proof (dds_at_get_s_value env fx s2 B) as C.
  destruct (get_s_value env s2) as [sv s3]. cbn [snd] in C.
  destruct (f0f1_stopped env fuel fx k sv wait s3) as [[[[[fx4 k4] sv4] w4] s4]|] eqn:E;
    [|discriminate].
  apply f0f1_stopped_dds_at in E; [|exact C].
  by apply f0f1_resume_dds_at in H.
Qed.

Lemma f0f1_sweep_dds_at (env : environment) (fuel : nat) :
  forall f1 fx key wait s r s',
    f0f1_sweep env fuel f1 fx key wait s = Some (r, s') ->
    match r with
    | inl v => exists fx', dds_at fx' s' /\ (v = fx' \/ v = 0)
    | inr (k, _) => k = key \/ k = 0
    end.
Proof.
  induction fuel as [|fuel IH]; intros f1 fx key wait s r s' H; cbn [f0f1_sweep] in H;
    destruct (fx <? f1); try discriminate; try (injection H as <- _; by left).
  destruct (f0f1_pass env fuel fx wait s) as [[[v|[fx1 w1]] s1]|] eqn:E; [| |discriminate].
  - injection H as <- <-. apply f0f1_pass_dds_at in E. exact E.
  - apply IH in H. destruct r as [v|[k w]]; [exact H|]. destruct H; by right.
Qed.

Lemma f0f1_scan_dds_at (env : environment) (fuel : nat) :
  forall f0 f1 key wait s r s',
    f0f1_scan env fuel f0 f1 key wait s = Some (r, s') -> key <> 2 ->
    exists fx, dds_at fx s' /\ (r = fx \/ r = 0).
Proof.
  induction fuel as [|fuel IH]; intros f0 f1 key wait s r s' H K; cbn [f0f1_scan] in H;
    (destruct (Z.eqb_spec key 2); [contradiction|]); cbn [negb] in H; [discriminate|].
  destruct (f0f1_sweep env fuel f1 f0 key wait s) as [[[v|[k1 w1]] s1]|] eqn:E; [| |discriminate].
  - injection H as <- <-. apply f0f1_sweep_dds_at in E. exact E.
  - apply f0f1_sweep_dds_at in E. apply IH in H; [exact H|]. destruct E; lia.
Qed.

(* ------------------------------------------------------------------ *)

Lemma dds_at_manual_tuning_vfo (t1 : Z) (s : state) :
  dds_at (f_vfo_at s (cur_band s) t1) s ->
  let s' := snd (manual_tuning_vfo t1 s) in
  dds_at (f_vfo_at s' (cur_band s') t1) s' /\ cur_band s' = cur_band s.
Proof.
  intros H. unfold manual_tuning_vfo.
  destruct (tune_frequency_vars (f_vfo_at s (cur_band s) t1) s) as (_ & _ & _ & B & F & L & S & T).
  destruct (tune_frequency (f_vfo_at s (cur_band s) t1) s) as [ftmp s1]. cbn [snd] in *.
  destruct (truthy ftmp); cbn [snd].
  - split; reflexivity || exact B.
  - split; [|exact B]. unfold f_vfo_at. rewrite F, B.
    by apply (dds_at_same _ s).
Qed.

Lemma dds_at_vfo_config (t1 : Z) (s s' : state) :
  config_vars s' = config_vars s ->
  dds_at (f_vfo_at s (cur_band s) t1) s ->
  dds_at (f_vfo_at s' (cur_band s') t1) s' /\ cur_band s' = cur_band s.
Proof.
  intros H D. pose proof (dds_at_config _ _ _ H D) as D'.
  apply config_vars_fields in H. destruct H as (_ & F & _ & _ & B & _).
  unfold f_vfo_at in *. rewrite F, B. split; [exact D'|reflexivity].
Qed.

Lemma get_s_value_config (env : environment) (s : state) :
  config_vars (snd (get_s_value env s)) = config_vars s.
Proof.
  unfold get_s_value. pose proof (get_adc_config env 1 s) as H.
  destruct (get_adc env 1 s) as [a s1]. exact H.
Qed.

Lemma vfo_stopped_dds_at (env : environment) (fuel : nat) (t1 : Z) :
  forall key sval s r s',
    vfo_stopped env fuel t1 key sval s = Some (r, s') ->
    dds_at (f_vfo_at s (cur_band s) t1) s ->
    dds_at (f_vfo_at s' (cur_band s') t1) s' /\ cur_band s' = cur_band s.
Proof.
  induction fuel as [|fuel IH]; intros key sval s r s' H D; cbn [vfo_stopped] in H;
    destruct ((sval >? thresh s) && negb (truthy key)); try discriminate;
    try (injection H as _ <-; split; [exact D|reflexivity]).
  destruct (dds_at_vfo_config t1 s _ (get_s_value_config env s) D) as [A A'].
  destruct (get_s_value env s) as [sv s1]. cbn [snd] in A, A'.
  destruct (dds_at_vfo_config t1 s1 _ (get_keys_config env s1) A) as [B B'].
  destruct (get_keys env s1) as [k s2]. cbn [snd] in B, B'.
  destruct (dds_at_manual_tuning_vfo t1 s2 B) as [C C'].
  destruct (manual_tuning_vfo t1 s2) as [fl s3]. cbn [snd] in C, C'.
  apply IH in H; [|exact C]. destruct H as [H H']. split; [exact H|congruence].
Qed.

Lemma vfo_waiting_dds_at (env : environment) (fuel : nat) (t1 : Z) :
  forall key r10 s r s',
    vfo_waiting env fuel t1 key r10 s = Some (r, s') ->
    dds_at (f_vfo_at s (cur_band s) t1) s ->
    dds_at (f_vfo_at s' (cur_band s') t1) s' /\ cur_band s' = cur_band s.
Proof.
  induction fuel as [|fuel IH]; intros key r10 s r s' H D; cbn [vfo_waiting] in H;
    destruct (int32 (r10 + 30) >? runseconds10 s); try discriminate;
    try (injection H as _ <-; split; [exact D|reflexivity]).
  destruct (dds_at_vfo_config t1 s _ (get_keys_config env s) D) as [B B'].
  destruct (get_keys env s) as [k s2]. cbn [snd] in B, B'.
  destruct (dds_at_manual_tuning_vfo t1 s2 B) as [C C'].
  destruct (manual_tuning_vfo t1 s2) as [fl s3]. cbn [snd] in C, C'.
  apply IH in H; [|exact C]. destruct H as [H H']. split; [exact H|congruence].
Qed.

Lemma vfo_pass_dds_at (env : environment) (fuel : nat) (t1 : Z) (s : state)
      (r : pass unit) (s' : state) :
  vfo_pass env fuel t1 s = Some (r, s') ->
  dds_at (f_vfo_at s' (cur_band s') t1) s' /\
  match r with
  | Return v => v = int32 (int32 (Z.shiftl t1 28) + f_vfo_at s' (cur_band s') t1) \/ v = 0
  | Next _ => True
  end.
Proof.
  unfold vfo_pass. intros H.
  destruct (get_keys env s) as [k s1].
  assert (B : dds_at (f_vfo_at s1 (cur_band s1) t1)
                (set_frequency_ad9850
                   (int32 (f_vfo_at s1 (cur_band s1) t1 + aget (f_lo s1) (sideband s1))) s1))
    by reflexivity.
  assert (B' : forall x, f_vfo_at (set_frequency_ad9850 x s1) (cur_band (set_frequency_ad9850 x s1)) t1
                         = f_vfo_at s1 (cur_band s1) t1) by reflexivity.
  rewrite <- (B' (int32 (f_vfo_at s1 (cur_band s1) t1 + aget (f_lo s1) (sideband s1)))) in B at 1.
  clear B'. revert B H.
  generalize (set_frequency_ad9850
                (int32 (f_vfo_at s1 (cur_band s1) t1 + aget (f_lo s1) (sideband s1))) s1).
  intros s2 B H.
  destruct (dds_at_vfo_config t1 s2 _ (get_s_value_config env s2) B) as [C _].
  destruct (get_s_value env s2) as [sv s3]. cbn [snd] in C.
  destruct (vfo_stopped env fuel t1 k sv s3) as [[[k4 sv4] s4]|] eqn:E; [|discriminate].
  apply vfo_stopped_dds_at in E; [|exact C]. destruct E as [E _].
  unfold vfo_resume in H.
  destruct (vfo_waiting env fuel t1 k4 (runseconds10 s4) s4) as [[k5 s5]|] eqn:W; [|discriminate].
  apply vfo_waiting_dds_at in W; [|exact E]. destruct W as [W _].
  destruct (dds_at_manual_tuning_vfo t1 s5 W) as [M _].
  destruct (manual_tuning_vfo t1 s5) as [fl s6]. cbn [snd] in M.
  destruct (k5 =? 2); [injection H as <- <-; split; [exact M|by left]|].
  destruct (k5 =? 3); injection H as <- <-; (split; [exact M|]); [by right|exact I].
Qed.

Lemma vfo_sweep_dds_at (env : environment) (fuel : nat) :
  forall t1 key s r s',
    vfo_sweep env fuel t1 key s = Some (r, s') -> 0 <= t1 ->
    match r with
    | inl v => exists t, 0 <= t <= 1 /\ dds_at (f_vfo_at s' (cur_band s') t) s' /\
                         (v = int32 (int32 (Z.shiftl t 28) + f_vfo_at s' (cur_band s') t) \/ v = 0)
    | inr k => k = key \/ k = 0
    end.
Proof.
  induction fuel as [|fuel IH]; intros t1 key s r s' H Ht; cbn [vfo_sweep] in H;
    destruct (Z.ltb_spec t1 2); try discriminate; try (injection H as <- _; by left).
  destruct (vfo_pass env fuel t1 s) as [[[v|u] s1]|] eqn:E; [| |discriminate].
  - injection H as <- <-. apply vfo_pass_dds_at in E. destruct E as [E1 E2].
    exists t1. split; [lia|]. split; assumption.
  - apply IH in H; [|rewrite int16_id by lia; lia].
    destruct r as [v|k]; [exact H|]. destruct H; by right.
Qed.

Lemma vfo_scan_dds_at (env : environment) (fuel : nat) :
  forall key s r s',
    vfo_scan env fuel key s = Some (r, s') -> key <> 2 ->
    exists t, 0 <= t <= 1 /\ dds_at (f_vfo_at s' (cur_band s') t) s' /\
              (r = int32 (int32 (Z.shiftl t 28) + f_vfo_at s' (cur_band s') t) \/ r = 0).
Proof.
  induction fuel as [|fuel IH]; intros key s r s' H K; cbn [vfo_scan] in H;
    (destruct (Z.eqb_spec key 2); [contradiction|]); cbn [negb] in H; [discriminate|].
  destruct (vfo_sweep env fuel 0 key s) as [[[v|k1] s1]|] eqn:E; [| |discriminate].
  - injection H as <- <-. apply vfo_sweep_dds_at in E; [exact E|lia].
  - apply vfo_sweep_dds_at in E; [|lia]. apply IH in H; [exact H|]. destruct E; lia.
Qed.

Lemma is_mem_freq_ok_0 (b : Z) : 0 <= b <= 4 -> is_mem_freq_ok 0 b = false.
Proof.
  intros H. assert (C : b = 0 \/ b = 1 \/ b = 2 \/ b = 3 \/ b = 4) by lia.
  destruct C as [-> | [-> | [-> | [-> | ->]]]]; reflexivity.
Qed.

(** X21.  When a scan returns, the DDS is on the frequency the scan
    probed last: for [scan_f0_f1] the frequency it returns, unless it
    returns 0, and for [scan_vfoa_vfob] the frequency of the VFO it was
    on.  [main] programs the DDS again only for a result it accepts.
    After an aborted scan (result 0), and after an F0-F1 result outside the
    band, it changes nothing: the VFO variables are as before the scan
    while the DDS stays where the scan left it, so the radio is in tune
    only if that happens to be the frequency of the VFO in use. *)
Theorem scan_leaves_dds_on_probe (env : environment) (fuel : nat) (wait0 : Z) (s : state) :
  (forall r s',
      scan_f0_f1 env fuel wait0 s = Some (r, s') ->
      exists fx,
        dds_at fx s' /\ (r = fx \/ r = 0) /\
        (is_mem_freq_ok r (cur_band s') = true -> dds_in_tune (menu_scan_result r s')) /\
        (is_mem_freq_ok r (cur_band s') = false ->
         menu_scan_result r s' = s' /\
         (dds_in_tune s' <-> dds_at (f_vfo_at s' (cur_band s') (cur_vfo s')) s')) /\
        (r = 0 -> 0 <= cur_band s' <= 4 -> menu_scan_result r s' = s')) /\
  (forall r s',
      scan_vfoa_vfob env fuel s = Some (r, s') ->
      exists t,
        0 <= t <= 1 /\ dds_at (f_vfo_at s' (cur_band s') t) s' /\
        (r = int32 (int32 (Z.shiftl t 28) + f_vfo_at s' (cur_band s') t) \/ r = 0) /\
        (r = 0 ->
         menu_scan_vfo_result r s' = s' /\
         (dds_in_tune s' <-> dds_at (f_vfo_at s' (cur_band s') (cur_vfo s')) s'))).
Proof.
  split; intros r s' H.
  - unfold scan_f0_f1 in H. cbv zeta in H.
    assert (G : exists fx, dds_at fx s' /\ (r = fx \/ r = 0)).
    { destruct (f_vfo_at s (cur_band s) 0 >? f_vfo_at s (cur_band s) 1);
        (destruct (release_keys env fuel s) as [s1|]; [|discriminate]);
        apply f0f1_scan_dds_at in H; (exact H || lia). }
    destruct G as (fx & D & R). exists fx. split; [exact D|]. split; [exact R|].
    unfold menu_scan_result. split; [|split].
    + intros E. rewrite E. reflexivity.
    + intros E. rewrite E. split; [reflexivity|]. unfold dds_in_tune, dds_at. tauto.
    + intros -> Hb. by rewrite is_mem_freq_ok_0.
  - unfold scan_vfoa_vfob in H.
    destruct (release_keys env fuel s) as [s1|]; [|discriminate].
    apply vfo_scan_dds_at in H; [|lia]. destruct H as (t & Ht & D & R).
    exists t. split; [exact Ht|]. split; [exact D|]. split; [exact R|].
    intros ->. split; [reflexivity|]. unfold dds_in_tune, dds_at. tauto.
Qed.

Lemma scan_leaves_dds_on_probe_witness :
  let s := load_start_values (power_on ∅) in
  exists s',
    scan_f0_f1 abort_on_second 10 0 s = Some (0, s') /\
    f_vfo_at s' (cur_band s') (cur_vfo s') = 14180000 /\
    dds_at 14180100 s' /\ menu_scan_result 0 s' = s' /\ ~ dds_in_tune s'.
Proof.
  intros s.
  destruct (scan_f0_f1 abort_on_second 10 0 s) as [[r s']|] eqn:E;
    [|vm_compute in E; discriminate E].
  assert (R : r = 0) by (vm_compute in E; congruence).
  assert (F : f_vfo_at s' (cur_band s') (cur_vfo s') = 14180000)
    by (vm_compute in E; injection E as _ <-; reflexivity).
  assert (T : dds_at 14180100 s') by (vm_compute in E; injection E as _ <-; reflexivity).
  assert (B : is_mem_freq_ok r (cur_band s') = false)
    by (vm_compute in E; injection E as <- <-; reflexivity).
  destruct (proj1 (scan_leaves_dds_on_probe abort_on_second 10 0 s) r s' E)
    as (fx & _ & _ & _ & H & _).
  destruct (H B) as [H1 H2]. subst r.
  exists s'. split; [reflexivity|]. split; [exact F|]. split; [exact T|]. split; [exact H1|].
  intros I. apply (proj1 H2) in I. unfold dds_at in T, I. rewrite F in I. rewrite I in T.
  vm_compute in E. injection E as <-. vm_compute in T. discriminate T.
Defined.

(* ================================================================== *)
(** * The LO dialog: where it leaves the oscillators *)

(** What the dialog keeps while it runs, for the sideband [sb] it
    adjusts: the DDS as it was programmed, the LO on the frequency of
    [sb], and the VFO variables. *)
Lemma lo_loop_oscillators (env : environment) (fuel : nat) (sb : Z) :
  forall key s key' s',
    lo_loop env fuel key sb s = Some (key', s') ->
    lo_frequency (trace s) = Some (aget (f_lo s) sb) ->
    lo_frequency (trace s') = Some (aget (f_lo s') sb) /\
    dds_frequency (trace s') = dds_frequency (trace s) /\
    (cur_vfo s', f_vfo s', sideband s', cur_band s')
    = (cur_vfo s, f_vfo s, sideband s, cur_band s) /\
    length (f_lo s') = length (f_lo s).
Proof.
  induction fuel as [|fuel IH]; intros key s key' s' H L; cbn [lo_loop] in H;
    destruct (negb (truthy key)); try discriminate;
    try (injection H as _ <-; split; [exact L|]; split; [reflexivity|]; split; reflexivity).
  set (s1 := if tuningknob s >? 2 then _ else s) in H.
  assert (A1 : lo_frequency (trace s1) = Some (aget (f_lo s1) sb) /\
               dds_frequency (trace s1) = dds_frequency (trace s) /\
               (cur_vfo s1, f_vfo s1, sideband s1, cur_band s1)
               = (cur_vfo s, f_vfo s, sideband s, cur_band s) /\
               length (f_lo s1) = length (f_lo s)).
  { subst s1. destruct (tuningknob s >? 2).
    - cbn [trace emit f_lo set_tuningknob set_f_lo lo_frequency dds_frequency
           cur_vfo f_vfo sideband cur_band].
      change (SYNTH_MS_0 =? SYNTH_MS_0) with true. cbv iota.
      split; [reflexivity|]. split; [reflexivity|]. split; [reflexivity|].
      unfold aset. apply length_insert.
    - split; [exact L|]. split; [reflexivity|]. split; reflexivity. }
  destruct A1 as (L1 & D1 & V1 & N1).
  set (s2 := if tuningknob s1 <? -2 then _ else s1) in H.
  assert (A2 : lo_frequency (trace s2) = Some (aget (f_lo s2) sb) /\
               dds_frequency (trace s2) = dds_frequency (trace s1) /\
               (cur_vfo s2, f_vfo s2, sideband s2, cur_band s2)
               = (cur_vfo s1, f_vfo s1, sideband s1, cur_band s1) /\
               length (f_lo s2) = length (f_lo s1)).
  { subst s2. destruct (tuningknob s1 <? -2).
    - cbn [trace emit f_lo set_tuningknob set_f_lo lo_frequency dds_frequency
           cur_vfo f_vfo sideband cur_band].
      change (SYNTH_MS_0 =? SYNTH_MS_0) with true. cbv iota.
      split; [reflexivity|]. split; [reflexivity|]. split; [reflexivity|].
      unfold aset. apply length_insert.
    - split; [exact L1|]. split; [reflexivity|]. split; reflexivity. }
  destruct A2 as (L2 & D2 & V2 & N2).
  pose proof (get_keys_config env s2) as C3.
  destruct (get_keys env s2) as [k s3]. cbn [snd] in C3.
  apply config_vars_fields in C3.
  destruct C3 as (C1 & C2 & C3 & C4 & C5 & _ & _ & _ & _ & _ & C11).
  apply IH in H; [|by rewrite C11, C3].
  destruct H as (L' & D' & V' & N'). split; [exact L'|].
  split; [rewrite D', C11; congruence|]. split; [|congruence].
  rewrite V'. rewrite C1, C2, C4, C5. congruence.
Qed.

Lemma set_lo_frequencies_oscillators (env : environment) (fuel : nat) (sb : Z) (s : state)
      (r : Z) (s' : state) :
  set_lo_frequencies env fuel sb s = Some (r, s') ->
  lo_frequency (trace s') = Some (aget (f_lo s') sb) /\
  dds_frequency (trace s')
  = Some (int32 (f_vfo_at s (cur_band s) (cur_vfo s) + aget (f_lo s) sb)) /\
  (cur_vfo s', f_vfo s', sideband s', cur_band s')
  = (cur_vfo s, f_vfo s, sideband s, cur_band s) /\
  length (f_lo s') = length (f_lo s) /\
  (r = 0 \/ r = aget (f_lo s') sb).
Proof.
  unfold set_lo_frequencies. intros H.
  destruct (release_keys env fuel s) as [s1|] eqn:R1; [|discriminate].
  apply release_keys_config, config_vars_fields in R1.
  destruct R1 as (A1 & A2 & A3 & A4 & A5 & _ & _ & _ & _ & _ & A11).
  cbv zeta in H.
  match type of H with context [lo_loop env fuel 0 sb ?x] =>
    assert (L : lo_frequency (trace x) = Some (aget (f_lo x) sb)) by reflexivity;
    assert (D : dds_frequency (trace x)
                = Some (int32 (f_vfo_at s1 (cur_band s1) (cur_vfo s1) + aget (f_lo s1) sb)))
      by reflexivity;
    assert (V : (cur_vfo x, f_vfo x, sideband x, cur_band x)
                = (cur_vfo s1, f_vfo s1, sideband s1, cur_band s1)) by reflexivity;
    assert (N : length (f_lo x) = length (f_lo s1)) by reflexivity;
    revert L D V N H; generalize x end.
  intros s2 L D V N H.
  destruct (lo_loop env fuel 0 sb s2) as [[key s3]|] eqn:E; [|discriminate].
  apply lo_loop_oscillators in E; [|exact L]. destruct E as (L3 & D3 & V3 & N3).
  destruct (release_keys env fuel s3) as [s4|] eqn:R4; [|discriminate].
  apply release_keys_config, config_vars_fields in R4.
  destruct R4 as (B1 & B2 & B3 & B4 & B5 & _ & _ & _ & _ & _ & B11).
  injection H as <- <-.
  split; [by rewrite B11, B3|].
  split; [rewrite B11, D3, D; unfold f_vfo_at; by rewrite A1, A2, A3, A5|].
  split; [rewrite B1, B2, B4, B5, V3, V; congruence|].
  split; [congruence|].
  destruct (negb (key =? 2)); [by left|by right].
Qed.

(** X22.  The LO dialog programs the DDS once, at its start, with the
    LO frequency of the sideband it adjusts, and never again; [main] does
    not program it either.  After the dialog the DDS therefore still
    carries the LO frequency the adjusted sideband had before: the radio
    is in tune only if that equals the LO frequency the current sideband
    has now.  The LO itself is on the frequency of the current sideband
    after "accept", and left on that of the adjusted sideband otherwise. *)
Theorem lo_dialog_leaves_dds (env : environment) (fuel : nat) (sb : Z) (s : state)
        (r : Z) (s' : state) :
  set_lo_frequencies env fuel sb s = Some (r, s') ->
  0 <= sb <= 1 -> length (f_lo s) = 3%nat ->
  let s'' := menu_lo_result (50 + sb) r s' in
  let f := f_vfo_at s (cur_band s) (cur_vfo s) in
  f_lo s'' = f_lo s' /\
  f_vfo_at s'' (cur_band s'') (cur_vfo s'') = f /\ sideband s'' = sideband s /\
  dds_frequency (trace s'') = Some (int32 (f + aget (f_lo s) sb)) /\
  (0 < r -> lo_in_tune s'') /\
  (r <= 0 -> lo_frequency (trace s'') = Some (aget (f_lo s') sb)) /\
  (dds_in_tune s''
   <-> int32 (f + aget (f_lo s) sb) = int32 (f + aget (f_lo s') (sideband s))).
Proof.
  intros H Hsb Hlen s'' f. subst f.
  destruct (set_lo_frequencies_oscillators env fuel sb s r s' H) as (L & D & V & N & R).
  injection V as V1 V2 V3 V4.
  assert (F : f_vfo_at s' (cur_band s') (cur_vfo s') = f_vfo_at s (cur_band s) (cur_vfo s))
    by (unfold f_vfo_at; by rewrite V1, V2, V4).
  assert (Q : (r <= 0 /\ s'' = s') \/
              (0 < r /\ f_lo s'' = f_lo s' /\
               trace s'' = Si5351_set_freq SYNTH_MS_0 (aget (f_lo s') (sideband s')) :: trace s' /\
               (cur_vfo s'', f_vfo s'', sideband s'', cur_band s'')
               = (cur_vfo s', f_vfo s', sideband s', cur_band s'))).
  { subst s''. unfold menu_lo_result. destruct (Z.gtb_spec r 0); [|left; split; [lia|reflexivity]].
    right. replace (int16 (50 + sb - 50)) with sb by (rewrite int16_id; lia).
    destruct R as [R|R]; [lia|].
    assert (E : aset (f_lo s') sb r = f_lo s')
      by (rewrite R; apply aset_aget; rewrite N, Hlen; lia).
    unfold set_lo. cbn [f_lo trace emit set_f_lo cur_vfo f_vfo sideband cur_band].
    rewrite E. split; [lia|]. split; [reflexivity|]. split; reflexivity. }
  clearbody s''.
  destruct Q as [(Hr & ->) | (Hr & Q1 & Q2 & Q3)].
  - split; [reflexivity|]. split; [exact F|]. split; [exact V3|]. split; [exact D|].
    split; [lia|]. split; [intros _; exact L|].
    unfold dds_in_tune. rewrite D, F, V3. split; intros E; [by injection E|by rewrite E].
  - injection Q3 as W1 W2 W3 W4.
    split; [exact Q1|].
    split; [unfold f_vfo_at; rewrite W1, W2, W4; exact F|].
    split; [congruence|].
    split; [rewrite Q2; cbn [dds_frequency]; exact D|].
    split; [intros _; unfold lo_in_tune; rewrite Q2, Q1, W3; cbn [lo_frequency];
            change (SYNTH_MS_0 =? SYNTH_MS_0) with true; reflexivity|].
    split; [lia|].
    unfold dds_in_tune. rewrite Q2. cbn [dds_frequency]. rewrite D, Q1, W3, V3.
    unfold f_vfo_at. rewrite W1, W2, W4. fold (f_vfo_at s' (cur_band s') (cur_vfo s')).
    rewrite F. split; intros E; [by injection E|by rewrite E].
Qed.

Lemma lo_dialog_leaves_dds_witness :
  let s := load_start_values (power_on ∅) in
  exists r s',
    set_lo_frequencies (script [idle; turn_cw; press 2]) 5 1 s = Some (r, s') /\
    r = 9001810 /\
    lo_in_tune (menu_lo_result 51 r s') /\ ~ dds_in_tune (menu_lo_result 51 r s').
Proof.
  intros s.
  destruct (set_lo_frequencies (script [idle; turn_cw; press 2]) 5 1 s) as [[r s']|] eqn:E;
    [|vm_compute in E; discriminate E].
  assert (R : r = 9001810) by (vm_compute in E; congruence).
  assert (F : aget (f_lo s') (sideband s) = 9001810)
    by (vm_compute in E; injection E as _ <-; reflexivity).
  destruct (lo_dialog_leaves_dds _ 5 1 s r s' E ltac:(lia) ltac:(reflexivity))
    as (_ & _ & _ & _ & A & _ & B).
  exists r, s'. split; [reflexivity|]. split; [exact R|]. split; [apply A; lia|].
  intros I. apply (proj1 B) in I. rewrite F in I. vm_compute in I. discriminate I.
Defined.

(* ================================================================== *)
(** * The VFO menu: where the preview leaves the DDS *)

Lemma nav_loop_preview (env : environment) (fuel : nat) (maxitems : Z) :
  forall key mpos s key' mpos' s',
    nav_loop env fuel 1 maxitems key mpos s = Some (key', mpos', s') ->
    (key <> 0 /\ s' = s /\ mpos' = mpos) \/
    (key = 0 /\ dds_at (f_vfo_at s' (cur_band s') mpos') s').
Proof.
  induction fuel as [|fuel IH]; intros key mpos s key' mpos' s' H; cbn [nav_loop] in H;
    (destruct (Z.eqb_spec key 0) as [K|K];
     [|injection H as _ <- <-; left; split; [exact K|]; split; reflexivity]);
    [discriminate|].
  right. split; [exact K|].
  destruct (if tuningknob s >? 2 then _ else (mpos, s)) as [mpos1 s1].
  destruct (if tuningknob s1 <? -2 then _ else (mpos1, s1)) as [mpos2 s2].
  change (1 =? 1) with true in H. change (1 =? 2) with false in H. cbv iota in H.
  assert (D : dds_at (f_vfo_at s2 (cur_band s2) mpos2)
                (set_frequency_ad9850
                   (int32 (f_vfo_at s2 (cur_band s2) mpos2 + aget (f_lo s2) (sideband s2))) s2))
    by reflexivity.
  destruct (dds_at_vfo_config mpos2 _ _ (get_keys_config env _) D) as [D3 _].
  destruct (get_keys env _) as [k s3]. cbn [snd] in D3.
  apply IH in H. destruct H as [(_ & -> & ->) | (_ & H)]; assumption.
Qed.

(** X23.  In the VFO menu the DDS follows the highlighted VFO, and
    [navigate_thru_item_list] leaves it there: when the function returns
    after at least one pass of its loop, the DDS is programmed for the VFO
    frequency of the item highlighted last, whichever key ended the list,
    and only the LO is programmed again.  Left with "next menu" or "quit"
    on the VFO that is not in use, the radio is therefore out of tune.  With
    a key already down at entry nothing is programmed but the LO. *)
Theorem vfo_menu_preview_stays (env : environment) (fuel : nat) (maxitems menu_pos : Z)
        (s : state) (r : Z) (s' : state) :
  navigate_thru_item_list env fuel 1 maxitems menu_pos s = Some (r, s') ->
  0 <= menu_pos <= maxitems -> maxitems <= 32766 ->
  settings s' = settings s /\
  (fst (get_keys env s) <> 0 -> dds_frequency (trace s') = dds_frequency (trace s)) /\
  (fst (get_keys env s) = 0 ->
   exists mpos,
     0 <= mpos <= maxitems /\ (r = mpos \/ r = -1 \/ r = -3) /\
     dds_at (f_vfo_at s (cur_band s) mpos) s' /\
     (dds_in_tune s' <-> dds_at (f_vfo_at s (cur_band s) (cur_vfo s)) s')).
Proof.
  intros H Hp Hm.
  destruct (navigate_thru_item_list_frame env fuel 1 maxitems menu_pos s r s' H Hp Hm)
    as [_ S].
  split; [exact S|].
  unfold navigate_thru_item_list in H.
  pose proof (get_keys_config env s) as C0.
  destruct (get_keys env s) as [k s0]. cbn [fst snd] in *.
  destruct (nav_loop env fuel 1 maxitems k menu_pos s0) as [[[key mpos] s1]|] eqn:E;
    [|discriminate].
  destruct (nav_loop_exit env fuel 1 maxitems ltac:(lia) _ _ _ _ _ _ E Hp) as (Hr & _ & _).
  apply nav_loop_preview in E.
  destruct (release_keys env fuel (set_lo (sideband s1) s1)) as [s2|] eqn:R; [|discriminate].
  apply release_keys_config, config_vars_fields in R.
  destruct R as (R1 & R2 & R3 & R4 & R5 & _ & _ & _ & _ & _ & R11).
  injection H as <- <-.
  apply config_vars_fields in C0. destruct C0 as (_ & _ & _ & _ & _ & _ & _ & _ & _ & _ & T0).
  unfold settings in S. injection S as S1 S2 S3 S4 S5 _ _ _ _.
  split.
  - intros K. destruct E as [(_ & -> & _) | (E & _)]; [|contradiction].
    rewrite R11. unfold set_lo. cbn [trace emit dds_frequency]. by rewrite T0.
  - intros K. destruct E as [(E & _) | (_ & D)]; [contradiction|].
    exists mpos. split; [exact Hr|]. split.
    { destruct (key =? 1); [tauto|]. destruct (key =? 2); [tauto|].
      destruct (key =? 3); tauto. }
    assert (D2 : dds_at (f_vfo_at s (cur_band s) mpos) s2).
    { unfold dds_at in *. rewrite R11, R3, R4. unfold set_lo.
      cbn [trace emit dds_frequency f_lo sideband].
      rewrite D. unfold f_vfo_at. f_equal. f_equal.
      unfold set_lo in R2, R5. cbn [f_vfo cur_band emit] in R2, R5. congruence. }
    split; [exact D2|].
    unfold dds_in_tune, dds_at. unfold f_vfo_at. rewrite S1, S2, S3, S4, S5. tauto.
Qed.

Lemma vfo_menu_preview_stays_witness :
  let s := load_start_values (power_on ∅) in
  exists s',
    navigate_thru_item_list (script [idle; turn_cw; press 3]) 5 1 1 0 s = Some (-3, s') /\
    cur_vfo s' = 0 /\ dds_at (f_vfo_at s (cur_band s) 1) s' /\ ~ dds_in_tune s'.
Proof.
  intros s.
  destruct (navigate_thru_item_list (script [idle; turn_cw; press 3]) 5 1 1 0 s)
    as [[r s']|] eqn:E; [|vm_compute in E; discriminate E].
  assert (R : r = -3) by (vm_compute in E; congruence).
  assert (V : cur_vfo s' = 0) by (vm_compute in E; injection E as _ <-; reflexivity).
  assert (T : dds_at (f_vfo_at s (cur_band s) 1) s')
    by (vm_compute in E; injection E as _ <-; reflexivity).
  destruct (vfo_menu_preview_stays _ 5 1 0 s r s' E ltac:(lia) ltac:(lia)) as (_ & _ & H).
  destruct (H eq_refl) as (mpos & _ & _ & _ & I).
  subst r. exists s'. split; [reflexivity|]. split; [exact V|]. split; [exact T|].
  intros J. apply (proj1 I) in J. unfold dds_at in T, J. rewrite J in T.
  vm_compute in E. injection E as <-. vm_compute in T. discriminate T.
Defined.

(* ================================================================== *)
(** * PA temperature *)

(** The literal is the quotient 881 / 100 as the target rounds it, within
    half a unit of its last place of 8.81. *)
Lemma lit_8_81_nearest :
  lit_8_81 = F32.div (F32.of_long 881) (F32.of_long 100) /\
  2 * Z.abs (9237955 * 100 - 881 * 2 ^ 20) <= 100.
Proof. split; [vm_compute; reflexivity|vm_compute; discriminate]. Qed.

Lemma pa_temp_table :
  holds_from (fun a => (pa_temp_of a =? pa_temp_exact a)
                       && (pa_temp_of a <=? pa_temp_of (a + 1))) 0 (Z.to_nat 1014) = true.
Proof. vm_cast_no_check (eq_refl true). Qed.

(** X24.  For every converter reading up to 1013 [get_pa_temp] returns
    exactly the formula it is written for,
    (1000 * adc / (1023 - adc) - 815) / 8.81 truncated towards zero: the
    rounding of the five [double] operations never shows, the reading 0
    (where the function divides by zero) gives -92, and the result never
    decreases when the reading grows. *)
Theorem get_pa_temp_exact (env : environment) (s : state) :
  let adc := adc (env (adc_count s)) 3 mod 1024 in
  adc <= 1013 ->
  fst (get_pa_temp env s) = pa_temp_exact adc /\
  -92 <= fst (get_pa_temp env s) <= 11405 /\
  pa_temp_of adc <= pa_temp_of (adc + 1).
Proof.
  intros a Ha. unfold get_pa_temp, get_adc. cbn [fst]. fold a.
  assert (R : 0 <= a < 1024) by (apply Z.mod_pos_bound; lia).
  pose proof (holds_from_spec _ _ _ pa_temp_table a ltac:(lia)) as T. cbv beta in T.
  apply andb_true_iff in T. destruct T as [T1 T2].
  apply Z.eqb_eq in T1. apply Z.leb_le in T2.
  split; [exact T1|]. split; [|exact T2]. rewrite T1. unfold pa_temp_exact.
  set (n := (1000 * a - 815 * (1023 - a)) * 100). set (d := 881 * (1023 - a)).
  assert (D : 0 < d) by (subst d; lia).
  destruct (Z_le_gt_dec 0 n) as [N|N].
  - rewrite Z.quot_div_nonneg by lia.
    assert (0 <= n / d) by (apply Z.div_pos; lia).
    assert (n / d < 11406) by (apply Z.div_lt_upper_bound; subst n d; lia). lia.
  - replace n with (- - n) by lia. rewrite Z.quot_opp_l by lia.
    rewrite Z.quot_div_nonneg by lia.
    assert (0 <= - n / d) by (apply Z.div_pos; lia).
    assert (- n / d < 93) by (apply Z.div_lt_upper_bound; subst n d; lia). lia.
Qed.

Lemma get_pa_temp_exact_witness :
  fst (get_pa_temp sensor_at_500 (power_on ∅)) = pa_temp_exact 500 /\
  pa_temp_exact 500 = 16.
Proof.
  destruct (get_pa_temp_exact sensor_at_500 (power_on ∅) ltac:(vm_compute; discriminate))
    as [A _].
  split; [exact A|reflexivity].
Defined.
